(** * cloud9: the transactional object repository and its resource handlers

    A shallow embedding of package [repo] (object store, transactions, key
    encoding, name index) and of the user and group handlers of package
    [server], followed by the properties of the repository specification.

    Conventions.
    - [uint64] is [N]; the conversions [byte(x)] and the wrap-around of the
      sequence counter are written out.
    - [[]byte] is [list byte]; a Go [string] is a [string] (a sequence of
      8-bit characters); [[]byte(s)] is [list_byte_of_string s].
    - A Go call that can return an error or panic returns an [outcome]. *)

From Stdlib Require Import NArith Lia List Sorted Bool.
From Stdlib Require Import Strings.String Strings.Ascii Strings.Byte DecimalString.
From Stdlib Require DecimalPos DecimalN.
From stdpp Require Import gmap strings fin_maps.
Import ListNotations.

Local Open Scope N_scope.

Abbreviation bytes := (list byte).

Module repo.

(** [type ObjectType string]: an object type is the name of its bucket. *)
Abbreviation ObjectType := string (only parsing).

Definition BLOB : ObjectType := "blob"%string.
Definition USER : ObjectType := "user"%string.
Definition GROUP : ObjectType := "group"%string.

Definition requiredBuckets : list string :=
  ["blob"; "user"; "user.byname"; "group"; "group.byname"]%string.

(** The errors a transaction can return: the two error structs of the
    package, and the argument checks of the storage engine's [Put],
    [Delete] and [NextSequence]. *)
Inductive error : Type :=
| NotFoundError (Type_ : ObjectType) (Id : N) (Name : string)
| DuplicateError (Type_ : ObjectType) (ExistingId : N) (DesiredName : string)
| ErrTxNotWritable
| ErrKeyRequired
| ErrKeyTooLarge
| ErrValueTooLarge.

(** A call returns a value, returns an error, or panics. *)
Inductive outcome (A : Type) : Type :=
| Ok (a : A)
| Err (e : error)
| Panic.

Arguments Ok {A} a.
Arguments Err {A} e.
Arguments Panic {A}.

(** ** Key encoding *)

(** The conversion [byte(x)] of an unsigned integer keeps its low 8 bits. *)
Definition byte_of_N (x : N) : byte :=
  match Byte.of_N (N.land x 255) with
  | Some b => b
  | None => x00
  end.

(** [binary.BigEndian.PutUint64] on a fresh 8-byte slice. *)
Definition BigEndian_PutUint64 (v : N) : bytes :=
  [ byte_of_N (N.shiftr v 56); byte_of_N (N.shiftr v 48);
    byte_of_N (N.shiftr v 40); byte_of_N (N.shiftr v 32);
    byte_of_N (N.shiftr v 24); byte_of_N (N.shiftr v 16);
    byte_of_N (N.shiftr v 8);  byte_of_N v ].

(** [binary.BigEndian.Uint64], reading [b[0..7]]. *)
Definition BigEndian_Uint64 (b : bytes) : N :=
  let at_ i := Byte.to_N (nth i b x00) in
  N.lor (N.lor (N.lor (N.lor (N.lor (N.lor (N.lor
    (at_ 7%nat)
    (N.shiftl (at_ 6%nat) 8))
    (N.shiftl (at_ 5%nat) 16))
    (N.shiftl (at_ 4%nat) 24))
    (N.shiftl (at_ 3%nat) 32))
    (N.shiftl (at_ 2%nat) 40))
    (N.shiftl (at_ 1%nat) 48))
    (N.shiftl (at_ 0%nat) 56).

(** [u64tob] returns an 8-byte big endian representation of [v]. *)
Definition u64tob (v : N) : bytes := BigEndian_PutUint64 v.

(** [btou64]: a slice shorter than 8 bytes is copied to the end of a zeroed
    8-byte slice; a slice longer than 8 bytes panics. *)
Definition btou64 (b : bytes) : outcome N :=
  let b :=
    if (length b <? 8)%nat
    then repeat x00 (8 - length b)%nat ++ b
    else b in
  if (8 <? length b)%nat then Panic else Ok (BigEndian_Uint64 b).

(** ** The storage engine

    The engine (bolt) is an ordered key-value store: a bucket keeps its
    entries sorted by key under [bytes.Compare] and carries a sequence
    counter of type [uint64]. *)

(** [bytes.Compare]: lexicographic on unsigned bytes, a proper prefix first. *)
Fixpoint bytes_compare (a b : bytes) : comparison :=
  match a, b with
  | [], [] => Eq
  | [], _ :: _ => Lt
  | _ :: _, [] => Gt
  | x :: a', y :: b' =>
      match N.compare (Byte.to_N x) (Byte.to_N y) with
      | Eq => bytes_compare a' b'
      | c => c
      end
  end.

Record Bucket : Type := mkBucket {
  entries : list (bytes * bytes);
  sequence : N
}.

Definition emptyBucket : Bucket := {| entries := []; sequence := 0 |}.

Fixpoint entries_get (k : bytes) (es : list (bytes * bytes)) : option bytes :=
  match es with
  | [] => None
  | (k', v) :: es' =>
      match bytes_compare k k' with
      | Eq => Some v
      | _ => entries_get k es'
      end
  end.

Fixpoint entries_put (k v : bytes) (es : list (bytes * bytes))
  : list (bytes * bytes) :=
  match es with
  | [] => [(k, v)]
  | (k', v') :: es' =>
      match bytes_compare k k' with
      | Lt => (k, v) :: es
      | Eq => (k, v) :: es'
      | Gt => (k', v') :: entries_put k v es'
      end
  end.

Fixpoint entries_delete (k : bytes) (es : list (bytes * bytes))
  : list (bytes * bytes) :=
  match es with
  | [] => []
  | (k', v') :: es' =>
      match bytes_compare k k' with
      | Eq => entries_delete k es'
      | _ => (k', v') :: entries_delete k es'
      end
  end.

Definition MaxKeySize : N := 32768.
Definition MaxValueSize : N := 2147483646.

(** [Bucket.Get]: the value of the key, [None] (nil) when there is none. *)
Definition Bucket_Get (b : Bucket) (k : bytes) : option bytes :=
  entries_get k (entries b).

(** [Bucket.Put]: refused in a read-only transaction, for a blank key, and
    for a key or a value over the engine's size limits. *)
Definition Bucket_Put (writable : bool) (b : Bucket) (k v : bytes)
  : outcome Bucket :=
  if negb writable then Err ErrTxNotWritable
  else if (length k =? 0)%nat then Err ErrKeyRequired
  else if MaxKeySize <? N.of_nat (length k) then Err ErrKeyTooLarge
  else if MaxValueSize <? N.of_nat (length v) then Err ErrValueTooLarge
  else Ok {| entries := entries_put k v (entries b); sequence := sequence b |}.

(** [Bucket.Delete]: removing a key that is not there is not an error. *)
Definition Bucket_Delete (writable : bool) (b : Bucket) (k : bytes)
  : outcome Bucket :=
  if negb writable then Err ErrTxNotWritable
  else Ok {| entries := entries_delete k (entries b); sequence := sequence b |}.

(** [Bucket.NextSequence]: [sequence++] on a [uint64], then its value. *)
Definition Bucket_NextSequence (writable : bool) (b : Bucket)
  : outcome (N * Bucket) :=
  if negb writable then Err ErrTxNotWritable
  else
    let s := (sequence b + 1) mod 2 ^ 64 in
    Ok (s, {| entries := entries b; sequence := s |}).

(** [Bucket.ForEach]: the entries in key order, until [fn] returns an error. *)
Fixpoint Bucket_ForEach {S : Type} (es : list (bytes * bytes))
  (fn : bytes -> bytes -> S -> outcome unit * S) (s : S) : outcome unit * S :=
  match es with
  | [] => (Ok tt, s)
  | (k, v) :: es' =>
      match fn k v s with
      | (Ok _, s') => Bucket_ForEach es' fn s'
      | (r, s') => (r, s')
      end
  end.

(** ** Transactions *)

(** [bolt.Tx]: whether the transaction may write, and its view of the
    buckets of the store. *)
Record BoltTx : Type := mkBoltTx {
  writable : bool;
  buckets : gmap string Bucket
}.

(** [repo.Tx]: an engine transaction scoped to one object type. *)
Record Tx : Type := mkTx {
  bolttx : BoltTx;
  ot : ObjectType
}.

(** [tx.bolttx.Bucket(name)]: [None] is the nil bucket. *)
Definition Tx_Bucket (tx : Tx) (name : string) : option Bucket :=
  buckets (bolttx tx) !! name.

Definition set_bucket (tx : Tx) (name : string) (b : Bucket) : Tx :=
  {| bolttx := {| writable := writable (bolttx tx);
                  buckets := <[name := b]> (buckets (bolttx tx)) |};
     ot := ot tx |}.

(** A transaction step: the outcome, and the transaction after it. *)
Definition M (A : Type) : Type := Tx -> outcome A * Tx.

Definition ret {A : Type} (a : A) : M A := fun tx => (Ok a, tx).

Definition bind {A B : Type} (m : M A) (k : A -> M B) : M B :=
  fun tx =>
    match m tx with
    | (Ok a, tx') => k a tx'
    | (Err e, tx') => (Err e, tx')
    | (Panic, tx') => (Panic, tx')
    end.

Definition byname (o : ObjectType) : string := (o ++ ".byname")%string.

Class Strings : Type := {
  (** [strings.ToLower] on a string that is not pure ASCII. *)
  unicodeToLower : string -> string
}.

Section Transactions.
Context {GoStrings : Strings}.

Definition isASCII (s : string) : bool :=
  forallb (fun c => N_of_ascii c <? 128) (list_ascii_of_string s).

Definition lowerASCII (c : ascii) : ascii :=
  let n := N_of_ascii c in
  if (65 <=? n) && (n <=? 90) then ascii_of_N (n + 32) else c.

Fixpoint mapASCII (f : ascii -> ascii) (s : string) : string :=
  match s with
  | EmptyString => EmptyString
  | String c s' => String (f c) (mapASCII f s')
  end.

(** [strings.ToLower]: on ASCII input the letters [A-Z] are shifted to
    [a-z]; other input goes through the Unicode tables. *)
Definition ToLower (s : string) : string :=
  if isASCII s then mapASCII lowerASCII s else unicodeToLower s.

Definition ForEach {S : Type} (fn : N -> bytes -> S -> outcome unit * S)
  (tx : Tx) (s : S) : outcome unit * S :=
  match Tx_Bucket tx (ot tx) with
  | None => (Panic, s)
  | Some b =>
      Bucket_ForEach (entries b)
        (fun k v s =>
           match btou64 k with
           | Ok id => fn id v s
           | Err e => (Err e, s)
           | Panic => (Panic, s)
           end) s
  end.

Definition AllocateId : M N := fun tx =>
  match Tx_Bucket tx (ot tx) with
  | None => (Panic, tx)
  | Some b =>
      match Bucket_NextSequence (writable (bolttx tx)) b with
      | Ok (id, b') => (Ok id, set_bucket tx (ot tx) b')
      | Err e => (Err e, tx)
      | Panic => (Panic, tx)
      end
  end.

Definition Get (id : N) : M bytes := fun tx =>
  match Tx_Bucket tx (ot tx) with
  | None => (Panic, tx)
  | Some b =>
      let k := u64tob id in
      match Bucket_Get b k with
      | None => (Err (NotFoundError (ot tx) id ""), tx)
      | Some v => (Ok v, tx)
      end
  end.

Definition Put (id : N) (v : bytes) : M unit := fun tx =>
  match Tx_Bucket tx (ot tx) with
  | None => (Panic, tx)
  | Some b =>
      let k := u64tob id in
      match Bucket_Put (writable (bolttx tx)) b k v with
      | Ok b' => (Ok tt, set_bucket tx (ot tx) b')
      | Err e => (Err e, tx)
      | Panic => (Panic, tx)
      end
  end.

Definition Delete (id : N) : M unit := fun tx =>
  match Tx_Bucket tx (ot tx) with
  | None => (Panic, tx)
  | Some b =>
      let k := u64tob id in
      match Bucket_Get b k with
      | None => (Err (NotFoundError (ot tx) id ""), tx)
      | Some _ =>
          match Bucket_Delete (writable (bolttx tx)) b k with
          | Ok b' => (Ok tt, set_bucket tx (ot tx) b')
          | Err e => (Err e, tx)
          | Panic => (Panic, tx)
          end
      end
  end.

Definition Lookup (name : string) : M N := fun tx =>
  let lcname := ToLower name in
  match Tx_Bucket tx (byname (ot tx)) with
  | None => (Panic, tx)
  | Some b =>
      match Bucket_Get b (list_byte_of_string lcname) with
      | None => (Err (NotFoundError (ot tx) 0 name), tx)
      | Some k =>
          match btou64 k with
          | Ok id => (Ok id, tx)
          | Err e => (Err e, tx)
          | Panic => (Panic, tx)
          end
      end
  end.

Definition Associate (id : N) (name : string) : M unit := fun tx =>
  let lcname := ToLower name in
  match Tx_Bucket tx (byname (ot tx)) with
  | None => (Panic, tx)
  | Some b =>
      match Bucket_Get b (list_byte_of_string lcname) with
      | Some k =>
          match btou64 k with
          | Ok existingId => (Err (DuplicateError (ot tx) existingId name), tx)
          | Err e => (Err e, tx)
          | Panic => (Panic, tx)
          end
      | None =>
          let k := u64tob id in
          match Bucket_Put (writable (bolttx tx)) b
                  (list_byte_of_string lcname) k with
          | Ok b' => (Ok tt, set_bucket tx (byname (ot tx)) b')
          | Err e => (Err e, tx)
          | Panic => (Panic, tx)
          end
      end
  end.

Definition Unassociate (name : string) : M unit := fun tx =>
  let lcname := ToLower name in
  match Tx_Bucket tx (byname (ot tx)) with
  | None => (Panic, tx)
  | Some b =>
      match Bucket_Delete (writable (bolttx tx)) b
              (list_byte_of_string lcname) with
      | Ok b' => (Ok tt, set_bucket tx (byname (ot tx)) b')
      | Err e => (Err e, tx)
      | Panic => (Panic, tx)
      end
  end.

End Transactions.

(** ** The object store *)

(** [Repo]: the handle of the open store; [db] is its committed content. *)
Record Repo : Type := mkRepo {
  db : gmap string Bucket
}.

(** [tx.CreateBucketIfNotExists]. *)
Definition CreateBucketIfNotExists (m : gmap string Bucket) (name : string)
  : gmap string Bucket :=
  match m !! name with
  | Some _ => m
  | None => <[name := emptyBucket]> m
  end.

(** [Open] on the content found in the store file: every required bucket
    is created unless it exists. *)
Definition Open (file : gmap string Bucket) : Repo :=
  {| db := fold_left CreateBucketIfNotExists requiredBuckets file |}.

(** [Close] leaves the committed content in the file. *)
Definition Close (r : Repo) : gmap string Bucket := db r.

(** [Repo.View]: [fn] runs on a read-only transaction; nothing is written. *)
Definition View {A : Type} (r : Repo) (o : ObjectType) (fn : M A)
  : outcome A :=
  fst (fn {| bolttx := {| writable := false; buckets := db r |}; ot := o |}).

(** [Repo.Update]: [fn] runs on a read-write transaction, which commits
    when [fn] returns nil and is rolled back when [fn] returns an error or
    panics. *)
Definition Update {A : Type} (r : Repo) (o : ObjectType) (fn : M A)
  : outcome A * Repo :=
  match fn {| bolttx := {| writable := true; buckets := db r |}; ot := o |} with
  | (Ok a, tx') => (Ok a, {| db := buckets (bolttx tx') |})
  | (Err e, _) => (Err e, r)
  | (Panic, _) => (Panic, r)
  end.

End repo.

Module server.
Import repo.

(** HTTP headers used by the handlers (const.go). *)
Definition ContentLength : string := "Content-Length".
Definition ContentType : string := "Content-Type".
Definition CacheControl : string := "Cache-Control".
Definition ETag : string := "Etag".
Definition Location : string := "Location".
Definition CacheControlNoCache : string := "no-cache".
Definition MediaTypeJSON : string := "application/json".
Definition MediaTypeText : string := "text/plain; charset=utf-8".

(** [http.ResponseWriter]: the headers set, the status and the body
    written so far; [Status = 0] while no status has been written. *)
Record ResponseWriter : Type := mkResponse {
  Header : gmap string string;
  Status : N;
  Body : bytes
}.

Definition newResponse : ResponseWriter :=
  {| Header := ∅; Status := 0; Body := [] |}.

Definition Header_Set (w : ResponseWriter) (k v : string) : ResponseWriter :=
  {| Header := <[k := v]> (Header w); Status := Status w; Body := Body w |}.

Definition WriteHeader (w : ResponseWriter) (code : N) : ResponseWriter :=
  {| Header := Header w; Status := code; Body := Body w |}.

Definition Write (w : ResponseWriter) (raw : bytes) : ResponseWriter :=
  {| Header := Header w; Status := Status w; Body := Body w ++ raw |}.

(** [http.Error]: a plain-text reply with the given status; headers set
    before it, such as the entity tag, stay. *)
Definition http_Error (w : ResponseWriter) (msg : string) (code : N)
  : ResponseWriter :=
  Write (WriteHeader (Header_Set w ContentType MediaTypeText) code)
        (list_byte_of_string (msg ++ String "010" EmptyString)).

Definition http_NotFound (w : ResponseWriter) : ResponseWriter :=
  http_Error w "404 page not found" 404.

(** [fmt.Sprintf("%d", n)]. *)
Definition itoa (n : N) : string :=
  NilZero.string_of_uint (N.to_uint n).

Module User.
Record t : Type := mk {
  Id : N;
  UserName : string;
  DisplayName : string;
  EMail : string;
  URL : string
}.
Definition zero : t := mk 0 "" "" "" "".
End User.

Module UserDelta.
Record t : Type := mk {
  UserName : option string;
  DisplayName : option string;
  EMail : option string;
  URL : option string
}.
End UserDelta.

Module Group.
Record t : Type := mk {
  Id : N;
  GroupName : string;
  Description : string;
  Users : list N
}.
Definition zero : t := mk 0 "" "" [].
End Group.

Module GroupDelta.
Record t : Type := mk {
  GroupName : option string;
  Description : option string;
  Users : option (list N)
}.
End GroupDelta.

(** [UserLifetime], [GroupLifetime]: [false] is new, [true] is existing. *)
Definition NewUser : bool := false.
Definition ExistingUser : bool := true.
Definition NewGroup : bool := false.
Definition ExistingGroup : bool := true.

(** What the handlers take from outside the repository: the compiled
    regular expressions, the protobuf and JSON codecs, and the entity tag
    of a byte sequence. [None] from an unmarshaller is its error. *)
Class Wire : Type := {
  reUserName_MatchString : string -> bool;
  reUserDisplayName_MatchString : string -> bool;
  reEMail_MatchString : string -> bool;
  reURL_MatchString : string -> bool;
  reGroupName_MatchString : string -> bool;
  reGroupDescription_MatchString : string -> bool;
  proto_Marshal_User : User.t -> bytes;
  proto_Unmarshal_User : bytes -> option User.t;
  proto_Marshal_Group : Group.t -> bytes;
  proto_Unmarshal_Group : bytes -> option Group.t;
  json_Marshal_User : User.t -> bytes;
  json_Marshal_Group : Group.t -> bytes;
  ETagFor : bytes -> string
}.

Declare Scope tx_scope.
Delimit Scope tx_scope with tx.
Notation "'let*' x ':=' m 'in' k" := (bind m (fun x => k))
  (at level 10, x name, m at level 100, k at level 200) : tx_scope.

Section Handlers.
Context {GoStrings : Strings} {W : Wire}.

Definition str_eqb (a b : string) : bool := String.eqb a b.

(** [MustMarshalJSON]: the JSON text followed by CR LF. *)
Definition MustMarshalJSON_User (u : User.t) : bytes :=
  json_Marshal_User u ++ [x0d; x0a].

Definition MustMarshalJSON_Group (g : Group.t) : bytes :=
  json_Marshal_Group g ++ [x0d; x0a].

(** [MustUnmarshalProto]: panics on an unmarshalling error. *)
Definition MustUnmarshalProto_User (raw : bytes) : M User.t := fun tx =>
  match proto_Unmarshal_User raw with
  | Some u => (Ok u, tx)
  | None => (Panic, tx)
  end.

Definition MustUnmarshalProto_Group (raw : bytes) : M Group.t := fun tx =>
  match proto_Unmarshal_Group raw with
  | Some g => (Ok g, tx)
  | None => (Panic, tx)
  end.

(** [UserDelta.Validate]: [Some msg] is the error returned. *)
Definition UserDelta_Validate (d : UserDelta.t) (lifetime : bool)
  : option string :=
  if negb lifetime && negb (bool_decide (is_Some (UserDelta.UserName d)))
  then Some "Field 'user_name' must be set"%string
  else if negb lifetime && negb (bool_decide (is_Some (UserDelta.EMail d)))
  then Some "Field 'email' must be set"%string
  else
    let e1 :=
      match UserDelta.UserName d with
      | Some n =>
          if lifetime then Some "Field 'user_name' cannot be changed"%string
          else if str_eqb n "" then Some "Field 'user_name' must be set"%string
          else if negb (reUserName_MatchString n)
          then Some "Field 'user_name' must start with a letter and consist of letters and numbers"%string
          else None
      | None => None
      end in
    match e1 with
    | Some msg => Some msg
    | None =>
    let e2 :=
      match UserDelta.DisplayName d with
      | Some n =>
          if str_eqb n "" then None
          else if negb (reUserDisplayName_MatchString n)
          then Some "Field 'display_name' must not contain control characters"%string
          else None
      | None => None
      end in
    match e2 with
    | Some msg => Some msg
    | None =>
    let e3 :=
      match UserDelta.EMail d with
      | Some n =>
          if str_eqb n "" then Some "Field 'email' must be set"%string
          else if negb (reEMail_MatchString n)
          then Some "Field 'email' must be a valid e-mail address"%string
          else None
      | None => None
      end in
    match e3 with
    | Some msg => Some msg
    | None =>
      match UserDelta.URL d with
      | Some n =>
          if str_eqb n "" then None
          else if negb (reURL_MatchString n)
          then Some "Field 'url' must be a valid HTTP(S) URL"%string
          else None
      | None => None
      end
    end end end.

(** [UserDelta.Apply]: the assignments in source order. *)
Definition UserDelta_Apply (d : UserDelta.t) (u : User.t) : User.t :=
  let u :=
    match UserDelta.UserName d with
    | Some n => User.mk (User.Id u) n (User.DisplayName u) (User.EMail u) (User.URL u)
    | None => u
    end in
  let u :=
    match UserDelta.DisplayName d with
    | Some n =>
        if str_eqb n ""
        then User.mk (User.Id u) (User.UserName u) (User.UserName u) (User.EMail u) (User.URL u)
        else User.mk (User.Id u) (User.UserName u) n (User.EMail u) (User.URL u)
    | None => u
    end in
  let u :=
    match UserDelta.EMail d with
    | Some n => User.mk (User.Id u) (User.UserName u) (User.DisplayName u) n (User.URL u)
    | None => u
    end in
  match UserDelta.URL d with
  | Some n => User.mk (User.Id u) (User.UserName u) (User.DisplayName u) (User.EMail u) n
  | None => u
  end.

(** [GroupDelta.Validate]. *)
Definition GroupDelta_Validate (d : GroupDelta.t) (lifetime : bool)
  : option string :=
  if negb lifetime && negb (bool_decide (is_Some (GroupDelta.GroupName d)))
  then Some "Field 'group_name' must be set"%string
  else
    let e1 :=
      match GroupDelta.GroupName d with
      | Some n =>
          if lifetime then Some "Field 'group_name' cannot be changed"%string
          else if str_eqb n "" then Some "Field 'group_name' must be set"%string
          else if negb (reGroupName_MatchString n)
          then Some "Field 'group_name' must start with a letter and consist of letters and numbers"%string
          else None
      | None => None
      end in
    match e1 with
    | Some msg => Some msg
    | None =>
    let e2 :=
      match GroupDelta.Description d with
      | Some n =>
          if str_eqb n "" then None
          else if negb (reGroupDescription_MatchString n)
          then Some "Field 'description' must not contain control characters"%string
          else None
      | None => None
      end in
    match e2 with
    | Some msg => Some msg
    | None =>
      match GroupDelta.Users d with
      | Some ids =>
          if existsb (fun id => id =? 0) ids
          then Some "Field 'users' must contain valid user IDs"%string
          else None
      | None => None
      end
    end end.

(** [GroupDelta.Apply]: [Users] receives a copy of the slice. *)
Definition GroupDelta_Apply (d : GroupDelta.t) (g : Group.t) : Group.t :=
  let g :=
    match GroupDelta.GroupName d with
    | Some n => Group.mk (Group.Id g) n (Group.Description g) (Group.Users g)
    | None => g
    end in
  let g :=
    match GroupDelta.Description d with
    | Some n => Group.mk (Group.Id g) (Group.GroupName g) n (Group.Users g)
    | None => g
    end in
  match GroupDelta.Users d with
  | Some ids => Group.mk (Group.Id g) (Group.GroupName g) (Group.Description g) ids
  | None => g
  end.

(** The closure passed to [Repo.Update] by [CreateUser]; it returns the
    user with the allocated id. *)
Definition CreateUser_tx (u : User.t) : M User.t :=
  (let* id := AllocateId in
   let u := User.mk id (User.UserName u) (User.DisplayName u)
                    (User.EMail u) (User.URL u) in
   let* _ := Associate (User.Id u) (User.UserName u) in
   let* _ := Put (User.Id u) (proto_Marshal_User u) in
   ret u)%tx.

(** [UserHandler.CreateUser] on a request whose JSON body parsed to
    [delta]: the reply written (a panic leaves none) and the store. *)
Definition CreateUser (h : Repo) (delta : UserDelta.t)
  : outcome ResponseWriter * Repo :=
  let w := newResponse in
  match UserDelta_Validate delta NewUser with
  | Some msg => (Ok (http_Error w msg 400), h)
  | None =>
      let u := UserDelta_Apply delta User.zero in
      match Update h USER (CreateUser_tx u) with
      | (Err (DuplicateError _ _ _), h') =>
          (Ok (http_Error w "There is already a user with that name." 409), h')
      | (Err _, h') => (Ok (http_Error w "Internal Server Error" 500), h')
      | (Panic, h') => (Panic, h')
      | (Ok u, h') =>
          let raw := MustMarshalJSON_User u in
          let w := Header_Set w ContentLength (itoa (N.of_nat (length raw))) in
          let w := Header_Set w ContentType MediaTypeJSON in
          let w := Header_Set w CacheControl CacheControlNoCache in
          let w := Header_Set w ETag (ETagFor raw) in
          let w := Header_Set w Location ("/user/" ++ User.UserName u) in
          (Ok (Write (WriteHeader w 201) raw), h')
      end
  end.

(** The closure passed to [Repo.Update] by [PutUser]: the reply written
    inside it, the user read or updated, and the flag [done]. *)
Definition PutUser_tx (delta : UserDelta.t) (expectETag : string)
  (userId : N) (userName : string) : M (ResponseWriter * User.t * bool) :=
  (let w := newResponse in
   let* userId := (if userId =? 0 then Lookup userName else ret userId) in
   let* value := Get userId in
   let* u := MustUnmarshalProto_User value in
   let actualETag := ETagFor (MustMarshalJSON_User u) in
   if str_eqb expectETag "" then
     ret (http_Error (Header_Set w ETag actualETag)
            "Header 'If-Match' is required" 428, u, true)
   else if negb (str_eqb expectETag actualETag) then
     ret (http_Error (Header_Set w ETag actualETag) "ETag mismatch" 412,
          u, true)
   else
     let u := UserDelta_Apply delta u in
     let* _ := Put userId (proto_Marshal_User u) in
     ret (w, u, false))%tx.

(** [UserHandler.PutUser]; [expectETag] is the value of the request's
    [If-Match] header, empty when the header is absent. *)
Definition PutUser (h : Repo) (delta : UserDelta.t) (expectETag : string)
  (userId : N) (userName : string) : outcome ResponseWriter * Repo :=
  let w := newResponse in
  match UserDelta_Validate delta ExistingUser with
  | Some msg => (Ok (http_Error w msg 400), h)
  | None =>
      match Update h USER (PutUser_tx delta expectETag userId userName) with
      | (Err (NotFoundError _ _ _), h') => (Ok (http_NotFound w), h')
      | (Err _, h') => (Ok (http_Error w "Internal Server Error" 500), h')
      | (Panic, h') => (Panic, h')
      | (Ok (w, u, done), h') =>
          if done then (Ok w, h')
          else
            let raw := MustMarshalJSON_User u in
            let w := Header_Set w ContentLength (itoa (N.of_nat (length raw))) in
            let w := Header_Set w ContentType MediaTypeJSON in
            let w := Header_Set w CacheControl CacheControlNoCache in
            let w := Header_Set w ETag (ETagFor raw) in
            (Ok (Write (WriteHeader w 200) raw), h')
      end
  end.

Definition CreateGroup_tx (g : Group.t) : M Group.t :=
  (let* id := AllocateId in
   let g := Group.mk id (Group.GroupName g) (Group.Description g)
                     (Group.Users g) in
   let* _ := Associate (Group.Id g) (Group.GroupName g) in
   let* _ := Put (Group.Id g) (proto_Marshal_Group g) in
   ret g)%tx.

(** [GroupHandler.CreateGroup]. *)
Definition CreateGroup (h : Repo) (delta : GroupDelta.t)
  : outcome ResponseWriter * Repo :=
  let w := newResponse in
  match GroupDelta_Validate delta NewGroup with
  | Some msg => (Ok (http_Error w msg 400), h)
  | None =>
      let g := GroupDelta_Apply delta Group.zero in
      match Update h GROUP (CreateGroup_tx g) with
      | (Err (DuplicateError _ _ _), h') =>
          (Ok (http_Error w "There is already a group with that name." 409), h')
      | (Err _, h') => (Ok (http_Error w "Internal Server Error" 500), h')
      | (Panic, h') => (Panic, h')
      | (Ok g, h') =>
          let raw := MustMarshalJSON_Group g in
          let w := Header_Set w ContentLength (itoa (N.of_nat (length raw))) in
          let w := Header_Set w ContentType MediaTypeJSON in
          let w := Header_Set w CacheControl CacheControlNoCache in
          let w := Header_Set w ETag (ETagFor raw) in
          let w := Header_Set w Location ("/group/" ++ Group.GroupName g) in
          (Ok (Write (WriteHeader w 201) raw), h')
      end
  end.

Definition PutGroup_tx (delta : GroupDelta.t) (expectETag : string)
  (groupId : N) (groupName : string) : M (ResponseWriter * Group.t * bool) :=
  (let w := newResponse in
   let* groupId := (if groupId =? 0 then Lookup groupName else ret groupId) in
   let* value := Get groupId in
   let* g := MustUnmarshalProto_Group value in
   let actualETag := ETagFor (MustMarshalJSON_Group g) in
   if str_eqb expectETag "" then
     ret (http_Error (Header_Set w ETag actualETag)
            "Header 'If-Match' is required" 428, g, true)
   else if negb (str_eqb expectETag actualETag) then
     ret (http_Error (Header_Set w ETag actualETag) "ETag mismatch" 412,
          g, true)
   else
     let g := GroupDelta_Apply delta g in
     let* _ := Put groupId (proto_Marshal_Group g) in
     ret (w, g, false))%tx.

(** [GroupHandler.PutGroup]. *)
Definition PutGroup (h : Repo) (delta : GroupDelta.t) (expectETag : string)
  (groupId : N) (groupName : string) : outcome ResponseWriter * Repo :=
  let w := newResponse in
  match GroupDelta_Validate delta ExistingGroup with
  | Some msg => (Ok (http_Error w msg 400), h)
  | None =>
      match Update h GROUP (PutGroup_tx delta expectETag groupId groupName) with
      | (Err (NotFoundError _ _ _), h') => (Ok (http_NotFound w), h')
      | (Err _, h') => (Ok (http_Error w "Internal Server Error" 500), h')
      | (Panic, h') => (Panic, h')
      | (Ok (w, g, done), h') =>
          if done then (Ok w, h')
          else
            let raw := MustMarshalJSON_Group g in
            let w := Header_Set w ContentLength (itoa (N.of_nat (length raw))) in
            let w := Header_Set w ContentType MediaTypeJSON in
            let w := Header_Set w CacheControl CacheControlNoCache in
            let w := Header_Set w ETag (ETagFor raw) in
            (Ok (Write (WriteHeader w 200) raw), h')
      end
  end.

End Handlers.

(** ** Requests and routing *)

(** More constants of const.go. *)
Definition OPTIONS : string := "OPTIONS".
Definition GET : string := "GET".
Definition HEAD : string := "HEAD".
Definition POST : string := "POST".
Definition PUT : string := "PUT".
Definition DELETE : string := "DELETE".
Definition Allow : string := "Allow".
Definition IfMatch : string := "If-Match".
Definition XForwardedFor : string := "X-Forwarded-For".
Definition CacheControlPublic : string := "public, max-age=86400".
Definition MediaTypeBinary : string := "application/octet-stream".

(** What a handler reads of an [http.Request]: the method, [URL.Path],
    the header map, the body as [ioutil.ReadAll] returns it ([None] is its
    error), and [RemoteAddr]. *)
Module Request.
Record t : Type := mk {
  Method : string;
  Path : string;
  Header : gmap string (list string);
  Body : option bytes;
  RemoteAddr : string
}.
End Request.

(** [r.Header.Get(key)] for a key in canonical form. *)
Definition Header_Get (r : Request.t) (key : string) : string :=
  match Request.Header r !! key with
  | Some (v :: _) => v
  | _ => ""%string
  end.

(** What the request handling takes from outside the repository. *)
Class Net : Type := {
  (** [strings.ToUpper] on a string that is not pure ASCII. *)
  unicodeToUpper : string -> string;
  strings_EqualFold : string -> string -> bool;
  reMultipartMediaType_MatchString : string -> bool;
  json_Unmarshal_UserDelta : bytes -> option UserDelta.t;
  json_Unmarshal_GroupDelta : bytes -> option GroupDelta.t;
  json_Marshal_UserList : list User.t -> bytes;
  json_Marshal_GroupList : list Group.t -> bytes;
  (** JSON of a list of [BlobReference], given by their ids. *)
  json_Marshal_BlobList : list N -> bytes;
  json_Marshal_BlobReference : N -> bytes;
  (** [http.ServeContent] with an empty name and the zero time. *)
  http_ServeContent : ResponseWriter -> Request.t -> bytes -> ResponseWriter;
  net_SplitHostPort : string -> option (string * string);
  net_JoinHostPort : string -> string -> string
}.

(** *** Strings *)

Definition upperASCII (c : ascii) : ascii :=
  let n := N_of_ascii c in
  if (97 <=? n) && (n <=? 122) then ascii_of_N (n - 32) else c.

(** [strings.Join]. *)
Fixpoint Join (elems : list string) (sep : string) : string :=
  match elems with
  | [] => ""
  | [x] => x
  | x :: rest => x ++ sep ++ Join rest sep
  end.

(** [strings.Split] for a separator of one character. *)
Fixpoint Split (s : string) (sep : ascii) : list string :=
  match s with
  | EmptyString => [""%string]
  | String c s' =>
      if Ascii.eqb c sep then ""%string :: Split s' sep
      else
        match Split s' sep with
        | x :: rest => String c x :: rest
        | [] => [String c ""]
        end
  end.

Definition inCutset (cutset : string) (c : ascii) : bool :=
  existsb (Ascii.eqb c) (list_ascii_of_string cutset).

Fixpoint TrimLeft (s cutset : string) : string :=
  match s with
  | EmptyString => ""
  | String c s' => if inCutset cutset c then TrimLeft s' cutset else s
  end.

Fixpoint TrimRight (s cutset : string) : string :=
  match s with
  | EmptyString => ""
  | String c s' =>
      match TrimRight s' cutset with
      | EmptyString => if inCutset cutset c then "" else String c ""
      | t => String c t
      end
  end.

(** [strings.Trim] for a cutset of ASCII characters. *)
Definition Trim (s cutset : string) : string :=
  TrimRight (TrimLeft s cutset) cutset.

(** *** The path patterns *)

Definition isDigit (c : ascii) : bool :=
  let n := N_of_ascii c in (48 <=? n) && (n <=? 57).

Definition isLetter (c : ascii) : bool :=
  let n := N_of_ascii c in
  ((65 <=? n) && (n <=? 90)) || ((97 <=? n) && (n <=? 122)).

Fixpoint allChars (p : ascii -> bool) (s : string) : bool :=
  match s with
  | EmptyString => true
  | String c s' => p c && allChars p s'
  end.

Fixpoint stripPrefix (prefix s : string) : option string :=
  match prefix, s with
  | EmptyString, _ => Some s
  | String a prefix', String c s' =>
      if Ascii.eqb a c then stripPrefix prefix' s' else None
  | String _ _, EmptyString => None
  end.

(** [FindStringSubmatch] for the pattern that matches the prefix and
    then captures, up to the end of the text, one or more digits [0-9]:
    the captured text, [None] for no match. *)
Definition matchIdPath (prefix path : string) : option string :=
  match stripPrefix prefix path with
  | Some (String c rest) =>
      if isDigit c && allChars isDigit rest then Some (String c rest) else None
  | _ => None
  end.

(** [FindStringSubmatch] for the pattern that matches the prefix and
    then captures, up to the end of the text, a letter [A-Za-z] followed
    by any number of characters [0-9A-Za-z]. *)
Definition matchNamePath (prefix path : string) : option string :=
  match stripPrefix prefix path with
  | Some (String c rest) =>
      if isLetter c && allChars (fun x => isDigit x || isLetter x) rest
      then Some (String c rest) else None
  | _ => None
  end.

Definition reUserIdPath : string -> option string := matchIdPath "/user/".
Definition reUserNamePath : string -> option string := matchNamePath "/user/".
Definition reGroupIdPath : string -> option string := matchIdPath "/group/".
Definition reGroupNamePath : string -> option string := matchNamePath "/group/".
Definition reBlobIdPath : string -> option string := matchIdPath "/blob/".

Fixpoint parseDigits (s : string) (acc : N) : option N :=
  match s with
  | EmptyString => Some acc
  | String c s' =>
      if isDigit c then parseDigits s' (acc * 10 + (N_of_ascii c - 48))
      else None
  end.

(** [strconv.ParseUint(s, 10, 64)]: [None] is its error, for an empty
    string, a character that is not a digit, or a value over 64 bits. *)
Definition ParseUint (s : string) : option N :=
  match s with
  | EmptyString => None
  | _ =>
      match parseDigits s 0 with
      | Some n => if n <? 2 ^ 64 then Some n else None
      | None => None
      end
  end.

Section Requests.
Context {GoStrings : Strings} {W : Wire} {X : Net}.

(** [strings.ToUpper]: on ASCII input the letters [a-z] are shifted to
    [A-Z]. *)
Definition ToUpper (s : string) : string :=
  if isASCII s then mapASCII upperASCII s else unicodeToUpper s.

Definition setMethod (r : Request.t) (m : string) : Request.t :=
  Request.mk m (Request.Path r) (Request.Header r) (Request.Body r)
             (Request.RemoteAddr r).

Definition setRemoteAddr (r : Request.t) (a : string) : Request.t :=
  Request.mk (Request.Method r) (Request.Path r) (Request.Header r)
             (Request.Body r) a.

(** The loop of [AllowMethods]: whether it returned true, and [addHead]. *)
Fixpoint AllowMethods_loop (rMethod : string) (methods : list string)
  (addHead : bool) : bool * bool :=
  match methods with
  | [] => (false, addHead)
  | method :: rest =>
      if str_eqb method rMethod then (true, addHead)
      else if str_eqb method GET then
        if str_eqb rMethod HEAD then (true, addHead)
        else AllowMethods_loop rMethod rest true
      else AllowMethods_loop rMethod rest addHead
  end.

(** [AllowMethods]: the result, the writer and the request after it. *)
Definition AllowMethods (w : ResponseWriter) (r : Request.t)
  (methods : list string) : bool * ResponseWriter * Request.t :=
  let r := setMethod r (ToUpper (Request.Method r)) in
  match AllowMethods_loop (Request.Method r) methods false with
  | (true, _) => (true, w, r)
  | (false, addHead) =>
      let allow := Join methods ", " in
      let allow := if addHead then ("HEAD, " ++ allow)%string else allow in
      let w := Header_Set w Allow allow in
      if str_eqb (Request.Method r) OPTIONS then (false, WriteHeader w 200, r)
      else (false, http_Error w ("requires one of: " ++ allow) 405, r)
  end.

Definition IsContentType (r : Request.t) (t : string) : bool :=
  match Request.Header r !! ContentType with
  | Some [s] => strings_EqualFold s t
  | _ => false
  end.

(** [GetJSONBody]: the writer after it, and the decoded body when it
    returned true. *)
Definition GetJSONBody {A : Type} (unmarshal : bytes -> option A)
  (w : ResponseWriter) (r : Request.t) : ResponseWriter * option A :=
  if negb (IsContentType r MediaTypeJSON)
  then (http_Error w "Unsupported Media Type" 415, None)
  else
    match Request.Body r with
    | None => (http_Error w "Internal Server Error" 500, None)
    | Some raw =>
        match unmarshal raw with
        | None => (http_Error w "Failed to parse JSON" 400, None)
        | Some v => (w, Some v)
        end
    end.

Definition MustMarshalJSON_UserList (l : list User.t) : bytes :=
  json_Marshal_UserList l ++ [x0d; x0a].

Definition MustMarshalJSON_GroupList (l : list Group.t) : bytes :=
  json_Marshal_GroupList l ++ [x0d; x0a].

Definition MustMarshalJSON_BlobList (l : list N) : bytes :=
  json_Marshal_BlobList l ++ [x0d; x0a].

Definition MustMarshalJSON_BlobReference (id : N) : bytes :=
  json_Marshal_BlobReference id ++ [x0d; x0a].

(** The reply of the reading handlers: three headers, then
    [http.ServeContent]. *)
Definition serveJSON (r : Request.t) (mediaType : string) (etagOf raw : bytes)
  : ResponseWriter :=
  let w := newResponse in
  let w := Header_Set w ContentType mediaType in
  let w := Header_Set w CacheControl CacheControlPublic in
  let w := Header_Set w ETag (ETagFor etagOf) in
  http_ServeContent w r raw.

(** *** Users *)

Definition ListUsers_tx : M (list User.t) := fun tx =>
  match ForEach
          (fun _ raw (userList : list User.t) =>
             match proto_Unmarshal_User raw with
             | Some u => (Ok tt, userList ++ [u])
             | None => (Panic, userList)
             end) tx [] with
  | (Ok _, userList) => (Ok userList, tx)
  | (Err e, _) => (Err e, tx)
  | (Panic, _) => (Panic, tx)
  end.

Definition UserHandler_ListUsers (h : Repo) (r : Request.t)
  : outcome ResponseWriter * Repo :=
  match View h USER ListUsers_tx with
  | Err _ => (Ok (http_Error newResponse "Internal Server Error" 500), h)
  | Panic => (Panic, h)
  | Ok userList =>
      let raw := MustMarshalJSON_UserList userList in
      (Ok (serveJSON r MediaTypeJSON raw raw), h)
  end.

Definition UserHandler_CreateUser (h : Repo) (r : Request.t)
  : outcome ResponseWriter * Repo :=
  match GetJSONBody json_Unmarshal_UserDelta newResponse r with
  | (w, None) => (Ok w, h)
  | (_, Some delta) => CreateUser h delta
  end.

Definition GetUser_tx (userId : N) (userName : string) : M User.t :=
  (let* userId := (if userId =? 0 then Lookup userName else ret userId) in
   let* value := Get userId in
   MustUnmarshalProto_User value)%tx.

Definition UserHandler_GetUser (h : Repo) (r : Request.t) (userId : N)
  (userName : string) : outcome ResponseWriter * Repo :=
  match View h USER (GetUser_tx userId userName) with
  | Err (NotFoundError _ _ _) => (Ok (http_NotFound newResponse), h)
  | Err _ => (Ok (http_Error newResponse "Internal Server Error" 500), h)
  | Panic => (Panic, h)
  | Ok u =>
      let raw := MustMarshalJSON_User u in
      (Ok (serveJSON r MediaTypeJSON raw raw), h)
  end.

Definition UserHandler_PutUser (h : Repo) (r : Request.t) (userId : N)
  (userName : string) : outcome ResponseWriter * Repo :=
  match GetJSONBody json_Unmarshal_UserDelta newResponse r with
  | (w, None) => (Ok w, h)
  | (_, Some delta) => PutUser h delta (Header_Get r IfMatch) userId userName
  end.

Definition DeleteUser_tx (userId : N) (userName : string) : M unit :=
  (let* userId := (if userId =? 0 then Lookup userName else ret userId) in
   let* value := Get userId in
   let* u := MustUnmarshalProto_User value in
   let* _ := Delete userId in
   Unassociate (User.UserName u))%tx.

Definition UserHandler_DeleteUser (h : Repo) (r : Request.t) (userId : N)
  (userName : string) : outcome ResponseWriter * Repo :=
  match Update h USER (DeleteUser_tx userId userName) with
  | (Err (NotFoundError _ _ _), h') => (Ok (http_NotFound newResponse), h')
  | (Err _, h') => (Ok (http_Error newResponse "Internal Server Error" 500), h')
  | (Panic, h') => (Panic, h')
  | (Ok _, h') =>
      (Ok (WriteHeader (Header_Set newResponse ContentLength "0") 204), h')
  end.

(** [UserHandler.ServeHTTP], on a fresh response writer. *)
Definition UserHandler_ServeHTTP (h : Repo) (r : Request.t)
  : outcome ResponseWriter * Repo :=
  let w := newResponse in
  if str_eqb (Request.Path r) "/user" || str_eqb (Request.Path r) "/user/"
  then
    match AllowMethods w r [GET; POST] with
    | (false, w, _) => (Ok w, h)
    | (true, w, r) =>
        let method := ToUpper (Request.Method r) in
        if str_eqb method GET || str_eqb method HEAD
        then UserHandler_ListUsers h r
        else if str_eqb method POST then UserHandler_CreateUser h r
        else (Ok (http_Error w "Internal Server Error" 500), h)
    end
  else
    let parsed :=
      match reUserIdPath (Request.Path r) with
      | Some m1 => ParseUint m1
      | None => Some 0
      end in
    match parsed with
    | None => (Ok (http_NotFound w), h)
    | Some userId =>
        let userName :=
          match reUserNamePath (Request.Path r) with
          | Some m1 => m1
          | None => ""%string
          end in
        if (userId =? 0) && str_eqb userName "" then (Ok (http_NotFound w), h)
        else
          match AllowMethods w r [GET; PUT; DELETE] with
          | (false, w, _) => (Ok w, h)
          | (true, w, r) =>
              let method := ToUpper (Request.Method r) in
              if str_eqb method GET || str_eqb method HEAD
              then UserHandler_GetUser h r userId userName
              else if str_eqb method PUT
              then UserHandler_PutUser h r userId userName
              else if str_eqb method DELETE
              then UserHandler_DeleteUser h r userId userName
              else (Ok (http_Error w "Internal Server Error" 500), h)
          end
    end.

(** *** Groups *)

Definition ListGroups_tx : M (list Group.t) := fun tx =>
  match ForEach
          (fun _ raw (groupList : list Group.t) =>
             match proto_Unmarshal_Group raw with
             | Some g => (Ok tt, groupList ++ [g])
             | None => (Panic, groupList)
             end) tx [] with
  | (Ok _, groupList) => (Ok groupList, tx)
  | (Err e, _) => (Err e, tx)
  | (Panic, _) => (Panic, tx)
  end.

Definition GroupHandler_ListGroups (h : Repo) (r : Request.t)
  : outcome ResponseWriter * Repo :=
  match View h GROUP ListGroups_tx with
  | Err _ => (Ok (http_Error newResponse "Internal Server Error" 500), h)
  | Panic => (Panic, h)
  | Ok groupList =>
      let raw := MustMarshalJSON_GroupList groupList in
      (Ok (serveJSON r MediaTypeJSON raw raw), h)
  end.

Definition GroupHandler_CreateGroup (h : Repo) (r : Request.t)
  : outcome ResponseWriter * Repo :=
  match GetJSONBody json_Unmarshal_GroupDelta newResponse r with
  | (w, None) => (Ok w, h)
  | (_, Some delta) => CreateGroup h delta
  end.

Definition GetGroup_tx (groupId : N) (groupName : string) : M Group.t :=
  (let* groupId := (if groupId =? 0 then Lookup groupName else ret groupId) in
   let* value := Get groupId in
   MustUnmarshalProto_Group value)%tx.

Definition GroupHandler_GetGroup (h : Repo) (r : Request.t) (groupId : N)
  (groupName : string) : outcome ResponseWriter * Repo :=
  match View h GROUP (GetGroup_tx groupId groupName) with
  | Err (NotFoundError _ _ _) => (Ok (http_NotFound newResponse), h)
  | Err _ => (Ok (http_Error newResponse "Internal Server Error" 500), h)
  | Panic => (Panic, h)
  | Ok g =>
      let raw := MustMarshalJSON_Group g in
      (Ok (serveJSON r MediaTypeJSON raw raw), h)
  end.

Definition GroupHandler_PutGroup (h : Repo) (r : Request.t) (groupId : N)
  (groupName : string) : outcome ResponseWriter * Repo :=
  match GetJSONBody json_Unmarshal_GroupDelta newResponse r with
  | (w, None) => (Ok w, h)
  | (_, Some delta) => PutGroup h delta (Header_Get r IfMatch) groupId groupName
  end.

Definition DeleteGroup_tx (groupId : N) (groupName : string) : M unit :=
  (let* groupId := (if groupId =? 0 then Lookup groupName else ret groupId) in
   let* value := Get groupId in
   let* g := MustUnmarshalProto_Group value in
   let* _ := Delete groupId in
   Unassociate (Group.GroupName g))%tx.

Definition GroupHandler_DeleteGroup (h : Repo) (r : Request.t) (groupId : N)
  (groupName : string) : outcome ResponseWriter * Repo :=
  match Update h GROUP (DeleteGroup_tx groupId groupName) with
  | (Err (NotFoundError _ _ _), h') => (Ok (http_NotFound newResponse), h')
  | (Err _, h') => (Ok (http_Error newResponse "Internal Server Error" 500), h')
  | (Panic, h') => (Panic, h')
  | (Ok _, h') =>
      (Ok (WriteHeader (Header_Set newResponse ContentLength "0") 204), h')
  end.

(** [GroupHandler.ServeHTTP], on a fresh response writer. *)
Definition GroupHandler_ServeHTTP (h : Repo) (r : Request.t)
  : outcome ResponseWriter * Repo :=
  let w := newResponse in
  if str_eqb (Request.Path r) "/group" || str_eqb (Request.Path r) "/group/"
  then
    match AllowMethods w r [GET; POST] with
    | (false, w, _) => (Ok w, h)
    | (true, w, r) =>
        let method := ToUpper (Request.Method r) in
        if str_eqb method GET || str_eqb method HEAD
        then GroupHandler_ListGroups h r
        else if str_eqb method POST then GroupHandler_CreateGroup h r
        else (Ok (http_Error w "Internal Server Error" 500), h)
    end
  else
    let parsed :=
      match reGroupIdPath (Request.Path r) with
      | Some m1 => ParseUint m1
      | None => Some 0
      end in
    match parsed with
    | None => (Ok (http_NotFound w), h)
    | Some groupId =>
        let groupName :=
          match reGroupNamePath (Request.Path r) with
          | Some m1 => m1
          | None => ""%string
          end in
        if (groupId =? 0) && str_eqb groupName "" then (Ok (http_NotFound w), h)
        else
          match AllowMethods w r [GET; PUT; DELETE] with
          | (false, w, _) => (Ok w, h)
          | (true, w, r) =>
              let method := ToUpper (Request.Method r) in
              if str_eqb method GET || str_eqb method HEAD
              then GroupHandler_GetGroup h r groupId groupName
              else if str_eqb method PUT
              then GroupHandler_PutGroup h r groupId groupName
              else if str_eqb method DELETE
              then GroupHandler_DeleteGroup h r groupId groupName
              else (Ok (http_Error w "Internal Server Error" 500), h)
          end
    end.

(** *** Blobs *)

Definition ListBlobs_tx : M (list N) := fun tx =>
  match ForEach (fun id _ (blobList : list N) => (Ok tt, blobList ++ [id]))
          tx [] with
  | (Ok _, blobList) => (Ok blobList, tx)
  | (Err e, _) => (Err e, tx)
  | (Panic, _) => (Panic, tx)
  end.

Definition BlobHandler_ListBlobs (h : Repo) (r : Request.t)
  : outcome ResponseWriter * Repo :=
  match View h BLOB ListBlobs_tx with
  | Err _ => (Ok (http_Error newResponse "Internal Server Error" 500), h)
  | Panic => (Panic, h)
  | Ok blobList =>
      let raw := MustMarshalJSON_BlobList blobList in
      (Ok (serveJSON r MediaTypeJSON raw raw), h)
  end.

Definition CreateBlob_tx (blob : bytes) : M N :=
  (let* id := AllocateId in
   let* _ := Put id blob in
   ret id)%tx.

Definition BlobHandler_CreateBlob (h : Repo) (r : Request.t)
  : outcome ResponseWriter * Repo :=
  let w := newResponse in
  let unsupported :=
    match Request.Header r !! ContentType with
    | Some [ct] => reMultipartMediaType_MatchString ct
    | _ => true
    end in
  if unsupported then (Ok (http_Error w "Unsupported Media Type" 415), h)
  else
    match Request.Body r with
    | None => (Ok (http_Error w "Internal Server Error" 500), h)
    | Some blob =>
        match Update h BLOB (CreateBlob_tx blob) with
        | (Err _, h') => (Ok (http_Error w "Internal Server Error" 500), h')
        | (Panic, h') => (Panic, h')
        | (Ok id, h') =>
            let raw := MustMarshalJSON_BlobReference id in
            let w := Header_Set w ContentLength (itoa (N.of_nat (length raw))) in
            let w := Header_Set w ContentType MediaTypeJSON in
            let w := Header_Set w CacheControl CacheControlNoCache in
            let w := Header_Set w ETag (ETagFor blob) in
            let w := Header_Set w Location ("/blob/" ++ itoa id) in
            (Ok (Write (WriteHeader w 201) raw), h')
        end
    end.

Definition BlobHandler_GetBlob (h : Repo) (r : Request.t) (blobId : N)
  : outcome ResponseWriter * Repo :=
  match View h BLOB (Get blobId) with
  | Err (NotFoundError _ _ _) => (Ok (http_NotFound newResponse), h)
  | Err _ => (Ok (http_Error newResponse "Internal Server Error" 500), h)
  | Panic => (Panic, h)
  | Ok blob => (Ok (serveJSON r MediaTypeBinary blob blob), h)
  end.

(** [BlobHandler.ServeHTTP], on a fresh response writer. *)
Definition BlobHandler_ServeHTTP (h : Repo) (r : Request.t)
  : outcome ResponseWriter * Repo :=
  let w := newResponse in
  if str_eqb (Request.Path r) "/blob" || str_eqb (Request.Path r) "/blob/"
  then
    match AllowMethods w r [GET; POST] with
    | (false, w, _) => (Ok w, h)
    | (true, w, r) =>
        let method := ToUpper (Request.Method r) in
        if str_eqb method GET || str_eqb method HEAD
        then BlobHandler_ListBlobs h r
        else if str_eqb method POST then BlobHandler_CreateBlob h r
        else (Ok (http_Error w "Internal Server Error" 500), h)
    end
  else
    match reBlobIdPath (Request.Path r) with
    | None => (Ok (http_NotFound w), h)
    | Some m1 =>
        match ParseUint m1 with
        | None => (Ok (http_NotFound w), h)
        | Some blobId =>
            match AllowMethods w r [GET] with
            | (false, w, _) => (Ok w, h)
            | (true, _, r) => BlobHandler_GetBlob h r blobId
            end
        end
    end.

(** *** The forwarded address *)

(** [UnproxyHandler.ServeHTTP] around a handler [H]: the request [H] is
    given; indexing the last element of an empty slice would panic. *)
Definition UnproxyHandler_ServeHTTP {A : Type} (H : Request.t -> A)
  (r : Request.t) : outcome A :=
  match Request.Header r !! XForwardedFor with
  | Some forwarded =>
      let port :=
        match net_SplitHostPort (Request.RemoteAddr r) with
        | Some (_, port) => port
        | None => "0"%string
        end in
      let forwarded := Split (Join forwarded ",") ","%char in
      match nth_error forwarded (length forwarded - 1) with
      | None => Panic
      | Some x =>
          let host := Trim x (String " "%char (String "009"%char "")) in
          Ok (H (setRemoteAddr r (net_JoinHostPort host port)))
      end
  | None => Ok (H r)
  end.

End Requests.
End server.

(** * Notions used in the statements *)

Import repo server.

(** The number a byte sequence denotes when read big endian. *)
Fixpoint be_value (l : bytes) : N :=
  match l with
  | [] => 0
  | b :: t => Byte.to_N b * 256 ^ N.of_nat (length t) + be_value t
  end.

(** The order of the engine's keys. *)
Definition key_lt (a b : bytes * bytes) : Prop :=
  bytes_compare (fst a) (fst b) = Lt.

(** A key made by [u64tob] from a [uint64]. *)
Definition encoded_key (e : bytes * bytes) : Prop :=
  exists id, id < 2 ^ 64 /\ fst e = u64tob id.

(** The entries a primary bucket can hold: what [Tx.Put] and [Tx.Delete]
    make of an empty bucket, the keys being [u64tob] of a [uint64]. *)
Inductive primary_entries : list (bytes * bytes) -> Prop :=
| primary_empty : primary_entries []
| primary_put es id v :
    primary_entries es -> id < 2 ^ 64 ->
    primary_entries (entries_put (u64tob id) v es)
| primary_delete es id :
    primary_entries es -> id < 2 ^ 64 ->
    primary_entries (entries_delete (u64tob id) es).

(** A well-formed name index: entries in key order, every value the 8
    bytes of an id. *)
Definition index_wf (es : list (bytes * bytes)) : Prop :=
  StronglySorted key_lt es /\ Forall (fun e => length (snd e) = 8%nat) es.

(** The visitor that records what it is given, in the order of the calls. *)
Definition record_visit (id : N) (v : bytes) (log : list (N * bytes))
  : outcome unit * list (N * bytes) :=
  (Ok tt, log ++ [(id, v)]).

(** The transaction of an open store, as [Repo.View] and [Repo.Update]
    build it. *)
Definition tx_of (w : bool) (r : Repo) (o : ObjectType) : Tx :=
  {| bolttx := {| writable := w; buckets := db r |}; ot := o |}.

(** The sequence counter of a bucket of the store; 0 while the bucket does
    not exist. *)
Definition sequence_of (m : gmap string Bucket) (name : string) : N :=
  match m !! name with
  | Some b => sequence b
  | None => 0
  end.

(** The entries of a bucket of the store. *)
Definition entries_of (m : gmap string Bucket) (name : string)
  : option (list (bytes * bytes)) :=
  entries <$> (m !! name).

Section Histories.
Context {GoStrings : Strings}.

(** The calls a closure can make on its transaction. *)
Inductive op : Type :=
| OpAllocateId
| OpPut (id : N) (v : bytes)
| OpDelete (id : N)
| OpAssociate (id : N) (name : string)
| OpUnassociate (name : string).

(** One call; the result lists the id it allocated, if any. *)
Definition run_op (o : op) : M (list N) :=
  match o with
  | OpAllocateId => bind AllocateId (fun id => ret [id])
  | OpPut id v => bind (Put id v) (fun _ => ret [])
  | OpDelete id => bind (Delete id) (fun _ => ret [])
  | OpAssociate id name => bind (Associate id name) (fun _ => ret [])
  | OpUnassociate name => bind (Unassociate name) (fun _ => ret [])
  end.

(** A closure that makes the calls in order and returns the first error. *)
Fixpoint run_ops (os : list op) : M (list N) :=
  match os with
  | [] => ret []
  | o :: os' =>
      bind (run_op o) (fun a => bind (run_ops os') (fun b => ret (a ++ b)))
  end.

(** What happens to a store: an [Update] transaction on an object type, or
    a restart ([Close], then [Open] on the file). *)
Inductive event : Type :=
| EvUpdate (o : ObjectType) (os : list op)
| EvRestart.

(** The ids of type [T] returned by [AllocateId] in the transactions of
    the history that committed, and the store after the history. *)
Fixpoint run_history (T : ObjectType) (h : list event) (r : Repo)
  : list N * Repo :=
  match h with
  | [] => ([], r)
  | EvRestart :: h' => run_history T h' (Open (Close r))
  | EvUpdate o os :: h' =>
      match Update r o (run_ops os) with
      | (Ok ids, r') =>
          let (rest, r'') := run_history T h' r' in
          ((if String.eqb o T then ids else []) ++ rest, r'')
      | (_, r') => run_history T h' r'
      end
  end.

End Histories.

(** ** Instances for the examples *)

(** Names in the examples are ASCII, so the Unicode mapping is not used. *)
Definition asciiStrings : Strings := {| unicodeToLower := fun s => s |}.

(** A small codec for the examples: a user is stored as its id followed
    by its name, a group likewise; the entity tag of a text is the text. *)
Definition exampleWire : Wire := {|
  reUserName_MatchString := fun _ => true;
  reUserDisplayName_MatchString := fun _ => true;
  reEMail_MatchString := fun _ => true;
  reURL_MatchString := fun _ => true;
  reGroupName_MatchString := fun _ => true;
  reGroupDescription_MatchString := fun _ => true;
  proto_Marshal_User := fun u =>
    u64tob (User.Id u) ++ list_byte_of_string (User.UserName u);
  proto_Unmarshal_User := fun raw =>
    Some (User.mk (be_value (firstn 8 raw))
            (string_of_list_byte (skipn 8 raw)) "" "" "");
  proto_Marshal_Group := fun g =>
    u64tob (Group.Id g) ++ list_byte_of_string (Group.GroupName g);
  proto_Unmarshal_Group := fun raw =>
    Some (Group.mk (be_value (firstn 8 raw))
            (string_of_list_byte (skipn 8 raw)) "" []);
  json_Marshal_User := fun u => list_byte_of_string (User.UserName u);
  json_Marshal_Group := fun g => list_byte_of_string (Group.GroupName g);
  ETagFor := string_of_list_byte
|}.

(** Request handling for the examples: [ServeContent] writes status 200
    and the content; lists are marshalled as the concatenation of their
    elements; addresses are joined with a colon. *)
Definition exampleNet : Net := {|
  unicodeToUpper := fun s => s;
  strings_EqualFold := String.eqb;
  reMultipartMediaType_MatchString := fun _ => false;
  json_Unmarshal_UserDelta := fun _ => None;
  json_Unmarshal_GroupDelta := fun _ => None;
  json_Marshal_UserList := fun l =>
    concat (map (fun u => list_byte_of_string (User.UserName u)) l);
  json_Marshal_GroupList := fun l =>
    concat (map (fun g => list_byte_of_string (Group.GroupName g)) l);
  json_Marshal_BlobList := fun l => concat (map u64tob l);
  json_Marshal_BlobReference := u64tob;
  http_ServeContent := fun w _ raw => Write (WriteHeader w 200) raw;
  net_SplitHostPort := fun _ => None;
  net_JoinHostPort := fun host port => (host ++ ":" ++ port)%string
|}.

(** Requests for the examples. *)
Definition exampleRequest (method path : string) : Request.t :=
  Request.mk method path ∅ None "192.0.2.1:4000".

(** A store with user 1, "alice", and group 1, "staff". *)
Definition exampleRepo : Repo :=
  {| db :=
       <[ "user" := {| entries := [(u64tob 1, u64tob 1 ++ list_byte_of_string "alice")];
                       sequence := 1 |} ]>
      (<[ "user.byname" := {| entries := [(list_byte_of_string "alice", u64tob 1)];
                              sequence := 0 |} ]>
      (<[ "group" := {| entries := [(u64tob 1, u64tob 1 ++ list_byte_of_string "staff")];
                        sequence := 1 |} ]>
      (<[ "group.byname" := {| entries := [(list_byte_of_string "staff", u64tob 1)];
                               sequence := 0 |} ]>
      (<[ "blob" := emptyBucket ]> ∅)))) |}.

(** A blob transaction after [Put] of the ids 3, 1 and 2, in that order. *)
Definition example312 : Tx :=
  {| bolttx :=
       {| writable := false;
          buckets :=
            <[ "blob" :=
                 {| entries :=
                      entries_put (u64tob 2) [x02]
                        (entries_put (u64tob 1) [x01]
                           (entries_put (u64tob 3) [x03] []));
                    sequence := 3 |} ]> ∅ |};
     ot := BLOB |}.

(** A history on the example store: a creation that commits, a creation
    that aborts on a duplicate name, a restart, and one more allocation. *)
Definition exampleHistory : list event :=
  [ EvUpdate USER [OpAllocateId; OpAssociate 2 "Bob"; OpPut 2 [x01]];
    EvUpdate USER [OpAllocateId; OpAssociate 3 "ALICE"; OpPut 3 [x02]];
    EvRestart;
    EvUpdate USER [OpAllocateId] ].

(** Deltas for an update: a new display name, a new description. *)
Definition displayDelta : UserDelta.t :=
  UserDelta.mk None (Some "Alice A."%string) None None.

Definition descriptionDelta : GroupDelta.t :=
  GroupDelta.mk None (Some "everyone"%string) None.

(** The records of the example store, and their entity tags under the
    example codec. *)
Definition alice : User.t := User.mk 1 "alice" "" "" "".
Definition staff : Group.t := Group.mk 1 "staff" "" [].

Definition aliceETag : string :=
  @ETagFor exampleWire (MustMarshalJSON_User (W := exampleWire) alice).

Definition staffETag : string :=
  @ETagFor exampleWire (MustMarshalJSON_Group (W := exampleWire) staff).

Definition aliceDelta (name : string) : UserDelta.t :=
  UserDelta.mk (Some name) None (Some "alice@example.org"%string) None.


(** * Properties *)

(** ** Key encoding *)

Lemma to_N_byte_of_N x : Byte.to_N (byte_of_N x) = x mod 256.
Proof.
  unfold byte_of_N. change 255 with (N.ones 8). rewrite N.land_ones.
  change (2 ^ 8) with 256.
  destruct (Byte.of_N (x mod 256)) as [b|] eqn:E.
  - now apply Byte.to_of_N.
  - apply Byte.of_N_None_iff in E.
    pose proof (N.mod_upper_bound x 256). lia.
Qed.

Lemma lor_shiftl_add acc b k :
  acc < 2 ^ k -> N.lor acc (N.shiftl b k) = acc + b * 2 ^ k.
Proof.
  intros Hacc. rewrite <- N.lxor_lor, <- N.add_nocarry_lxor; rewrite ?N.shiftl_mul_pow2; try reflexivity.
  all: apply N.bits_inj; intros n; rewrite N.land_spec, N.bits_0;
    rewrite <- N.shiftl_mul_pow2;
    destruct (N.lt_ge_cases n k) as [Hn|Hn].
  all: try (rewrite (N.shiftl_spec_low _ _ _ Hn); apply andb_false_r).
  all: rewrite <- (N.mod_small acc (2 ^ k)) by assumption;
       rewrite N.mod_pow2_bits_high by assumption; reflexivity.
Qed.

Ltac norm_pow :=
  repeat match goal with
  | |- context [N.of_nat ?n] =>
      let c := eval vm_compute in (N.of_nat n) in change (N.of_nat n) with c
  | |- context [N.pow ?a ?b] =>
      let c := eval vm_compute in (N.pow a b) in change (N.pow a b) with c
  end.

Lemma be_value_bound l : be_value l < 256 ^ N.of_nat (length l).
Proof.
  induction l as [|b t IH]; cbn [be_value length].
  - cbn. lia.
  - rewrite Nat2N.inj_succ, N.pow_succ_r'.
    pose proof (Byte.to_N_bounded b). nia.
Qed.

Lemma Uint64_be_value b0 b1 b2 b3 b4 b5 b6 b7 :
  BigEndian_Uint64 [b0; b1; b2; b3; b4; b5; b6; b7]
  = be_value [b0; b1; b2; b3; b4; b5; b6; b7].
Proof.
  unfold BigEndian_Uint64. cbn [nth be_value length].
  pose proof (Byte.to_N_bounded b0). pose proof (Byte.to_N_bounded b1).
  pose proof (Byte.to_N_bounded b2). pose proof (Byte.to_N_bounded b3).
  pose proof (Byte.to_N_bounded b4). pose proof (Byte.to_N_bounded b5).
  pose proof (Byte.to_N_bounded b6). pose proof (Byte.to_N_bounded b7).
  rewrite (lor_shiftl_add (to_N b7) _ 8) by (norm_pow; lia).
  rewrite (lor_shiftl_add _ (to_N b5) 16) by (norm_pow; lia).
  rewrite (lor_shiftl_add _ (to_N b4) 24) by (norm_pow; lia).
  rewrite (lor_shiftl_add _ (to_N b3) 32) by (norm_pow; lia).
  rewrite (lor_shiftl_add _ (to_N b2) 40) by (norm_pow; lia).
  rewrite (lor_shiftl_add _ (to_N b1) 48) by (norm_pow; lia).
  rewrite (lor_shiftl_add _ (to_N b0) 56) by (norm_pow; lia).
  norm_pow. lia.
Qed.

Lemma be_step v p q :
  q = p * 256 -> (v / p) mod 256 * p + v mod p = v mod q.
Proof.
  intros ->. rewrite N.Div0.mod_mul_r. lia.
Qed.

Lemma be_value_u64tob v : be_value (u64tob v) = v mod 2 ^ 64.
Proof.
  unfold u64tob, BigEndian_PutUint64. cbn [be_value length].
  rewrite !to_N_byte_of_N, !N.shiftr_div_pow2.
  norm_pow. rewrite N.add_0_r, N.mul_1_r.
  rewrite (be_step v 256 65536) by reflexivity.
  rewrite (be_step v 65536 16777216) by reflexivity.
  rewrite (be_step v 16777216 4294967296) by reflexivity.
  rewrite (be_step v 4294967296 1099511627776) by reflexivity.
  rewrite (be_step v 1099511627776 281474976710656) by reflexivity.
  rewrite (be_step v 281474976710656 72057594037927936) by reflexivity.
  rewrite (be_step v 72057594037927936 18446744073709551616) by reflexivity.
  reflexivity.
Qed.

Lemma length_u64tob v : length (u64tob v) = 8%nat.
Proof. reflexivity. Qed.

Lemma be_value_zeros n b : be_value (repeat x00 n ++ b) = be_value b.
Proof.
  induction n as [|n IH]; [reflexivity|].
  cbn [repeat app be_value]. rewrite IH. reflexivity.
Qed.

Lemma btou64_short b :
  (length b <= 8)%nat -> btou64 b = Ok (be_value b).
Proof.
  intros Hlen. unfold btou64.
  destruct (length b <? 8)%nat eqn:Hlt.
  - rewrite length_app, repeat_length.
    apply Nat.ltb_lt in Hlt.
    replace (8 - length b + length b)%nat with 8%nat by lia.
    cbn [Nat.ltb Nat.leb]. f_equal.
    rewrite <- (be_value_zeros (8 - length b) b).
    remember (repeat x00 (8 - length b) ++ b) as l eqn:El.
    assert (Hl : length l = 8%nat)
      by (subst l; rewrite length_app, repeat_length; lia).
    clear El.
    do 8 (destruct l as [|? l]; [discriminate Hl|]).
    destruct l; [|discriminate Hl]. apply Uint64_be_value.
  - apply Nat.ltb_ge in Hlt.
    assert (Hl : length b = 8%nat) by lia. rewrite Hl.
    cbn [Nat.ltb Nat.leb]. f_equal.
    do 8 (destruct b as [|? b]; [discriminate Hl|]).
    destruct b; [|discriminate Hl]. apply Uint64_be_value.
Qed.

Lemma btou64_long b : (8 < length b)%nat -> btou64 b = Panic.
Proof.
  intros Hlen. unfold btou64.
  destruct (length b <? 8)%nat eqn:Hlt; [apply Nat.ltb_lt in Hlt; lia|].
  apply Nat.ltb_lt in Hlen. now rewrite Hlen.
Qed.

Lemma btou64_u64tob v : v < 2 ^ 64 -> btou64 (u64tob v) = Ok v.
Proof.
  intros Hv. rewrite btou64_short by (rewrite length_u64tob; lia).
  rewrite be_value_u64tob. f_equal. now apply N.mod_small.
Qed.

Lemma bytes_compare_be_value a : forall b,
  length a = length b ->
  bytes_compare a b = N.compare (be_value a) (be_value b).
Proof.
  induction a as [|x a IH]; intros [|y b] Hlen; try discriminate.
  - reflexivity.
  - injection Hlen as Hlen. cbn [bytes_compare be_value length].
    rewrite <- Hlen.
    pose proof (be_value_bound a) as Ha.
    pose proof (be_value_bound b) as Hb. rewrite <- Hlen in Hb.
    set (P := 256 ^ N.of_nat (length a)) in *.
    destruct (N.compare_spec (to_N x) (to_N y)) as [E|E|E].
    + rewrite E, IH by assumption.
      destruct (N.compare_spec (be_value a) (be_value b));
        symmetry; [apply N.compare_eq_iff|apply N.compare_lt_iff|apply N.compare_gt_iff]; lia.
    + symmetry. apply N.compare_lt_iff. nia.
    + symmetry. apply N.compare_gt_iff. nia.
Qed.

Lemma u64tob_order a b :
  a < 2 ^ 64 -> b < 2 ^ 64 ->
  bytes_compare (u64tob a) (u64tob b) = N.compare a b.
Proof.
  intros Ha Hb. rewrite bytes_compare_be_value by reflexivity.
  rewrite !be_value_u64tob, !N.mod_small by assumption. reflexivity.
Qed.

(** C9. [btou64] returns on every slice of at most 8 bytes, reading it as
    if padded with zero bytes on the left, and panics exactly on the
    slices longer than 8 bytes; [u64tob] always yields 8 bytes and
    [btou64 (u64tob v)] is [v] for every [uint64], so the panic cannot be
    reached from a key made by [u64tob]. *)
Theorem btou64_total_on_keys :
  (forall b : bytes, (length b <= 8)%nat ->
     btou64 b = Ok (BigEndian_Uint64 (repeat x00 (8 - length b) ++ b))
     /\ btou64 b = Ok (be_value b))
  /\ (forall b : bytes, btou64 b = Panic <-> (8 < length b)%nat)
  /\ (forall v : N, length (u64tob v) = 8%nat /\ btou64 (u64tob v) <> Panic)
  /\ (forall v : N, v < 2 ^ 64 -> btou64 (u64tob v) = Ok v).
Proof.
  repeat split.
  - rewrite btou64_short by assumption.
    rewrite <- (be_value_zeros (8 - length b) b).
    remember (repeat x00 (8 - length b) ++ b) as l eqn:El.
    assert (Hl : length l = 8%nat)
      by (subst l; rewrite length_app, repeat_length; lia).
    do 8 (destruct l as [|? l]; [discriminate Hl|]).
    destruct l; [|discriminate Hl]. now rewrite Uint64_be_value.
  - now apply btou64_short.
  - intros Hp. destruct (Nat.le_gt_cases (length b) 8) as [Hle|Hgt]; [|exact Hgt].
    rewrite btou64_short in Hp by assumption. discriminate.
  - apply btou64_long.
  - rewrite btou64_short by (rewrite length_u64tob; lia). discriminate.
  - apply btou64_u64tob.
Qed.

Lemma btou64_total_on_keys_witness :
  btou64 [x01; x02] = Ok 258 /\ btou64 (u64tob 7) = Ok 7.
Proof.
  destruct btou64_total_on_keys as (Hshort & _ & _ & Hround).
  split.
  - apply (proj2 (Hshort [x01; x02] ltac:(simpl; lia))).
  - apply (Hround 7). reflexivity.
Defined.

(** ** The order of keys *)

Lemma to_N_inj x y : Byte.to_N x = Byte.to_N y -> x = y.
Proof.
  intros E. pose proof (Byte.of_to_N x) as Hx.
  rewrite E, Byte.of_to_N in Hx. now injection Hx.
Qed.

Lemma bytes_compare_refl a : bytes_compare a a = Eq.
Proof.
  induction a as [|x a IH]; [reflexivity|].
  cbn [bytes_compare]. now rewrite N.compare_refl.
Qed.

Lemma bytes_compare_eq a : forall b, bytes_compare a b = Eq -> a = b.
Proof.
  induction a as [|x a IH]; intros [|y b] H; try discriminate; [reflexivity|].
  cbn [bytes_compare] in H.
  destruct (N.compare_spec (to_N x) (to_N y)) as [E|E|E]; try discriminate.
  f_equal; [now apply to_N_inj | now apply IH].
Qed.

Lemma bytes_compare_antisym a : forall b,
  bytes_compare b a = CompOpp (bytes_compare a b).
Proof.
  induction a as [|x a IH]; intros [|y b]; try reflexivity.
  cbn [bytes_compare]. rewrite (N.compare_antisym (to_N x) (to_N y)).
  destruct (to_N x ?= to_N y); cbn [CompOpp]; auto.
Qed.

Lemma bytes_compare_lt_trans a : forall b c,
  bytes_compare a b = Lt -> bytes_compare b c = Lt -> bytes_compare a c = Lt.
Proof.
  induction a as [|x a IH]; intros [|y b] [|z c] Hab Hbc;
    try discriminate; try reflexivity.
  cbn [bytes_compare] in *.
  destruct (N.compare_spec (to_N x) (to_N y)) as [E1|E1|E1]; try discriminate;
  destruct (N.compare_spec (to_N y) (to_N z)) as [E2|E2|E2]; try discriminate.
  - rewrite E1, E2, N.compare_refl. eauto.
  - rewrite E1. now apply N.compare_lt_iff in E2 as ->.
  - rewrite <- E2. now apply N.compare_lt_iff in E1 as ->.
  - assert (E : to_N x < to_N z) by lia. now apply N.compare_lt_iff in E as ->.
Qed.

Lemma bytes_compare_gt_lt a b : bytes_compare a b = Gt -> bytes_compare b a = Lt.
Proof. intros H. now rewrite bytes_compare_antisym, H. Qed.

(** ** Entries of a bucket *)

Lemma entries_get_put_eq k v es : entries_get k (entries_put k v es) = Some v.
Proof.
  induction es as [|[k' v'] es IH]; cbn [entries_put entries_get].
  - now rewrite bytes_compare_refl.
  - destruct (bytes_compare k k') eqn:E; cbn [entries_get];
      rewrite ?bytes_compare_refl, ?E; auto.
Qed.

Lemma entries_get_put_ne k k' v es :
  k <> k' -> entries_get k' (entries_put k v es) = entries_get k' es.
Proof.
  intros Hne.
  assert (Hkk : bytes_compare k' k <> Eq)
    by (intros E; apply bytes_compare_eq in E; congruence).
  induction es as [|[k0 v0] es IH]; cbn [entries_put entries_get].
  - destruct (bytes_compare k' k); congruence.
  - destruct (bytes_compare k k0) eqn:E; cbn [entries_get].
    + apply bytes_compare_eq in E as <-.
      destruct (bytes_compare k' k); congruence.
    + destruct (bytes_compare k' k); congruence.
    + now rewrite IH.
Qed.

Lemma entries_get_delete_eq k es : entries_get k (entries_delete k es) = None.
Proof.
  induction es as [|[k' v'] es IH]; cbn [entries_delete]; [reflexivity|].
  destruct (bytes_compare k k') eqn:E; cbn [entries_get]; rewrite ?E; auto.
Qed.

Lemma entries_get_delete_ne k k' es :
  k <> k' -> entries_get k' (entries_delete k es) = entries_get k' es.
Proof.
  intros Hne.
  induction es as [|[k0 v0] es IH]; cbn [entries_delete entries_get];
    [reflexivity|].
  destruct (bytes_compare k k0) eqn:E; cbn [entries_get]; rewrite ?IH; auto.
  apply bytes_compare_eq in E as <-.
  destruct (bytes_compare k' k) eqn:E'; auto.
  apply bytes_compare_eq in E'. congruence.
Qed.

Lemma entries_get_In k v es : entries_get k es = Some v -> In (k, v) es.
Proof.
  induction es as [|[k' v'] es IH]; cbn [entries_get]; [discriminate|].
  destruct (bytes_compare k k') eqn:E; intros H; try (right; now apply IH).
  apply bytes_compare_eq in E as <-. injection H as <-. now left.
Qed.

Lemma entries_get_sorted k v es :
  StronglySorted key_lt es -> In (k, v) es -> entries_get k es = Some v.
Proof.
  induction 1 as [|[k' v'] es Hs IH Hall]; intros Hin; [destruct Hin|].
  cbn [entries_get]. destruct Hin as [E|Hin].
  - injection E as -> ->. now rewrite bytes_compare_refl.
  - rewrite List.Forall_forall in Hall. specialize (Hall _ Hin).
    unfold key_lt in Hall. cbn [fst] in Hall.
    rewrite bytes_compare_antisym, Hall. cbn [CompOpp]. auto.
Qed.

Lemma entries_put_Forall (P : bytes * bytes -> Prop) k v es :
  P (k, v) -> Forall P es -> Forall P (entries_put k v es).
Proof.
  intros Hk. induction 1 as [|[k' v'] es Hx Hes IH]; cbn [entries_put].
  - auto.
  - destruct (bytes_compare k k'); auto.
Qed.

Lemma entries_delete_Forall (P : bytes * bytes -> Prop) k es :
  Forall P es -> Forall P (entries_delete k es).
Proof.
  induction 1 as [|[k' v'] es Hx Hes IH]; cbn [entries_delete]; [auto|].
  destruct (bytes_compare k k'); auto.
Qed.

Lemma entries_put_sorted k v es :
  StronglySorted key_lt es -> StronglySorted key_lt (entries_put k v es).
Proof.
  induction 1 as [|[k' v'] es Hs IH Hall]; cbn [entries_put].
  - repeat constructor.
  - destruct (bytes_compare k k') eqn:E.
    + apply bytes_compare_eq in E as <-. now constructor.
    + constructor; [now constructor|]. constructor; [exact E|].
      eapply List.Forall_impl; [|exact Hall]. intros [k0 v0]. unfold key_lt.
      cbn [fst]. now apply bytes_compare_lt_trans.
    + constructor; [exact IH|]. apply entries_put_Forall; [|exact Hall].
      now apply bytes_compare_gt_lt.
Qed.

Lemma entries_delete_sorted k es :
  StronglySorted key_lt es -> StronglySorted key_lt (entries_delete k es).
Proof.
  induction 1 as [|[k' v'] es Hs IH Hall]; cbn [entries_delete]; [constructor|].
  destruct (bytes_compare k k'); auto;
    (constructor; [exact IH | now apply entries_delete_Forall]).
Qed.

Lemma primary_entries_inv es :
  primary_entries es -> StronglySorted key_lt es /\ Forall encoded_key es.
Proof.
  induction 1 as [|es id v _ [IHs IHk] Hid|es id _ [IHs IHk] Hid].
  - split; constructor.
  - split; [now apply entries_put_sorted|].
    apply entries_put_Forall; [|exact IHk]. now exists id.
  - split; [now apply entries_delete_sorted | now apply entries_delete_Forall].
Qed.

(** ** Traversal *)

Lemma be_value_encoded e :
  encoded_key e -> exists id, id < 2 ^ 64 /\ fst e = u64tob id /\ be_value (fst e) = id.
Proof.
  intros (id & Hid & E). exists id. repeat split; auto.
  rewrite E, be_value_u64tob. now apply N.mod_small.
Qed.

Lemma Bucket_ForEach_record es : forall log,
  Forall encoded_key es ->
  Bucket_ForEach es
    (fun k v s =>
       match btou64 k with
       | Ok id => record_visit id v s
       | Err e => (Err e, s)
       | Panic => (Panic, s)
       end) log
  = (Ok tt, log ++ map (fun e => (be_value (fst e), snd e)) es).
Proof.
  induction es as [|[k v] es IH]; intros log Hall; cbn [Bucket_ForEach map].
  - now rewrite app_nil_r.
  - inversion Hall as [|? ? Hk Hes]; subst.
    destruct Hk as (id & Hid & E). cbn [fst] in E. subst k.
    rewrite btou64_u64tob by assumption. unfold record_visit at 1.
    rewrite IH by assumption. cbn [fst snd].
    rewrite be_value_u64tob, N.mod_small by assumption.
    now rewrite <- app_assoc.
Qed.

Lemma decoded_sorted es :
  StronglySorted key_lt es -> Forall encoded_key es ->
  StronglySorted N.lt (map (fun e => be_value (fst e)) es).
Proof.
  induction 1 as [|[k v] es Hs IH Hall]; intros Henc; cbn [map]; [constructor|].
  inversion Henc as [|? ? Hk Hes]; subst.
  constructor; [now apply IH|].
  apply be_value_encoded in Hk as (id & Hid & Ek & Ev).
  cbn [fst] in *. rewrite Ev.
  apply List.Forall_map. rewrite List.Forall_forall in *.
  intros [k' v'] Hin. specialize (Hall _ Hin).
  apply Hes, be_value_encoded in Hin as (id' & Hid' & Ek' & Ev').
  cbn [fst] in *. rewrite Ev'. unfold key_lt in Hall. cbn [fst] in Hall.
  rewrite Ek, Ek', u64tob_order in Hall by assumption.
  now apply N.compare_lt_iff.
Qed.

Lemma sorted_lt_NoDup l : StronglySorted N.lt l -> List.NoDup l.
Proof.
  induction 1 as [|x l Hs IH Hall]; constructor; [|exact IH].
  intros Hin. rewrite List.Forall_forall in Hall.
  specialize (Hall _ Hin). lia.
Qed.

Lemma decoded_In es id v :
  StronglySorted key_lt es -> Forall encoded_key es -> id < 2 ^ 64 ->
  In (id, v) (map (fun e => (be_value (fst e), snd e)) es)
  <-> entries_get (u64tob id) es = Some v.
Proof.
  intros Hs Henc Hid. split.
  - intros Hin. apply in_map_iff in Hin as ([k v'] & E & Hin).
    cbn [fst snd] in E. injection E as Ek ->.
    apply entries_get_sorted; [exact Hs|].
    rewrite List.Forall_forall in Henc.
    destruct (be_value_encoded _ (Henc _ Hin)) as (id' & _ & Ek' & Ev').
    cbn [fst] in *. congruence.
  - intros Hget. apply entries_get_In in Hget. apply in_map_iff.
    exists (u64tob id, v). split; [|exact Hget].
    cbn [fst snd]. now rewrite be_value_u64tob, N.mod_small.
Qed.

(** C4. The key encoding preserves order: for [uint64] values [a < c],
    [u64tob a] is below [u64tob c] in the order of the engine's keys.
    Hence, on a primary bucket filled through [Tx.Put] and [Tx.Delete],
    [Tx.ForEach] returns without error after visiting exactly the stored
    [(id, payload)] pairs, each once, in strictly ascending order of id. *)
Theorem ForEach_ascending_ids :
  (forall a c : N, a < c -> c < 2 ^ 64 ->
     bytes_compare (u64tob a) (u64tob c) = Lt)
  /\ (forall (tx : Tx) (b : Bucket),
        Tx_Bucket tx (ot tx) = Some b ->
        primary_entries (entries b) ->
        exists log : list (N * bytes),
          ForEach record_visit tx [] = (Ok tt, log)
          /\ StronglySorted N.lt (map fst log)
          /\ List.NoDup log
          /\ length log = length (entries b)
          /\ (forall id v, id < 2 ^ 64 ->
                In (id, v) log <-> fst (Get id tx) = Ok v)).
Proof.
  split.
  - intros a c Hac Hc. rewrite u64tob_order by lia.
    now apply N.compare_lt_iff.
  - intros tx b Hb Hprim.
    destruct (primary_entries_inv _ Hprim) as [Hs Henc].
    exists (map (fun e => (be_value (fst e), snd e)) (entries b)).
    assert (Hsorted : StronglySorted N.lt
              (map fst (map (fun e => (be_value (fst e), snd e)) (entries b)))).
    { rewrite List.map_map. cbn [fst]. now apply decoded_sorted. }
    repeat split.
    + unfold ForEach. rewrite Hb.
      now rewrite Bucket_ForEach_record.
    + exact Hsorted.
    + eapply List.NoDup_map_inv. apply sorted_lt_NoDup. exact Hsorted.
    + apply length_map.
    + intros Hin. unfold Get. rewrite Hb. cbn zeta. unfold Bucket_Get.
      apply decoded_In in Hin; auto. now rewrite Hin.
    + unfold Get. rewrite Hb. cbn zeta. unfold Bucket_Get. intros Hget.
      apply decoded_In; auto.
      destruct (entries_get (u64tob id) (entries b)); cbn [fst] in Hget;
        congruence.
Qed.

Lemma ForEach_ascending_ids_witness :
  bytes_compare (u64tob 1) (u64tob 2) = Lt
  /\ exists log : list (N * bytes),
       ForEach record_visit example312 [] = (Ok tt, log)
       /\ StronglySorted N.lt (map fst log)
       /\ List.NoDup log
       /\ length log = 3%nat
       /\ (forall id v, id < 2 ^ 64 ->
             In (id, v) log <-> fst (Get id example312) = Ok v).
Proof.
  destruct ForEach_ascending_ids as [Horder Hvisit]. split.
  - apply (Horder 1 2); reflexivity.
  - apply (Hvisit example312
             {| entries :=
                  entries_put (u64tob 2) [x02]
                    (entries_put (u64tob 1) [x01]
                       (entries_put (u64tob 3) [x03] []));
                sequence := 3 |}).
    + reflexivity.
    + cbn [entries].
      apply primary_put; [|reflexivity].
      apply primary_put; [|reflexivity].
      apply primary_put; [|reflexivity].
      apply primary_empty.
Defined.

(** ** Primary-key operations *)

Lemma Tx_Bucket_set_eq tx name b : Tx_Bucket (set_bucket tx name b) name = Some b.
Proof. unfold Tx_Bucket, set_bucket. cbn. apply lookup_insert_eq. Qed.

Lemma Tx_Bucket_set_ne tx name name' b :
  name <> name' -> Tx_Bucket (set_bucket tx name b) name' = Tx_Bucket tx name'.
Proof. intros Hne. unfold Tx_Bucket, set_bucket. cbn. now apply lookup_insert_ne. Qed.

(** C7. On a transaction whose primary bucket exists, [Delete id] fails
    with [NotFound(type, id)] exactly when no record is stored at [id]
    (which is when [Get id] fails so); a [Delete] that fails leaves the
    transaction's buckets as they were; after a [Delete id] that succeeds,
    [Get id] fails with [NotFound(type, id)]. *)
Theorem Delete_NotFound_iff_absent (tx : Tx) (id : N) (b : Bucket) :
  Tx_Bucket tx (ot tx) = Some b ->
  (fst (Delete id tx) = Err (NotFoundError (ot tx) id "")
     <-> Bucket_Get b (u64tob id) = None)
  /\ (Bucket_Get b (u64tob id) = None
     <-> fst (Get id tx) = Err (NotFoundError (ot tx) id ""))
  /\ (fst (Delete id tx) <> Ok tt -> snd (Delete id tx) = tx)
  /\ (forall tx', Delete id tx = (Ok tt, tx') ->
        Get id tx' = (Err (NotFoundError (ot tx) id ""), tx')).
Proof.
  intros Hb. unfold Delete, Get. rewrite Hb. cbn zeta.
  destruct (Bucket_Get b (u64tob id)) as [v|] eqn:Hget.
  - unfold Bucket_Delete.
    destruct (writable (bolttx tx)) eqn:Hw; cbn [negb fst snd].
    + repeat split; try congruence.
      intros tx' E. injection E as <-.
      rewrite Tx_Bucket_set_eq. unfold Bucket_Get. cbn [entries].
      now rewrite entries_get_delete_eq.
    + repeat split; congruence.
  - cbn [fst snd]. repeat split; congruence.
Qed.

Lemma Delete_NotFound_iff_absent_witness :
  (fst (Delete 9 example312) = Err (NotFoundError BLOB 9 "")
     <-> Bucket_Get
           {| entries :=
                entries_put (u64tob 2) [x02]
                  (entries_put (u64tob 1) [x01]
                     (entries_put (u64tob 3) [x03] []));
              sequence := 3 |} (u64tob 9) = None)
  /\ snd (Delete 9 example312) = example312.
Proof.
  destruct (Delete_NotFound_iff_absent example312 9 _ eq_refl)
    as (Hiff & _ & Hsame & _).
  split; [exact Hiff|]. apply Hsame. discriminate.
Defined.

(** ** The name index *)

Section NameIndex.
Context {GoStrings : Strings}.

Lemma Lookup_state name tx : snd (Lookup name tx) = tx.
Proof.
  unfold Lookup. cbn zeta.
  destruct (Tx_Bucket tx (byname (ot tx))) as [b|]; [|reflexivity].
  destruct (Bucket_Get b _) as [k|]; [|reflexivity].
  destruct (btou64 k); reflexivity.
Qed.

Lemma Associate_Ok_inv id name tx tx' :
  Associate id name tx = (Ok tt, tx') ->
  exists b,
    Tx_Bucket tx (byname (ot tx)) = Some b
    /\ Bucket_Get b (list_byte_of_string (ToLower name)) = None
    /\ tx' = set_bucket tx (byname (ot tx))
               {| entries := entries_put (list_byte_of_string (ToLower name))
                               (u64tob id) (entries b);
                  sequence := sequence b |}.
Proof.
  unfold Associate. cbn zeta.
  destruct (Tx_Bucket tx (byname (ot tx))) as [b|]; [|discriminate].
  destruct (Bucket_Get b _) as [k|] eqn:Hget.
  - destruct (btou64 k); discriminate.
  - unfold Bucket_Put.
    destruct (negb (writable (bolttx tx))); [discriminate|].
    destruct (length _ =? 0)%nat; [discriminate|].
    destruct (MaxKeySize <? _); [discriminate|].
    destruct (MaxValueSize <? _); [discriminate|].
    intros E. injection E as <-. exists b. auto.
Qed.

Lemma Lookup_after_put tx b id n m :
  id < 2 ^ 64 -> ToLower n = ToLower m ->
  let tx' := set_bucket tx (byname (ot tx))
               {| entries := entries_put (list_byte_of_string (ToLower n))
                               (u64tob id) (entries b);
                  sequence := sequence b |} in
  Lookup m tx' = (Ok id, tx').
Proof.
  intros Hid Hnm tx'. unfold Lookup. cbn zeta.
  subst tx'. cbn [ot set_bucket]. rewrite Tx_Bucket_set_eq.
  unfold Bucket_Get. cbn [entries]. rewrite <- Hnm, entries_get_put_eq.
  now rewrite btou64_u64tob.
Qed.

(** C1 (as the code has it). On a transaction whose name index exists:
    when the lowercased name is already mapped, to [id] itself or to any
    other id, [Associate id name] fails with
    [Duplicate(type, existingId, name)] and leaves the transaction as it
    was, so that [Lookup name] still returns the mapped id; when the
    lowercased name is unmapped and the engine accepts the write (a
    read-write transaction, a lowercased name that is not empty and not
    longer than the engine's key limit), [Associate] succeeds and the
    index then maps the lowercased name to [id]. *)
Theorem Associate_duplicate_or_insert (tx : Tx) (id : N) (name : string)
  (b : Bucket) :
  Tx_Bucket tx (byname (ot tx)) = Some b ->
  (forall existing : N,
      fst (Lookup name tx) = Ok existing ->
      Associate id name tx = (Err (DuplicateError (ot tx) existing name), tx)
      /\ Lookup name (snd (Associate id name tx)) = (Ok existing, tx))
  /\ (Bucket_Get b (list_byte_of_string (ToLower name)) = None ->
      writable (bolttx tx) = true ->
      ToLower name <> ""%string ->
      N.of_nat (String.length (ToLower name)) <= MaxKeySize ->
      id < 2 ^ 64 ->
      exists tx',
        Associate id name tx = (Ok tt, tx')
        /\ Tx_Bucket tx' (byname (ot tx))
           = Some {| entries := entries_put (list_byte_of_string (ToLower name))
                                  (u64tob id) (entries b);
                     sequence := sequence b |}
        /\ Lookup name tx' = (Ok id, tx')).
Proof.
  intros Hb. split.
  - intros existing Hl.
    assert (HA : Associate id name tx
                 = (Err (DuplicateError (ot tx) existing name), tx)).
    { unfold Lookup in Hl. unfold Associate. cbn zeta in *. rewrite Hb in *.
      destruct (Bucket_Get b _) as [k|]; [|discriminate].
      destruct (btou64 k); cbn [fst] in Hl; congruence. }
    split; [exact HA|]. rewrite HA. cbn [snd].
    rewrite (surjective_pairing (Lookup name tx)), Hl, Lookup_state.
    reflexivity.
  - intros Hnone Hw Hne Hlen Hid.
    exists (set_bucket tx (byname (ot tx))
              {| entries := entries_put (list_byte_of_string (ToLower name))
                              (u64tob id) (entries b);
                 sequence := sequence b |}).
    split; [|split].
    + unfold Associate. cbn zeta. rewrite Hb, Hnone. unfold Bucket_Put.
      rewrite Hw. cbn [negb].
      assert (Hl : length (list_byte_of_string (ToLower name))
                   = String.length (ToLower name)).
      { unfold list_byte_of_string. rewrite length_map.
        generalize (ToLower name). intros s.
        induction s; cbn; congruence. }
      rewrite Hl.
      assert (H0 : (String.length (ToLower name) =? 0)%nat = false).
      { destruct (ToLower name); [congruence|reflexivity]. }
      rewrite H0. apply N.ltb_ge in Hlen. rewrite Hlen.
      change (MaxValueSize <? N.of_nat (length (u64tob id))) with false.
      cbn iota. reflexivity.
    + apply Tx_Bucket_set_eq.
    + now apply (Lookup_after_put tx b id name name).
Qed.

(** C6. After [Associate id n] has succeeded, [Lookup m] returns [id]
    for every name [m] with the same lowercased form as [n]; so after a
    successful [Associate id "Bob"], [Lookup "bob"] returns [id]. *)
Theorem Associate_then_Lookup :
  (forall (tx tx' : Tx) (id : N) (n m : string),
      id < 2 ^ 64 ->
      ToLower n = ToLower m ->
      Associate id n tx = (Ok tt, tx') ->
      Lookup m tx' = (Ok id, tx'))
  /\ (forall (tx tx' : Tx) (id : N),
      id < 2 ^ 64 ->
      Associate id "Bob" tx = (Ok tt, tx') ->
      Lookup "bob" tx' = (Ok id, tx')).
Proof.
  assert (H : forall (tx tx' : Tx) (id : N) (n m : string),
             id < 2 ^ 64 -> ToLower n = ToLower m ->
             Associate id n tx = (Ok tt, tx') -> Lookup m tx' = (Ok id, tx')).
  { intros tx tx' id n m Hid Hnm HA.
    apply Associate_Ok_inv in HA as (b & Hb & Hnone & ->).
    now apply Lookup_after_put. }
  split; [exact H|].
  intros tx tx' id Hid HA. apply (H tx tx' id "Bob"%string); auto.
Qed.

End NameIndex.

(** The claim C1 fails where the name is already mapped to [id] itself:
    with "alice" mapped to 1, [Associate 1 "alice"] does not succeed but
    fails with [Duplicate]. *)
Lemma Associate_same_id_is_duplicate :
  fst (Lookup (GoStrings := asciiStrings) "alice" (tx_of true exampleRepo USER))
    = Ok 1
  /\ Associate (GoStrings := asciiStrings) 1 "alice" (tx_of true exampleRepo USER)
     = (Err (DuplicateError USER 1 "alice"), tx_of true exampleRepo USER).
Proof. split; vm_compute; reflexivity. Qed.

Lemma Associate_duplicate_or_insert_witness :
  Associate (GoStrings := asciiStrings) 2 "Alice" (tx_of true exampleRepo USER)
    = (Err (DuplicateError USER 1 "Alice"), tx_of true exampleRepo USER)
  /\ exists tx',
       Associate (GoStrings := asciiStrings) 2 "Bob" (tx_of true exampleRepo USER)
         = (Ok tt, tx')
       /\ Lookup (GoStrings := asciiStrings) "Bob" tx' = (Ok 2, tx').
Proof.
  destruct (Associate_duplicate_or_insert (GoStrings := asciiStrings)
              (tx_of true exampleRepo USER) 2 "Alice"
              {| entries := [(list_byte_of_string "alice", u64tob 1)];
                 sequence := 0 |} eq_refl) as [Hdup _].
  destruct (Associate_duplicate_or_insert (GoStrings := asciiStrings)
              (tx_of true exampleRepo USER) 2 "Bob"
              {| entries := [(list_byte_of_string "alice", u64tob 1)];
                 sequence := 0 |} eq_refl) as [_ Hins].
  split.
  - apply (Hdup 1). reflexivity.
  - destruct Hins as (tx' & HA & _ & HL);
      [reflexivity | reflexivity | discriminate | vm_compute; discriminate
      | reflexivity |].
    exists tx'. split; [exact HA | exact HL].
Defined.

Lemma Associate_then_Lookup_witness :
  Lookup (GoStrings := asciiStrings) "bob"
    (snd (Associate (GoStrings := asciiStrings) 2 "Bob"
            (tx_of true exampleRepo USER)))
  = (Ok 2, snd (Associate (GoStrings := asciiStrings) 2 "Bob"
                  (tx_of true exampleRepo USER))).
Proof.
  destruct (Associate_then_Lookup (GoStrings := asciiStrings)) as [Hany _].
  apply (Hany (tx_of true exampleRepo USER) _ 2 "Bob"%string "bob"%string).
  - reflexivity.
  - reflexivity.
  - vm_compute. reflexivity.
Defined.

(** ** The id sequence *)

Lemma sequence_of_set m name b n :
  sequence_of (<[name := b]> m) n
  = if decide (name = n) then sequence b else sequence_of m n.
Proof.
  unfold sequence_of. rewrite lookup_insert. now destruct (decide (name = n)).
Qed.

Lemma sequence_of_same tx name b b' n :
  Tx_Bucket tx name = Some b -> sequence b' = sequence b ->
  sequence_of (buckets (bolttx (set_bucket tx name b'))) n
  = sequence_of (buckets (bolttx tx)) n.
Proof.
  intros Hb Hs. cbn. rewrite sequence_of_set.
  destruct (decide (name = n)) as [<-|]; [|reflexivity].
  unfold sequence_of. unfold Tx_Bucket in Hb. now rewrite Hb.
Qed.

Lemma AllocateId_Ok_inv tx id tx' :
  AllocateId tx = (Ok id, tx') ->
  exists b,
    Tx_Bucket tx (ot tx) = Some b
    /\ id = (sequence b + 1) mod 2 ^ 64
    /\ tx' = set_bucket tx (ot tx) {| entries := entries b; sequence := id |}.
Proof.
  unfold AllocateId.
  destruct (Tx_Bucket tx (ot tx)) as [b|]; [|discriminate].
  unfold Bucket_NextSequence.
  destruct (negb (writable (bolttx tx))); [discriminate|].
  intros E. injection E as <- <-. exists b. auto.
Qed.

Section Sequences.
Context {GoStrings : Strings}.

(** A call other than [AllocateId] keeps every sequence counter. *)
Lemma run_op_sequence o tx ids tx' :
  run_op o tx = (Ok ids, tx') ->
  ot tx' = ot tx
  /\ (forall n, n <> ot tx ->
        sequence_of (buckets (bolttx tx')) n = sequence_of (buckets (bolttx tx)) n)
  /\ ((ids = []
       /\ sequence_of (buckets (bolttx tx')) (ot tx)
          = sequence_of (buckets (bolttx tx)) (ot tx))
      \/ (ids = [(sequence_of (buckets (bolttx tx)) (ot tx) + 1) mod 2 ^ 64]
          /\ sequence_of (buckets (bolttx tx')) (ot tx)
             = (sequence_of (buckets (bolttx tx)) (ot tx) + 1) mod 2 ^ 64)).
Proof.
  destruct o as [|id v|id|id name|name]; unfold run_op, bind, ret.
  - destruct (AllocateId tx) as [[id| |] tx1] eqn:E; try discriminate.
    intros H. injection H as <- <-.
    apply AllocateId_Ok_inv in E as (b & Hb & -> & ->).
    assert (Hs : sequence_of (buckets (bolttx tx)) (ot tx) = sequence b).
    { unfold sequence_of. unfold Tx_Bucket in Hb. now rewrite Hb. }
    split; [reflexivity|]. split.
    + intros n Hn. cbn. rewrite sequence_of_set.
      destruct (decide (ot tx = n)); congruence.
    + right. rewrite Hs. split; [reflexivity|].
      cbn. rewrite sequence_of_set. now destruct (decide (ot tx = ot tx)).
  - unfold Put. destruct (Tx_Bucket tx (ot tx)) as [b|] eqn:Hb; [|discriminate].
    cbn zeta. unfold Bucket_Put.
    destruct (negb (writable (bolttx tx))); [discriminate|].
    destruct (length _ =? 0)%nat; [discriminate|].
    destruct (MaxKeySize <? _); [discriminate|].
    destruct (MaxValueSize <? _); [discriminate|].
    intros H. injection H as <- <-.
    split; [reflexivity|]. split; [|left; split; [reflexivity|]];
      intros; now apply (sequence_of_same tx (ot tx) b).
  - unfold Delete. destruct (Tx_Bucket tx (ot tx)) as [b|] eqn:Hb; [|discriminate].
    cbn zeta. destruct (Bucket_Get b _); [|discriminate].
    unfold Bucket_Delete.
    destruct (negb (writable (bolttx tx))); [discriminate|].
    intros H. injection H as <- <-.
    split; [reflexivity|]. split; [|left; split; [reflexivity|]];
      intros; now apply (sequence_of_same tx (ot tx) b).
  - destruct (Associate id name tx) as [[[]| |] tx1] eqn:E; try discriminate.
    intros H. injection H as <- <-.
    apply Associate_Ok_inv in E as (b & Hb & _ & ->).
    split; [reflexivity|]. split; [|left; split; [reflexivity|]];
      intros; now apply (sequence_of_same tx (byname (ot tx)) b).
  - unfold Unassociate. cbn zeta.
    destruct (Tx_Bucket tx (byname (ot tx))) as [b|] eqn:Hb; [|discriminate].
    unfold Bucket_Delete.
    destruct (negb (writable (bolttx tx))); [discriminate|].
    intros H. injection H as <- <-.
    split; [reflexivity|]. split; [|left; split; [reflexivity|]];
      intros; now apply (sequence_of_same tx (byname (ot tx)) b).
Qed.

Lemma sorted_lt_app (l1 l2 : list N) (s : N) :
  StronglySorted N.lt l1 -> StronglySorted N.lt l2 ->
  Forall (fun i => i <= s) l1 -> Forall (fun i => s < i) l2 ->
  StronglySorted N.lt (l1 ++ l2).
Proof.
  intros H1 H2 Hle Hgt. induction H1 as [|x l1 Hs IH Hall]; [exact H2|].
  inversion Hle as [|? ? Hx Hl1]; subst.
  cbn [app]. constructor; [now apply IH|].
  apply Forall_app. split; [exact Hall|].
  eapply List.Forall_impl; [|exact Hgt]. cbn. intros; lia.
Qed.

(** The ids allocated by one closure, while the counter does not wrap. *)
Lemma run_ops_sequence os : forall tx ids tx',
  run_ops os tx = (Ok ids, tx') ->
  let s := sequence_of (buckets (bolttx tx)) (ot tx) in
  ot tx' = ot tx
  /\ (forall n, n <> ot tx ->
        sequence_of (buckets (bolttx tx')) n = sequence_of (buckets (bolttx tx)) n)
  /\ (s + N.of_nat (length ids) < 2 ^ 64 ->
      sequence_of (buckets (bolttx tx')) (ot tx) = s + N.of_nat (length ids)
      /\ StronglySorted N.lt ids
      /\ Forall (fun i => s < i <= s + N.of_nat (length ids)) ids).
Proof.
  induction os as [|o os IH]; intros tx ids tx'; cbn [run_ops].
  - unfold ret. intros H. injection H as <- <-. cbn.
    repeat split; auto; try constructor. lia.
  - unfold bind at 1.
    destruct (run_op o tx) as [[a| |] tx1] eqn:E1; try discriminate.
    unfold bind at 1.
    destruct (run_ops os tx1) as [[c| |] tx2] eqn:E2; try discriminate.
    unfold ret. intros H. injection H as <- <-.
    apply run_op_sequence in E1 as (Hot1 & Hoth1 & Hstep).
    apply IH in E2 as (Hot2 & Hoth2 & Hrest).
    rewrite Hot1 in *. cbn zeta in *.
    split; [congruence|]. split.
    + intros n Hn. rewrite Hoth2, Hoth1; auto.
    + rewrite length_app, Nat2N.inj_add. intros Hbound.
      destruct Hstep as [[-> Hs1]|[-> Hs1]]; cbn [length app] in *.
      * rewrite Hs1 in Hrest. destruct Hrest as (Hs2 & Hso & Hall); [lia|].
        split; [rewrite Hs2; lia|]. split; [exact Hso|].
        eapply List.Forall_impl; [|exact Hall]. cbn. intros; lia.
      * rewrite N.mod_small in Hs1 by lia.
        rewrite N.mod_small by lia.
        rewrite Hs1 in Hrest. destruct Hrest as (Hs2 & Hso & Hall); [lia|].
        split; [rewrite Hs2; lia|]. split.
        -- constructor; [exact Hso|].
           eapply List.Forall_impl; [|exact Hall]. cbn. intros; lia.
        -- constructor; [lia|].
           eapply List.Forall_impl; [|exact Hall]. cbn. intros; lia.
Qed.

Lemma CreateBucketIfNotExists_sequence m name n :
  sequence_of (CreateBucketIfNotExists m name) n = sequence_of m n.
Proof.
  unfold CreateBucketIfNotExists.
  destruct (m !! name) eqn:E; [reflexivity|].
  rewrite sequence_of_set. destruct (decide (name = n)) as [<-|]; [|reflexivity].
  unfold sequence_of. now rewrite E.
Qed.

Lemma Open_sequence file n : sequence_of (db (Open file)) n = sequence_of file n.
Proof.
  unfold Open. cbn [db]. generalize requiredBuckets. intros l. revert file.
  induction l as [|x l IH]; intros file; cbn [fold_left]; [reflexivity|].
  now rewrite IH, CreateBucketIfNotExists_sequence.
Qed.

Lemma run_history_sequence T h : forall r ids r',
  run_history T h r = (ids, r') ->
  sequence_of (db r) T + N.of_nat (length ids) < 2 ^ 64 ->
  StronglySorted N.lt ids
  /\ Forall (fun id => sequence_of (db r) T < id) ids
  /\ sequence_of (db r') T = sequence_of (db r) T + N.of_nat (length ids).
Proof.
  induction h as [|[o os|] h IH]; intros r ids r'; cbn [run_history].
  - intros H _. injection H as <- <-. cbn. repeat split; try constructor. lia.
  - unfold Update.
    destruct (run_ops os _) as [[a| |] tx'] eqn:E; try (now apply IH).
    destruct (run_history T h _) as [rest r''] eqn:Eh.
    intros H. injection H as <- <-.
    apply run_ops_sequence in E as (_ & Hoth & Halloc). cbn [ot bolttx buckets] in *.
    destruct (String.eqb_spec o T) as [->|Hne].
    + rewrite length_app, Nat2N.inj_add. intros Hbound.
      destruct Halloc as (Hs & Hso & Hall); [lia|].
      apply IH in Eh as (Hso' & Hall' & Hs'); cbn [db] in *; [|rewrite Hs; lia].
      rewrite Hs in *. repeat split.
      * apply (sorted_lt_app _ _ (sequence_of (db r) T + N.of_nat (length a)));
          auto.
        eapply List.Forall_impl; [|exact Hall]. cbn. intros; lia.
      * apply Forall_app. split.
        -- eapply List.Forall_impl; [|exact Hall]. cbn. intros; lia.
        -- eapply List.Forall_impl; [|exact Hall']. cbn. intros; lia.
      * lia.
    + cbn [app]. intros Hbound.
      apply IH in Eh; cbn [db] in *; rewrite Hoth in * by congruence; auto.
  - intros H Hbound. apply IH in H; unfold Close in *;
      rewrite Open_sequence in *; auto.
Qed.

(** C5 (as the code has it). A successful [AllocateId] returns the
    bucket's counter plus one (modulo 2^64), stores it as the new counter
    and leaves the entries of every bucket as they were. Over any history
    of [Update] transactions and restarts of the store, the ids returned
    for a type [T] in the transactions that commit are strictly
    increasing and above the counter the history started from, as long
    as the counter does not pass the largest [uint64]; the ids returned in
    a transaction that aborts are rolled back with it. *)
Theorem AllocateId_increasing_when_committed :
  (forall (tx tx' : Tx) (id : N),
      AllocateId tx = (Ok id, tx') ->
      id = (sequence_of (buckets (bolttx tx)) (ot tx) + 1) mod 2 ^ 64
      /\ sequence_of (buckets (bolttx tx')) (ot tx) = id
      /\ (forall name,
            entries_of (buckets (bolttx tx')) name
            = entries_of (buckets (bolttx tx)) name))
  /\ (forall (T : ObjectType) (h : list event) (r r' : Repo) (ids : list N),
      run_history T h r = (ids, r') ->
      sequence_of (db r) T + N.of_nat (length ids) < 2 ^ 64 ->
      StronglySorted N.lt ids
      /\ Forall (fun id => sequence_of (db r) T < id) ids
      /\ sequence_of (db r') T = sequence_of (db r) T + N.of_nat (length ids)).
Proof.
  split.
  - intros tx tx' id E.
    apply AllocateId_Ok_inv in E as (b & Hb & -> & ->).
    unfold Tx_Bucket in Hb. repeat split.
    + unfold sequence_of. now rewrite Hb.
    + cbn. rewrite sequence_of_set. now destruct (decide (ot tx = ot tx)).
    + intros name. unfold entries_of. cbn. rewrite lookup_insert.
      destruct (decide (ot tx = name)) as [<-|]; [|reflexivity].
      now rewrite Hb.
  - intros T h r r' ids. apply run_history_sequence.
Qed.

End Sequences.

Lemma AllocateId_increasing_when_committed_witness :
  StronglySorted N.lt [2; 3]
  /\ Forall (fun id => sequence_of (db exampleRepo) USER < id) [2; 3]
  /\ sequence_of
       (db (snd (run_history (GoStrings := asciiStrings) USER
                   exampleHistory exampleRepo))) USER
     = sequence_of (db exampleRepo) USER + N.of_nat (length [2; 3]).
Proof.
  destruct (AllocateId_increasing_when_committed (GoStrings := asciiStrings))
    as [_ Hhist].
  apply (Hhist USER exampleHistory exampleRepo).
  - vm_compute. reflexivity.
  - vm_compute. reflexivity.
Defined.

(** The claim C5 fails across a transaction that aborts: on the example
    store, creating user "Alice" allocates id 2 and aborts on the
    duplicate name; the next creation is given id 2 again. *)
Lemma AllocateId_repeats_after_abort :
  fst (AllocateId (tx_of true exampleRepo USER)) = Ok 2
  /\ Update exampleRepo USER
       (CreateUser_tx (GoStrings := asciiStrings) (W := exampleWire)
          (UserDelta_Apply (aliceDelta "Alice") User.zero))
     = (Err (DuplicateError USER 1 "Alice"), exampleRepo)
  /\ fst (Update exampleRepo USER AllocateId) = Ok 2.
Proof. repeat split; vm_compute; reflexivity. Qed.

(** ** Partial updates *)

Lemma str_eqb_empty (s : string) : str_eqb s "" = true <-> s = ""%string.
Proof. unfold str_eqb. apply String.eqb_eq. Qed.

(** C10. When the delta provides an empty [DisplayName], [Apply] sets the
    user's [DisplayName] to its [UserName], taken after a provided
    [UserName] has been applied; a provided [DisplayName] that is not
    empty is copied as it is. *)
Theorem UserDelta_Apply_DisplayName (d : UserDelta.t) (u : User.t) :
  (UserDelta.DisplayName d = Some ""%string ->
     User.DisplayName (UserDelta_Apply d u)
       = match UserDelta.UserName d with
         | Some n => n
         | None => User.UserName u
         end
     /\ User.DisplayName (UserDelta_Apply d u)
        = User.UserName (UserDelta_Apply d u))
  /\ (forall s : string, s <> ""%string ->
        UserDelta.DisplayName d = Some s ->
        User.DisplayName (UserDelta_Apply d u) = s).
Proof.
  destruct d as [dn dd de du]. unfold UserDelta_Apply.
  cbn [UserDelta.UserName UserDelta.DisplayName UserDelta.EMail UserDelta.URL].
  split.
  - intros ->. change (str_eqb "" "") with true. cbn iota.
    destruct dn, de, du; cbn; auto.
  - intros s Hs ->.
    assert (E : str_eqb s "" = false).
    { destruct (str_eqb s "") eqn:E; [|reflexivity].
      apply str_eqb_empty in E. contradiction. }
    rewrite E. destruct dn, de, du; reflexivity.
Qed.

Lemma UserDelta_Apply_DisplayName_witness :
  User.DisplayName
    (UserDelta_Apply (UserDelta.mk None (Some "Alice A."%string) None None)
       (User.mk 1 "alice" "" "" ""))
  = "Alice A."%string.
Proof.
  destruct (UserDelta_Apply_DisplayName
              (UserDelta.mk None (Some "Alice A."%string) None None)
              (User.mk 1 "alice" "" "" "")) as [_ Hcopy].
  apply (Hcopy "Alice A."%string); [discriminate | reflexivity].
Defined.

Lemma UserDelta_Apply_frame (d : UserDelta.t) (u : User.t) :
  User.Id (UserDelta_Apply d u) = User.Id u
  /\ (UserDelta.UserName d = None ->
      User.UserName (UserDelta_Apply d u) = User.UserName u)
  /\ (UserDelta.DisplayName d = None ->
      User.DisplayName (UserDelta_Apply d u) = User.DisplayName u)
  /\ (UserDelta.EMail d = None ->
      User.EMail (UserDelta_Apply d u) = User.EMail u)
  /\ (UserDelta.URL d = None ->
      User.URL (UserDelta_Apply d u) = User.URL u).
Proof.
  destruct d as [dn dd de du], u as [i n dsp e url]. unfold UserDelta_Apply.
  cbn [UserDelta.UserName UserDelta.DisplayName UserDelta.EMail UserDelta.URL].
  repeat split; try (intros E; subst);
    repeat match goal with x : option _ |- _ => destruct x end;
    try match goal with |- context [str_eqb ?x ""] => destruct (str_eqb x "") end;
    reflexivity.
Qed.

Lemma UserDelta_Apply_UserName (d : UserDelta.t) (u : User.t) (n : string) :
  UserDelta.UserName d = Some n -> User.UserName (UserDelta_Apply d u) = n.
Proof.
  destruct d as [dn dd de du]. unfold UserDelta_Apply.
  cbn [UserDelta.UserName UserDelta.DisplayName UserDelta.EMail UserDelta.URL].
  intros ->. destruct dd as [x|], de, du; try destruct (str_eqb x ""); reflexivity.
Qed.

Lemma GroupDelta_Apply_frame (d : GroupDelta.t) (g : Group.t) :
  Group.Id (GroupDelta_Apply d g) = Group.Id g
  /\ (GroupDelta.GroupName d = None ->
      Group.GroupName (GroupDelta_Apply d g) = Group.GroupName g)
  /\ (GroupDelta.Description d = None ->
      Group.Description (GroupDelta_Apply d g) = Group.Description g)
  /\ (GroupDelta.Users d = None ->
      Group.Users (GroupDelta_Apply d g) = Group.Users g).
Proof.
  destruct d as [dn dd du], g as [i n dsc us]. unfold GroupDelta_Apply.
  cbn [GroupDelta.GroupName GroupDelta.Description GroupDelta.Users].
  repeat split; try (intros E; subst);
    repeat match goal with x : option _ |- _ => destruct x end; reflexivity.
Qed.


(** ** Transactions of an open store *)

Lemma string_length_append (a b : string) :
  String.length (a ++ b) = (String.length a + String.length b)%nat.
Proof.
  induction a as [|c a IH]; [reflexivity|].
  change (S (String.length (a ++ b)) = S (String.length a + String.length b)).
  now rewrite IH.
Qed.

Lemma byname_neq (o : ObjectType) : o <> byname o.
Proof.
  unfold byname. intros E. apply (f_equal String.length) in E.
  rewrite string_length_append in E. cbn in E. lia.
Qed.

Lemma Repo_eta (h : Repo) : {| db := db h |} = h.
Proof. now destruct h. Qed.

Lemma Get_tx_of w h o id :
  Get id (tx_of w h o) = (View h o (Get id), tx_of w h o).
Proof.
  unfold View, Get, Tx_Bucket, tx_of. cbn.
  destruct (db h !! o) as [b|]; [|reflexivity].
  destruct (Bucket_Get b (u64tob id)); reflexivity.
Qed.

Section OpenStore.
Context {GoStrings : Strings}.

Lemma Lookup_tx_of w h o name :
  Lookup name (tx_of w h o) = (View h o (Lookup name), tx_of w h o).
Proof.
  unfold View, Lookup, Tx_Bucket, tx_of. cbn.
  destruct (db h !! byname o) as [b|]; [|reflexivity].
  destruct (Bucket_Get b _) as [k|]; [|reflexivity].
  destruct (btou64 k); reflexivity.
Qed.

Lemma resolve_id h o (wanted : N) (name : string) (id : N) :
  (if wanted =? 0 then View h o (Lookup name) else Ok wanted) = Ok id ->
  (if wanted =? 0 then Lookup name else ret wanted) (tx_of true h o)
  = (Ok id, tx_of true h o).
Proof.
  destruct (wanted =? 0); intros E.
  - now rewrite Lookup_tx_of, E.
  - unfold ret. congruence.
Qed.


End OpenStore.

(** ** Creation *)

Section Creation.
Context {GoStrings : Strings} {W : Wire}.



End Creation.


(** ** The conditional update protocol *)

Section ConditionalUpdate.
Context {GoStrings : Strings} {W : Wire}.

Lemma PutUser_tx_read h delta expect userId userName id value u :
  (if userId =? 0 then View h USER (Lookup userName) else Ok userId) = Ok id ->
  View h USER (Get id) = Ok value ->
  proto_Unmarshal_User value = Some u ->
  let tx := tx_of true h USER in
  let actual := ETagFor (MustMarshalJSON_User u) in
  PutUser_tx delta expect userId userName tx
  = if str_eqb expect "" then
      (Ok (http_Error (Header_Set newResponse ETag actual)
             "Header 'If-Match' is required" 428, u, true), tx)
    else if negb (str_eqb expect actual) then
      (Ok (http_Error (Header_Set newResponse ETag actual)
             "ETag mismatch" 412, u, true), tx)
    else
      bind (Put id (proto_Marshal_User (UserDelta_Apply delta u)))
           (fun _ => ret (newResponse, UserDelta_Apply delta u, false)) tx.
Proof.
  intros Hid Hget Hu tx actual. unfold PutUser_tx.
  unfold bind at 1. subst tx. rewrite (resolve_id _ _ _ _ _ Hid).
  unfold bind at 1. rewrite Get_tx_of, Hget.
  unfold bind at 1. unfold MustUnmarshalProto_User. rewrite Hu.
  fold actual.
  destruct (str_eqb expect ""); [reflexivity|].
  destruct (negb (str_eqb expect actual)); reflexivity.
Qed.

Lemma PutGroup_tx_read h delta expect groupId groupName id value g :
  (if groupId =? 0 then View h GROUP (Lookup groupName) else Ok groupId) = Ok id ->
  View h GROUP (Get id) = Ok value ->
  proto_Unmarshal_Group value = Some g ->
  let tx := tx_of true h GROUP in
  let actual := ETagFor (MustMarshalJSON_Group g) in
  PutGroup_tx delta expect groupId groupName tx
  = if str_eqb expect "" then
      (Ok (http_Error (Header_Set newResponse ETag actual)
             "Header 'If-Match' is required" 428, g, true), tx)
    else if negb (str_eqb expect actual) then
      (Ok (http_Error (Header_Set newResponse ETag actual)
             "ETag mismatch" 412, g, true), tx)
    else
      bind (Put id (proto_Marshal_Group (GroupDelta_Apply delta g)))
           (fun _ => ret (newResponse, GroupDelta_Apply delta g, false)) tx.
Proof.
  intros Hid Hget Hu tx actual. unfold PutGroup_tx.
  unfold bind at 1. subst tx. rewrite (resolve_id _ _ _ _ _ Hid).
  unfold bind at 1. rewrite Get_tx_of, Hget.
  unfold bind at 1. unfold MustUnmarshalProto_Group. rewrite Hu.
  fold actual.
  destruct (str_eqb expect ""); [reflexivity|].
  destruct (negb (str_eqb expect actual)); reflexivity.
Qed.

Lemma ETag_of_error (actual msg : string) (code : N) :
  Header (http_Error (Header_Set newResponse ETag actual) msg code) !! ETag
  = Some actual.
Proof.
  unfold http_Error, Write, WriteHeader, Header_Set. cbn [Header].
  rewrite lookup_insert_ne by discriminate. apply lookup_insert_eq.
Qed.

Lemma str_eqb_false (a b : string) : a <> b -> str_eqb a b = false.
Proof. unfold str_eqb. apply String.eqb_neq. Qed.

Lemma str_eqb_refl (a : string) : str_eqb a a = true.
Proof. unfold str_eqb. apply String.eqb_refl. Qed.

(** C3. [PutUser] and [PutGroup] validate the delta before they read the
    record. On an existing record and a delta that passes validation:
    without an [If-Match] value the reply is 428, with a value that
    differs from the current entity tag it is 412; both replies carry the
    current entity tag in their [Etag] header, and the store after the
    request is the store before it. A delta that validation rejects is
    answered 400 whatever [If-Match] holds, without an [Etag] header, and
    the store is again left as it was. *)
Theorem Put_precondition_replies :
  (forall (h : Repo) (delta : UserDelta.t) (expect : string) (userId : N)
          (userName : string) (id : N) (value : bytes) (u : User.t),
      UserDelta_Validate delta ExistingUser = None ->
      (if userId =? 0 then View h USER (Lookup userName) else Ok userId) = Ok id ->
      View h USER (Get id) = Ok value ->
      proto_Unmarshal_User value = Some u ->
      (expect = ""%string ->
         exists w, PutUser h delta expect userId userName = (Ok w, h)
                   /\ Status w = 428
                   /\ Header w !! ETag = Some (ETagFor (MustMarshalJSON_User u)))
      /\ (expect <> ""%string ->
          expect <> ETagFor (MustMarshalJSON_User u) ->
          exists w, PutUser h delta expect userId userName = (Ok w, h)
                    /\ Status w = 412
                    /\ Header w !! ETag = Some (ETagFor (MustMarshalJSON_User u))))
  /\ (forall (h : Repo) (delta : GroupDelta.t) (expect : string) (groupId : N)
             (groupName : string) (id : N) (value : bytes) (g : Group.t),
      GroupDelta_Validate delta ExistingGroup = None ->
      (if groupId =? 0 then View h GROUP (Lookup groupName) else Ok groupId) = Ok id ->
      View h GROUP (Get id) = Ok value ->
      proto_Unmarshal_Group value = Some g ->
      (expect = ""%string ->
         exists w, PutGroup h delta expect groupId groupName = (Ok w, h)
                   /\ Status w = 428
                   /\ Header w !! ETag = Some (ETagFor (MustMarshalJSON_Group g)))
      /\ (expect <> ""%string ->
          expect <> ETagFor (MustMarshalJSON_Group g) ->
          exists w, PutGroup h delta expect groupId groupName = (Ok w, h)
                    /\ Status w = 412
                    /\ Header w !! ETag = Some (ETagFor (MustMarshalJSON_Group g))))
  /\ (forall (h : Repo) (delta : UserDelta.t) (expect : string) (userId : N)
             (userName msg : string),
      UserDelta_Validate delta ExistingUser = Some msg ->
      exists w, PutUser h delta expect userId userName = (Ok w, h)
                /\ Status w = 400
                /\ Header w !! ETag = None)
  /\ (forall (h : Repo) (delta : GroupDelta.t) (expect : string) (groupId : N)
             (groupName msg : string),
      GroupDelta_Validate delta ExistingGroup = Some msg ->
      exists w, PutGroup h delta expect groupId groupName = (Ok w, h)
                /\ Status w = 400
                /\ Header w !! ETag = None).
Proof.
  split; [|split; [|split]].
  3: { intros h delta expect userId userName msg Hv.
       unfold PutUser. cbn zeta. rewrite Hv. eexists.
       split; [reflexivity|]. split; [reflexivity|].
       cbn [http_Error Write WriteHeader Header_Set Header newResponse].
       rewrite lookup_insert_ne by discriminate. apply lookup_empty. }
  3: { intros h delta expect groupId groupName msg Hv.
       unfold PutGroup. cbn zeta. rewrite Hv. eexists.
       split; [reflexivity|]. split; [reflexivity|].
       cbn [http_Error Write WriteHeader Header_Set Header newResponse].
       rewrite lookup_insert_ne by discriminate. apply lookup_empty. }
  - intros h delta expect userId userName id value u Hv Hid Hget Hu.
    pose proof (PutUser_tx_read h delta expect userId userName id value u
                  Hid Hget Hu) as Htx. cbn zeta in Htx.
    unfold PutUser, Update. cbn zeta. rewrite Hv.
    change {| bolttx := {| writable := true; buckets := db h |}; ot := USER |}
      with (tx_of true h USER).
    rewrite Htx. split.
    + intros ->. rewrite str_eqb_refl. cbn [tx_of bolttx buckets].
      rewrite Repo_eta. eexists. split; [reflexivity|].
      split; [reflexivity | apply ETag_of_error].
    + intros Hne Hdiff.
      rewrite (str_eqb_false _ _ Hne), (str_eqb_false _ _ Hdiff).
      cbn [negb tx_of bolttx buckets].
      rewrite Repo_eta. eexists. split; [reflexivity|].
      split; [reflexivity | apply ETag_of_error].
  - intros h delta expect groupId groupName id value g Hv Hid Hget Hu.
    pose proof (PutGroup_tx_read h delta expect groupId groupName id value g
                  Hid Hget Hu) as Htx. cbn zeta in Htx.
    unfold PutGroup, Update. cbn zeta. rewrite Hv.
    change {| bolttx := {| writable := true; buckets := db h |}; ot := GROUP |}
      with (tx_of true h GROUP).
    rewrite Htx. split.
    + intros ->. rewrite str_eqb_refl. cbn [tx_of bolttx buckets].
      rewrite Repo_eta. eexists. split; [reflexivity|].
      split; [reflexivity | apply ETag_of_error].
    + intros Hne Hdiff.
      rewrite (str_eqb_false _ _ Hne), (str_eqb_false _ _ Hdiff).
      cbn [negb tx_of bolttx buckets].
      rewrite Repo_eta. eexists. split; [reflexivity|].
      split; [reflexivity | apply ETag_of_error].
Qed.

End ConditionalUpdate.

Lemma Put_tx_of h o b id v :
  db h !! o = Some b ->
  N.of_nat (length v) <= MaxValueSize ->
  Put id v (tx_of true h o)
  = (Ok tt, set_bucket (tx_of true h o) o
              {| entries := entries_put (u64tob id) v (entries b);
                 sequence := sequence b |}).
Proof.
  intros Hb Hlen. unfold Put, Tx_Bucket. cbn [tx_of bolttx buckets ot writable].
  rewrite Hb. cbn zeta. unfold Bucket_Put. rewrite length_u64tob.
  apply N.ltb_ge in Hlen. cbn [negb Nat.eqb]. rewrite Hlen.
  reflexivity.
Qed.

Section PartialUpdate.
Context {GoStrings : Strings} {W : Wire}.

(** C8. In [PutUser] and [PutGroup] with an [If-Match] value equal to
    the current entity tag, the record persisted at the id is the stored
    record with the delta applied: its id is the stored one and every
    field the delta does not provide keeps its stored value; nothing else
    in the store changes. *)
Theorem Put_applies_delta_only :
  (forall (h : Repo) (delta : UserDelta.t) (expect : string) (userId : N)
          (userName : string) (id : N) (value : bytes) (u : User.t)
          (b : Bucket),
      UserDelta_Validate delta ExistingUser = None ->
      (if userId =? 0 then View h USER (Lookup userName) else Ok userId) = Ok id ->
      View h USER (Get id) = Ok value ->
      proto_Unmarshal_User value = Some u ->
      db h !! USER = Some b ->
      expect <> ""%string ->
      expect = ETagFor (MustMarshalJSON_User u) ->
      N.of_nat (length (proto_Marshal_User (UserDelta_Apply delta u)))
        <= MaxValueSize ->
      exists w h',
        PutUser h delta expect userId userName = (Ok w, h')
        /\ Status w = 200
        /\ db h' = <[USER := {| entries :=
                                  entries_put (u64tob id)
                                    (proto_Marshal_User (UserDelta_Apply delta u))
                                    (entries b);
                                sequence := sequence b |}]> (db h)
        /\ View h' USER (Get id)
           = Ok (proto_Marshal_User (UserDelta_Apply delta u))
        /\ User.Id (UserDelta_Apply delta u) = User.Id u
        /\ (UserDelta.UserName delta = None ->
            User.UserName (UserDelta_Apply delta u) = User.UserName u)
        /\ (UserDelta.DisplayName delta = None ->
            User.DisplayName (UserDelta_Apply delta u) = User.DisplayName u)
        /\ (UserDelta.EMail delta = None ->
            User.EMail (UserDelta_Apply delta u) = User.EMail u)
        /\ (UserDelta.URL delta = None ->
            User.URL (UserDelta_Apply delta u) = User.URL u))
  /\ (forall (h : Repo) (delta : GroupDelta.t) (expect : string) (groupId : N)
             (groupName : string) (id : N) (value : bytes) (g : Group.t)
             (b : Bucket),
      GroupDelta_Validate delta ExistingGroup = None ->
      (if groupId =? 0 then View h GROUP (Lookup groupName) else Ok groupId) = Ok id ->
      View h GROUP (Get id) = Ok value ->
      proto_Unmarshal_Group value = Some g ->
      db h !! GROUP = Some b ->
      expect <> ""%string ->
      expect = ETagFor (MustMarshalJSON_Group g) ->
      N.of_nat (length (proto_Marshal_Group (GroupDelta_Apply delta g)))
        <= MaxValueSize ->
      exists w h',
        PutGroup h delta expect groupId groupName = (Ok w, h')
        /\ Status w = 200
        /\ db h' = <[GROUP := {| entries :=
                                   entries_put (u64tob id)
                                     (proto_Marshal_Group (GroupDelta_Apply delta g))
                                     (entries b);
                                 sequence := sequence b |}]> (db h)
        /\ View h' GROUP (Get id)
           = Ok (proto_Marshal_Group (GroupDelta_Apply delta g))
        /\ Group.Id (GroupDelta_Apply delta g) = Group.Id g
        /\ (GroupDelta.GroupName delta = None ->
            Group.GroupName (GroupDelta_Apply delta g) = Group.GroupName g)
        /\ (GroupDelta.Description delta = None ->
            Group.Description (GroupDelta_Apply delta g) = Group.Description g)
        /\ (GroupDelta.Users delta = None ->
            Group.Users (GroupDelta_Apply delta g) = Group.Users g)).
Proof.
  split.
  - intros h delta expect userId userName id value u b Hv Hid Hget Hu Hb
           Hne Heq Hlen.
    pose proof (PutUser_tx_read h delta expect userId userName id value u
                  Hid Hget Hu) as Htx. cbn zeta in Htx.
    rewrite (str_eqb_false _ _ Hne) in Htx.
    rewrite <- Heq, str_eqb_refl in Htx. cbn [negb] in Htx.
    unfold bind in Htx. rewrite (Put_tx_of h USER b id _ Hb Hlen) in Htx.
    unfold ret in Htx.
    unfold PutUser, Update. cbn zeta. rewrite Hv.
    change {| bolttx := {| writable := true; buckets := db h |}; ot := USER |}
      with (tx_of true h USER).
    rewrite Htx. cbn iota.
    eexists _, _. split; [reflexivity|]. split; [reflexivity|].
    split; [reflexivity|]. split.
    + unfold View, Get, Tx_Bucket. cbn [bolttx buckets ot db tx_of set_bucket].
      rewrite lookup_insert_eq. cbn zeta. unfold Bucket_Get. cbn [entries].
      now rewrite entries_get_put_eq.
    + apply UserDelta_Apply_frame.
  - intros h delta expect groupId groupName id value g b Hv Hid Hget Hu Hb
           Hne Heq Hlen.
    pose proof (PutGroup_tx_read h delta expect groupId groupName id value g
                  Hid Hget Hu) as Htx. cbn zeta in Htx.
    rewrite (str_eqb_false _ _ Hne) in Htx.
    rewrite <- Heq, str_eqb_refl in Htx. cbn [negb] in Htx.
    unfold bind in Htx. rewrite (Put_tx_of h GROUP b id _ Hb Hlen) in Htx.
    unfold ret in Htx.
    unfold PutGroup, Update. cbn zeta. rewrite Hv.
    change {| bolttx := {| writable := true; buckets := db h |}; ot := GROUP |}
      with (tx_of true h GROUP).
    rewrite Htx. cbn iota.
    eexists _, _. split; [reflexivity|]. split; [reflexivity|].
    split; [reflexivity|]. split.
    + unfold View, Get, Tx_Bucket. cbn [bolttx buckets ot db tx_of set_bucket].
      rewrite lookup_insert_eq. cbn zeta. unfold Bucket_Get. cbn [entries].
      now rewrite entries_get_put_eq.
    + apply GroupDelta_Apply_frame.
Qed.

End PartialUpdate.

(** The claim C3 fails for a delta that validation rejects. User 1,
    "alice", exists, and the delta provides a name, which an update may
    not: without an [If-Match] value the reply is not 428 but 400, with a
    stale value it is not 412 but 400, and neither reply reports the
    current entity tag. *)
Lemma Put_rejected_delta_is_400 :
  View exampleRepo USER (Get 1)
    = Ok (proto_Marshal_User (Wire := exampleWire) alice)
  /\ fst (PutUser (GoStrings := asciiStrings) (W := exampleWire)
            exampleRepo (aliceDelta "Bob") "" 1 "")
     = Ok (http_Error newResponse "Field 'user_name' cannot be changed" 400)
  /\ fst (PutUser (GoStrings := asciiStrings) (W := exampleWire)
            exampleRepo (aliceDelta "Bob") "stale" 1 "")
     = Ok (http_Error newResponse "Field 'user_name' cannot be changed" 400)
  /\ Status (http_Error newResponse "Field 'user_name' cannot be changed" 400)
     = 400
  /\ Header (http_Error newResponse "Field 'user_name' cannot be changed" 400)
       !! ETag = None
  /\ aliceETag <> ""%string /\ aliceETag <> "stale"%string.
Proof. repeat split; vm_compute; try reflexivity; discriminate. Qed.

Lemma Put_precondition_replies_witness :
  (exists w,
      PutUser (GoStrings := asciiStrings) (W := exampleWire)
        exampleRepo displayDelta "" 0 "Alice" = (Ok w, exampleRepo)
      /\ Status w = 428 /\ Header w !! ETag = Some aliceETag)
  /\ (exists w,
      PutGroup (GoStrings := asciiStrings) (W := exampleWire)
        exampleRepo descriptionDelta "stale" 1 "" = (Ok w, exampleRepo)
      /\ Status w = 412 /\ Header w !! ETag = Some staffETag)
  /\ (exists w,
      PutUser (GoStrings := asciiStrings) (W := exampleWire)
        exampleRepo (aliceDelta "Bob") "stale" 1 "" = (Ok w, exampleRepo)
      /\ Status w = 400 /\ Header w !! ETag = None).
Proof.
  destruct (Put_precondition_replies (GoStrings := asciiStrings)
              (W := exampleWire)) as (Huser & Hgroup & Hrejected & _).
  split; [|split].
  3: { apply (Hrejected exampleRepo (aliceDelta "Bob") "stale"%string 1
                ""%string "Field 'user_name' cannot be changed"%string).
       reflexivity. }
  - refine (proj1 (Huser exampleRepo displayDelta ""%string 0 "Alice"%string 1
                     (u64tob 1 ++ list_byte_of_string "alice") alice
                     _ _ _ _) _).
    + reflexivity.
    + vm_compute. reflexivity.
    + vm_compute. reflexivity.
    + vm_compute. reflexivity.
    + reflexivity.
  - refine (proj2 (Hgroup exampleRepo descriptionDelta "stale"%string 1 ""%string 1
                     (u64tob 1 ++ list_byte_of_string "staff") staff
                     _ _ _ _) _ _).
    + reflexivity.
    + reflexivity.
    + vm_compute. reflexivity.
    + vm_compute. reflexivity.
    + discriminate.
    + vm_compute. discriminate.
Defined.

Lemma Put_applies_delta_only_witness :
  (exists w h',
      PutUser (GoStrings := asciiStrings) (W := exampleWire)
        exampleRepo displayDelta aliceETag 1 "" = (Ok w, h')
      /\ Status w = 200
      /\ User.UserName (UserDelta_Apply displayDelta alice) = "alice"%string
      /\ User.Id (UserDelta_Apply displayDelta alice) = 1)
  /\ (exists w h',
      PutGroup (GoStrings := asciiStrings) (W := exampleWire)
        exampleRepo descriptionDelta staffETag 0 "Staff" = (Ok w, h')
      /\ Status w = 200
      /\ Group.GroupName (GroupDelta_Apply descriptionDelta staff) = "staff"%string
      /\ Group.Id (GroupDelta_Apply descriptionDelta staff) = 1).
Proof.
  destruct (Put_applies_delta_only (GoStrings := asciiStrings)
              (W := exampleWire)) as [Huser Hgroup].
  split.
  - destruct (Huser exampleRepo displayDelta aliceETag 1 ""%string 1
                (u64tob 1 ++ list_byte_of_string "alice") alice
                {| entries := [(u64tob 1, u64tob 1 ++ list_byte_of_string "alice")];
                   sequence := 1 |})
      as (w & h' & HP & HS & _ & _ & Hi & Hn & _).
    + reflexivity.
    + reflexivity.
    + vm_compute. reflexivity.
    + vm_compute. reflexivity.
    + vm_compute. reflexivity.
    + vm_compute. discriminate.
    + reflexivity.
    + vm_compute. discriminate.
    + exists w, h'. repeat split; auto.
  - destruct (Hgroup exampleRepo descriptionDelta staffETag 0 "Staff"%string 1
                (u64tob 1 ++ list_byte_of_string "staff") staff
                {| entries := [(u64tob 1, u64tob 1 ++ list_byte_of_string "staff")];
                   sequence := 1 |})
      as (w & h' & HP & HS & _ & _ & Hi & Hn & _).
    + reflexivity.
    + vm_compute. reflexivity.
    + vm_compute. reflexivity.
    + vm_compute. reflexivity.
    + vm_compute. reflexivity.
    + vm_compute. discriminate.
    + reflexivity.
    + vm_compute. discriminate.
    + exists w, h'. repeat split; auto.
Defined.

(** * Further properties of the repository *)

(** ** Reading back what was written *)

Lemma u64tob_inj a c : a < 2 ^ 64 -> c < 2 ^ 64 -> u64tob a = u64tob c -> a = c.
Proof.
  intros Ha Hc E. apply (f_equal be_value) in E.
  now rewrite !be_value_u64tob, !N.mod_small in E.
Qed.

(** The decoding of an 8-byte key encodes back to the key, and the
    encoding is injective on [uint64]. *)
Theorem btou64_then_u64tob :
  (forall b : bytes, length b = 8%nat ->
     exists v, v < 2 ^ 64 /\ btou64 b = Ok v /\ u64tob v = b)
  /\ (forall a c : N, a < 2 ^ 64 -> c < 2 ^ 64 -> u64tob a = u64tob c -> a = c).
Proof.
  split; [|exact u64tob_inj].
  intros b Hlen. exists (be_value b).
  assert (Hv : be_value b < 2 ^ 64).
  { pose proof (be_value_bound b) as H. rewrite Hlen in H. exact H. }
  split; [exact Hv|]. split; [apply btou64_short; lia|].
  apply bytes_compare_eq.
  rewrite bytes_compare_be_value by (now rewrite length_u64tob).
  rewrite be_value_u64tob, N.mod_small by assumption.
  apply N.compare_refl.
Qed.

Lemma btou64_then_u64tob_witness :
  exists v, v < 2 ^ 64
            /\ btou64 [x00; x00; x00; x00; x00; x00; x01; x02] = Ok v
            /\ u64tob v = [x00; x00; x00; x00; x00; x00; x01; x02].
Proof.
  apply (proj1 btou64_then_u64tob [x00; x00; x00; x00; x00; x00; x01; x02]).
  reflexivity.
Defined.

Lemma Put_succeeds tx b id v :
  Tx_Bucket tx (ot tx) = Some b ->
  writable (bolttx tx) = true ->
  N.of_nat (length v) <= MaxValueSize ->
  Put id v tx
  = (Ok tt, set_bucket tx (ot tx)
              {| entries := entries_put (u64tob id) v (entries b);
                 sequence := sequence b |}).
Proof.
  intros Hb Hw Hlen. unfold Put. rewrite Hb. cbn zeta. unfold Bucket_Put.
  rewrite Hw, length_u64tob. apply N.ltb_ge in Hlen.
  cbn [negb Nat.eqb]. now rewrite Hlen.
Qed.

Lemma Put_Ok_inv id v tx tx' :
  Put id v tx = (Ok tt, tx') ->
  exists b,
    Tx_Bucket tx (ot tx) = Some b
    /\ tx' = set_bucket tx (ot tx)
               {| entries := entries_put (u64tob id) v (entries b);
                  sequence := sequence b |}.
Proof.
  unfold Put. destruct (Tx_Bucket tx (ot tx)) as [b|]; [|discriminate].
  cbn zeta. unfold Bucket_Put.
  destruct (negb (writable (bolttx tx))); [discriminate|].
  destruct (length _ =? 0)%nat; [discriminate|].
  destruct (MaxKeySize <? _); [discriminate|].
  destruct (MaxValueSize <? _); [discriminate|].
  intros E. injection E as <-. eauto.
Qed.

Lemma Get_set_primary tx b' id :
  fst (Get id (set_bucket tx (ot tx) b'))
  = match entries_get (u64tob id) (entries b') with
    | Some v => Ok v
    | None => Err (NotFoundError (ot tx) id "")
    end.
Proof.
  unfold Get. cbn [ot set_bucket]. rewrite Tx_Bucket_set_eq. cbn zeta.
  unfold Bucket_Get. now destruct (entries_get _ _).
Qed.

Lemma Get_primary tx b id :
  Tx_Bucket tx (ot tx) = Some b ->
  fst (Get id tx)
  = match entries_get (u64tob id) (entries b) with
    | Some v => Ok v
    | None => Err (NotFoundError (ot tx) id "")
    end.
Proof.
  intros Hb. unfold Get. rewrite Hb. cbn zeta.
  unfold Bucket_Get. now destruct (entries_get _ _).
Qed.

(** [Put] in a read-write transaction, of a value within the engine's
    size limit, succeeds; [Get] of the same id then returns the value,
    and [Get] of any other id returns what it returned before. *)
Theorem Put_then_Get (tx : Tx) (b : Bucket) (id : N) (v : bytes) :
  Tx_Bucket tx (ot tx) = Some b ->
  writable (bolttx tx) = true ->
  N.of_nat (length v) <= MaxValueSize ->
  exists tx',
    Put id v tx = (Ok tt, tx')
    /\ Get id tx' = (Ok v, tx')
    /\ (forall id', id < 2 ^ 64 -> id' < 2 ^ 64 -> id' <> id ->
          fst (Get id' tx') = fst (Get id' tx)).
Proof.
  intros Hb Hw Hlen. eexists.
  split; [exact (Put_succeeds tx b id v Hb Hw Hlen)|]. split.
  - unfold Get. cbn [ot set_bucket]. rewrite Tx_Bucket_set_eq. cbn zeta.
    unfold Bucket_Get. cbn [entries]. now rewrite entries_get_put_eq.
  - intros id' Hid Hid' Hne.
    rewrite Get_set_primary, (Get_primary tx b id' Hb). cbn [entries].
    rewrite entries_get_put_ne; [reflexivity|].
    intros E. apply u64tob_inj in E; auto.
Qed.

Lemma Put_then_Get_witness :
  exists tx',
    Put 5 [x2a] (tx_of true exampleRepo USER) = (Ok tt, tx')
    /\ Get 5 tx' = (Ok [x2a], tx')
    /\ (forall id', 5 < 2 ^ 64 -> id' < 2 ^ 64 -> id' <> 5 ->
          fst (Get id' tx') = fst (Get id' (tx_of true exampleRepo USER))).
Proof.
  apply (Put_then_Get (tx_of true exampleRepo USER)
           {| entries := [(u64tob 1, u64tob 1 ++ list_byte_of_string "alice")];
              sequence := 1 |} 5 [x2a]).
  - reflexivity.
  - reflexivity.
  - vm_compute. discriminate.
Defined.

Lemma entries_put_put k v1 v2 es :
  entries_put k v2 (entries_put k v1 es) = entries_put k v2 es.
Proof.
  induction es as [|[k' v'] es IH]; cbn [entries_put].
  - now rewrite bytes_compare_refl.
  - destruct (bytes_compare k k') eqn:E; cbn [entries_put];
      rewrite ?bytes_compare_refl, ?E, ?IH; reflexivity.
Qed.

Lemma set_bucket_twice tx name b1 b2 :
  set_bucket (set_bucket tx name b1) name b2 = set_bucket tx name b2.
Proof. unfold set_bucket. cbn. now rewrite insert_insert_eq. Qed.

(** [Put] is an upsert: writing an id a second time replaces the value,
    and leaves the transaction as if only the second write had been made. *)
Theorem Put_overwrites (tx tx1 tx2 : Tx) (id : N) (v1 v2 : bytes) :
  Put id v1 tx = (Ok tt, tx1) ->
  Put id v2 tx1 = (Ok tt, tx2) ->
  Put id v2 tx = (Ok tt, tx2) /\ Get id tx2 = (Ok v2, tx2).
Proof.
  intros H1 H2.
  apply Put_Ok_inv in H1 as (b & Hb & ->).
  pose proof H2 as H2'.
  apply Put_Ok_inv in H2' as (b1 & Hb1 & ->).
  cbn [ot set_bucket] in Hb1. rewrite Tx_Bucket_set_eq in Hb1.
  injection Hb1 as <-. cbn [ot set_bucket entries sequence] in *.
  rewrite set_bucket_twice, entries_put_put in *.
  split.
  - unfold Put in *. cbn [ot set_bucket bolttx writable] in H2.
    rewrite Tx_Bucket_set_eq in H2. rewrite Hb. cbn zeta in *.
    unfold Bucket_Put in *. cbn [entries sequence] in *.
    destruct (negb (writable (bolttx tx))); [discriminate|].
    destruct (length _ =? 0)%nat; [discriminate|].
    destruct (MaxKeySize <? _); [discriminate|].
    destruct (MaxValueSize <? _); [discriminate|].
    reflexivity.
  - unfold Get. cbn [ot set_bucket]. rewrite Tx_Bucket_set_eq. cbn zeta.
    unfold Bucket_Get. cbn [entries]. now rewrite entries_get_put_eq.
Qed.

Lemma Put_overwrites_witness :
  Put 1 [x02] (tx_of true exampleRepo USER)
  = (Ok tt, snd (Put 1 [x02] (snd (Put 1 [x01] (tx_of true exampleRepo USER)))))
  /\ Get 1 (snd (Put 1 [x02] (snd (Put 1 [x01] (tx_of true exampleRepo USER)))))
     = (Ok [x02],
        snd (Put 1 [x02] (snd (Put 1 [x01] (tx_of true exampleRepo USER))))).
Proof.
  apply (Put_overwrites (tx_of true exampleRepo USER)
           (snd (Put 1 [x01] (tx_of true exampleRepo USER))) _ 1 [x01] [x02]).
  - vm_compute. reflexivity.
  - vm_compute. reflexivity.
Defined.

(** ** Deleting *)

Lemma Delete_Ok_inv id tx tx' :
  Delete id tx = (Ok tt, tx') ->
  exists b,
    Tx_Bucket tx (ot tx) = Some b
    /\ tx' = set_bucket tx (ot tx)
               {| entries := entries_delete (u64tob id) (entries b);
                  sequence := sequence b |}.
Proof.
  unfold Delete. destruct (Tx_Bucket tx (ot tx)) as [b|]; [|discriminate].
  cbn zeta. destruct (Bucket_Get b _); [|discriminate].
  unfold Bucket_Delete.
  destruct (negb (writable (bolttx tx))); [discriminate|].
  intros E. injection E as <-. eauto.
Qed.

(** A [Delete] that succeeds removes one record only: [Get] of any other
    id returns what it returned before, every other bucket of the store
    is as it was, and the sequence counter of the type is not changed. *)
Theorem Delete_removes_one_record (tx tx' : Tx) (id : N) :
  Delete id tx = (Ok tt, tx') ->
  (forall id', id < 2 ^ 64 -> id' < 2 ^ 64 -> id' <> id ->
      fst (Get id' tx') = fst (Get id' tx))
  /\ (forall name, name <> ot tx -> Tx_Bucket tx' name = Tx_Bucket tx name)
  /\ sequence_of (buckets (bolttx tx')) (ot tx)
     = sequence_of (buckets (bolttx tx)) (ot tx).
Proof.
  intros H. apply Delete_Ok_inv in H as (b & Hb & ->). repeat split.
  - intros id' Hid Hid' Hne.
    rewrite Get_set_primary, (Get_primary tx b id' Hb). cbn [entries].
    rewrite entries_get_delete_ne; [reflexivity|].
    intros E. apply u64tob_inj in E; auto.
  - intros name Hne. now apply Tx_Bucket_set_ne.
  - now apply (sequence_of_same tx (ot tx) b).
Qed.

Lemma Delete_removes_one_record_witness :
  (forall id', 1 < 2 ^ 64 -> id' < 2 ^ 64 -> id' <> 1 ->
      fst (Get id' (snd (Delete 1 (tx_of true exampleRepo USER))))
      = fst (Get id' (tx_of true exampleRepo USER)))
  /\ (forall name, name <> USER ->
        Tx_Bucket (snd (Delete 1 (tx_of true exampleRepo USER))) name
        = Tx_Bucket (tx_of true exampleRepo USER) name)
  /\ sequence_of
       (buckets (bolttx (snd (Delete 1 (tx_of true exampleRepo USER))))) USER
     = sequence_of (buckets (bolttx (tx_of true exampleRepo USER))) USER.
Proof.
  apply (Delete_removes_one_record (tx_of true exampleRepo USER)).
  vm_compute. reflexivity.
Defined.

(** ** The name index, continued *)

Lemma entries_delete_absent k es :
  entries_get k es = None -> entries_delete k es = es.
Proof.
  induction es as [|[k' v'] es IH]; cbn [entries_get entries_delete];
    [reflexivity|].
  destruct (bytes_compare k k'); [discriminate| |]; intros H; now rewrite IH.
Qed.

Lemma set_bucket_same tx name b :
  Tx_Bucket tx name = Some b -> set_bucket tx name b = tx.
Proof.
  unfold Tx_Bucket, set_bucket. intros H. rewrite (insert_id _ _ _ H).
  now destruct tx as [[w m] o].
Qed.

Lemma list_byte_of_string_inj a b :
  list_byte_of_string a = list_byte_of_string b -> a = b.
Proof.
  intros E. apply (f_equal string_of_list_byte) in E.
  now rewrite !string_of_list_byte_of_string in E.
Qed.

Section NameIndexMore.
Context {GoStrings : Strings}.

Lemma Lookup_byname tx b name :
  Tx_Bucket tx (byname (ot tx)) = Some b ->
  Lookup name tx
  = (match entries_get (list_byte_of_string (ToLower name)) (entries b) with
     | None => Err (NotFoundError (ot tx) 0 name)
     | Some k => btou64 k
     end, tx).
Proof.
  intros Hb. unfold Lookup. cbn zeta. rewrite Hb. unfold Bucket_Get.
  destruct (entries_get _ _) as [k|]; [|reflexivity].
  destruct (btou64 k); reflexivity.
Qed.

(** On a transaction whose name index exists, [Lookup name] fails with
    [NotFound(type, name)], carrying id 0 and the name as it was given,
    exactly when the index has no entry for the lowercased name; and
    [Lookup] never changes the transaction. *)
Theorem Lookup_NotFound_iff_unmapped (tx : Tx) (b : Bucket) (name : string) :
  Tx_Bucket tx (byname (ot tx)) = Some b ->
  (fst (Lookup name tx) = Err (NotFoundError (ot tx) 0 name)
     <-> Bucket_Get b (list_byte_of_string (ToLower name)) = None)
  /\ snd (Lookup name tx) = tx.
Proof.
  intros Hb. rewrite (Lookup_byname tx b name Hb). cbn [fst snd].
  unfold Bucket_Get. split; [|reflexivity].
  destruct (entries_get _ _) as [k|]; [|tauto].
  split; [|discriminate]. unfold btou64.
  destruct (8 <? length _)%nat; discriminate.
Qed.

Lemma Unassociate_succeeds tx b name :
  Tx_Bucket tx (byname (ot tx)) = Some b ->
  writable (bolttx tx) = true ->
  Unassociate name tx
  = (Ok tt, set_bucket tx (byname (ot tx))
              {| entries := entries_delete (list_byte_of_string (ToLower name))
                              (entries b);
                 sequence := sequence b |}).
Proof.
  intros Hb Hw. unfold Unassociate. cbn zeta. rewrite Hb.
  unfold Bucket_Delete. now rewrite Hw.
Qed.

(** [Unassociate] in a read-write transaction always succeeds: when the
    lowercased name has no entry the transaction is left exactly as it
    was, and afterwards [Lookup] of any name with that lowercased form
    fails with [NotFound]. *)
Theorem Unassociate_is_silent (tx : Tx) (b : Bucket) (name : string) :
  Tx_Bucket tx (byname (ot tx)) = Some b ->
  writable (bolttx tx) = true ->
  exists tx',
    Unassociate name tx = (Ok tt, tx')
    /\ (Bucket_Get b (list_byte_of_string (ToLower name)) = None -> tx' = tx)
    /\ (forall m, ToLower m = ToLower name ->
          Lookup m tx' = (Err (NotFoundError (ot tx) 0 m), tx')).
Proof.
  intros Hb Hw. eexists.
  split; [exact (Unassociate_succeeds tx b name Hb Hw)|]. split.
  - unfold Bucket_Get. intros Hnone.
    rewrite (entries_delete_absent _ _ Hnone).
    replace {| entries := entries b; sequence := sequence b |} with b
      by now destruct b.
    now apply set_bucket_same.
  - intros m Hm. erewrite Lookup_byname
      by (cbn [ot set_bucket]; apply Tx_Bucket_set_eq).
    cbn [entries ot set_bucket]. now rewrite Hm, entries_get_delete_eq.
Qed.

Lemma Associate_succeeds tx b id name :
  Tx_Bucket tx (byname (ot tx)) = Some b ->
  Bucket_Get b (list_byte_of_string (ToLower name)) = None ->
  writable (bolttx tx) = true ->
  ToLower name <> ""%string ->
  N.of_nat (String.length (ToLower name)) <= MaxKeySize ->
  Associate id name tx
  = (Ok tt, set_bucket tx (byname (ot tx))
              {| entries := entries_put (list_byte_of_string (ToLower name))
                              (u64tob id) (entries b);
                 sequence := sequence b |}).
Proof.
  intros Hb Hnone Hw Hne Hlen.
  unfold Associate. cbn zeta. rewrite Hb, Hnone. unfold Bucket_Put.
  rewrite Hw. cbn [negb].
  assert (Hl : length (list_byte_of_string (ToLower name))
               = String.length (ToLower name)).
  { unfold list_byte_of_string. rewrite length_map.
    generalize (ToLower name). intros s. induction s; cbn; congruence. }
  rewrite Hl.
  assert (H0 : (String.length (ToLower name) =? 0)%nat = false).
  { destruct (ToLower name); [congruence|reflexivity]. }
  rewrite H0. apply N.ltb_ge in Hlen. rewrite Hlen.
  change (MaxValueSize <? N.of_nat (length (u64tob id))) with false.
  reflexivity.
Qed.

(** A name that has been unassociated can be taken again, by any id:
    after [Unassociate n], [Associate id m] succeeds for a name [m] with
    the lowercased form of [n], and [Lookup] then returns [id]. *)
Theorem Unassociate_frees_the_name (tx : Tx) (b : Bucket) (n m : string)
  (id : N) :
  Tx_Bucket tx (byname (ot tx)) = Some b ->
  writable (bolttx tx) = true ->
  ToLower m = ToLower n ->
  ToLower m <> ""%string ->
  N.of_nat (String.length (ToLower m)) <= MaxKeySize ->
  id < 2 ^ 64 ->
  exists tx1 tx2,
    Unassociate n tx = (Ok tt, tx1)
    /\ Associate id m tx1 = (Ok tt, tx2)
    /\ Lookup n tx2 = (Ok id, tx2).
Proof.
  intros Hb Hw Hmn Hne Hlen Hid. eexists _, _.
  split; [exact (Unassociate_succeeds tx b n Hb Hw)|].
  split.
  - apply Associate_succeeds; cbn [ot set_bucket bolttx writable]; auto.
    + apply Tx_Bucket_set_eq.
    + unfold Bucket_Get. cbn [entries]. rewrite Hmn.
      apply entries_get_delete_eq.
  - cbn [ot set_bucket entries sequence].
    match goal with
    | |- Lookup n (set_bucket ?t _ {| entries := entries_put _ _ ?es;
                                      sequence := ?s |}) = _ =>
        apply (Lookup_after_put t {| entries := es; sequence := s |} id m n
                 Hid Hmn)
    end.
Qed.

(** An [Associate] that succeeds adds one entry only: [Lookup] of a name
    with another lowercased form, and [Get] of any id, return what they
    returned before. *)
Theorem Associate_adds_one_entry (tx tx' : Tx) (id : N) (name : string) :
  Associate id name tx = (Ok tt, tx') ->
  (forall m, ToLower m <> ToLower name ->
      fst (Lookup m tx') = fst (Lookup m tx))
  /\ (forall id', fst (Get id' tx') = fst (Get id' tx))
  /\ (forall n, sequence_of (buckets (bolttx tx')) n
                = sequence_of (buckets (bolttx tx)) n).
Proof.
  intros H. apply Associate_Ok_inv in H as (b & Hb & _ & ->). repeat split.
  - intros m Hm.
    erewrite Lookup_byname by (cbn [ot set_bucket]; apply Tx_Bucket_set_eq).
    rewrite (Lookup_byname tx b m Hb). cbn [fst entries ot set_bucket].
    rewrite entries_get_put_ne; [reflexivity|].
    intros E. apply list_byte_of_string_inj in E. congruence.
  - intros id'. unfold Get. cbn [ot set_bucket].
    rewrite Tx_Bucket_set_ne by (apply not_eq_sym, byname_neq).
    destruct (Tx_Bucket tx (ot tx)) as [bp|]; [|reflexivity].
    cbn zeta. destruct (Bucket_Get bp _); reflexivity.
  - intros n. now apply (sequence_of_same tx (byname (ot tx)) b).
Qed.

End NameIndexMore.

Lemma Unassociate_frees_the_name_witness :
  exists tx1 tx2,
    Unassociate (GoStrings := asciiStrings) "ALICE" (tx_of true exampleRepo USER)
      = (Ok tt, tx1)
    /\ Associate (GoStrings := asciiStrings) 9 "Alice" tx1 = (Ok tt, tx2)
    /\ Lookup (GoStrings := asciiStrings) "ALICE" tx2 = (Ok 9, tx2).
Proof.
  apply (Unassociate_frees_the_name (GoStrings := asciiStrings)
           (tx_of true exampleRepo USER)
           {| entries := [(list_byte_of_string "alice", u64tob 1)];
              sequence := 0 |} "ALICE" "Alice" 9).
  - reflexivity.
  - reflexivity.
  - reflexivity.
  - discriminate.
  - vm_compute. discriminate.
  - reflexivity.
Defined.

Lemma Associate_adds_one_entry_witness :
  (forall m, ToLower (GoStrings := asciiStrings) m
             <> ToLower (GoStrings := asciiStrings) "Bob" ->
      fst (Lookup (GoStrings := asciiStrings) m
             (snd (Associate (GoStrings := asciiStrings) 2 "Bob"
                     (tx_of true exampleRepo USER))))
      = fst (Lookup (GoStrings := asciiStrings) m (tx_of true exampleRepo USER)))
  /\ (forall id',
        fst (Get id' (snd (Associate (GoStrings := asciiStrings) 2 "Bob"
                             (tx_of true exampleRepo USER))))
        = fst (Get id' (tx_of true exampleRepo USER)))
  /\ (forall n,
        sequence_of
          (buckets (bolttx (snd (Associate (GoStrings := asciiStrings) 2 "Bob"
                                   (tx_of true exampleRepo USER))))) n
        = sequence_of (buckets (bolttx (tx_of true exampleRepo USER))) n).
Proof.
  apply (Associate_adds_one_entry (GoStrings := asciiStrings)
           (tx_of true exampleRepo USER) _ 2 "Bob").
  vm_compute. reflexivity.
Defined.

Lemma Lookup_NotFound_iff_unmapped_witness :
  fst (Lookup (GoStrings := asciiStrings) "Carol" (tx_of false exampleRepo USER))
    = Err (NotFoundError USER 0 "Carol")
  <-> Bucket_Get {| entries := [(list_byte_of_string "alice", u64tob 1)];
                    sequence := 0 |}
        (list_byte_of_string (ToLower (GoStrings := asciiStrings) "Carol"))
      = None.
Proof.
  apply (Lookup_NotFound_iff_unmapped (GoStrings := asciiStrings)
           (tx_of false exampleRepo USER)
           {| entries := [(list_byte_of_string "alice", u64tob 1)];
              sequence := 0 |} "Carol").
  reflexivity.
Defined.

Lemma Unassociate_is_silent_witness :
  exists tx',
    Unassociate (GoStrings := asciiStrings) "Carol" (tx_of true exampleRepo USER)
      = (Ok tt, tx')
    /\ (Bucket_Get {| entries := [(list_byte_of_string "alice", u64tob 1)];
                      sequence := 0 |}
          (list_byte_of_string (ToLower (GoStrings := asciiStrings) "Carol"))
        = None -> tx' = tx_of true exampleRepo USER)
    /\ (forall m, ToLower (GoStrings := asciiStrings) m
                  = ToLower (GoStrings := asciiStrings) "Carol" ->
          Lookup (GoStrings := asciiStrings) m tx'
          = (Err (NotFoundError USER 0 m), tx')).
Proof.
  apply (Unassociate_is_silent (GoStrings := asciiStrings)
           (tx_of true exampleRepo USER)
           {| entries := [(list_byte_of_string "alice", u64tob 1)];
              sequence := 0 |} "Carol").
  - reflexivity.
  - reflexivity.
Defined.

Section IndexInvariant.
Context {GoStrings : Strings}.

(** The name index stays well formed: the empty index is, and
    [Associate] and [Unassociate] keep it so. On a well-formed index a
    key has at most one entry, and [Lookup] and [Associate] do not
    panic. *)
Theorem name_index_stays_well_formed :
  index_wf []
  /\ (forall (tx tx' : Tx) (b : Bucket) (id : N) (name : string),
        Tx_Bucket tx (byname (ot tx)) = Some b ->
        index_wf (entries b) ->
        Associate id name tx = (Ok tt, tx') ->
        exists b', Tx_Bucket tx' (byname (ot tx)) = Some b'
                   /\ index_wf (entries b'))
  /\ (forall (tx tx' : Tx) (b : Bucket) (name : string),
        Tx_Bucket tx (byname (ot tx)) = Some b ->
        index_wf (entries b) ->
        Unassociate name tx = (Ok tt, tx') ->
        exists b', Tx_Bucket tx' (byname (ot tx)) = Some b'
                   /\ index_wf (entries b'))
  /\ (forall (tx : Tx) (b : Bucket),
        Tx_Bucket tx (byname (ot tx)) = Some b ->
        index_wf (entries b) ->
        (forall k v1 v2, In (k, v1) (entries b) -> In (k, v2) (entries b) ->
                         v1 = v2)
        /\ (forall name, fst (Lookup name tx) <> Panic)
        /\ (forall id name, fst (Associate id name tx) <> Panic)).
Proof.
  split; [split; constructor|]. split; [|split].
  - intros tx tx' b id name Hb [Hs Hl] HA.
    apply Associate_Ok_inv in HA as (b0 & Hb0 & _ & ->).
    rewrite Hb in Hb0. injection Hb0 as <-.
    eexists. split; [apply Tx_Bucket_set_eq|]. cbn [entries]. split.
    + now apply entries_put_sorted.
    + now apply entries_put_Forall.
  - intros tx tx' b name Hb [Hs Hl] HU.
    unfold Unassociate in HU. cbn zeta in HU. rewrite Hb in HU.
    unfold Bucket_Delete in HU.
    destruct (negb (writable (bolttx tx))); [discriminate|].
    injection HU as <-.
    eexists. split; [apply Tx_Bucket_set_eq|]. cbn [entries]. split.
    + now apply entries_delete_sorted.
    + now apply entries_delete_Forall.
  - intros tx b Hb [Hs Hl].
    assert (Hdec : forall k v, entries_get k (entries b) = Some v ->
                               exists id, btou64 v = Ok id).
    { intros k v Hget. apply entries_get_In in Hget.
      rewrite List.Forall_forall in Hl. specialize (Hl _ Hget). cbn in Hl.
      eexists. apply btou64_short. lia. }
    repeat split.
    + intros k v1 v2 H1 H2.
      apply (entries_get_sorted _ _ _ Hs) in H1, H2. congruence.
    + intros name. rewrite (Lookup_byname tx b name Hb). cbn [fst].
      destruct (entries_get _ _) as [k|] eqn:E; [|discriminate].
      destruct (Hdec _ _ E) as [id ->]. discriminate.
    + intros id name. unfold Associate. cbn zeta. rewrite Hb.
      unfold Bucket_Get.
      destruct (entries_get _ _) as [k|] eqn:E.
      * destruct (Hdec _ _ E) as [id' ->]. discriminate.
      * unfold Bucket_Put.
        destruct (negb (writable (bolttx tx))); [discriminate|].
        destruct (length _ =? 0)%nat; [discriminate|].
        destruct (MaxKeySize <? _); [discriminate|].
        destruct (MaxValueSize <? _); discriminate.
Qed.

(** ** Frames of the operations *)

Lemma run_op_touches tx o :
  snd (run_op o tx) = tx
  \/ (exists b', snd (run_op o tx) = set_bucket tx (ot tx) b')
  \/ (exists b', snd (run_op o tx) = set_bucket tx (byname (ot tx)) b').
Proof.
  destruct o as [|id v|id|id name|name]; unfold run_op, bind, ret.
  - unfold AllocateId. destruct (Tx_Bucket tx (ot tx)) as [b|]; [|now left].
    unfold Bucket_NextSequence.
    destruct (negb (writable (bolttx tx))); [now left|].
    right. left. cbn. eauto.
  - unfold Put. destruct (Tx_Bucket tx (ot tx)) as [b|]; [|now left].
    cbn zeta. unfold Bucket_Put.
    destruct (negb (writable (bolttx tx))); [now left|].
    destruct (length _ =? 0)%nat; [now left|].
    destruct (MaxKeySize <? _); [now left|].
    destruct (MaxValueSize <? _); [now left|].
    right. left. cbn. eauto.
  - unfold Delete. destruct (Tx_Bucket tx (ot tx)) as [b|]; [|now left].
    cbn zeta. destruct (Bucket_Get b _); [|now left].
    unfold Bucket_Delete.
    destruct (negb (writable (bolttx tx))); [now left|].
    right. left. cbn. eauto.
  - unfold Associate. cbn zeta.
    destruct (Tx_Bucket tx (byname (ot tx))) as [b|]; [|now left].
    destruct (Bucket_Get b _) as [k|].
    + destruct (btou64 k); now left.
    + unfold Bucket_Put.
      destruct (negb (writable (bolttx tx))); [now left|].
      destruct (length _ =? 0)%nat; [now left|].
      destruct (MaxKeySize <? _); [now left|].
      destruct (MaxValueSize <? _); [now left|].
      right. right. cbn. eauto.
  - unfold Unassociate. cbn zeta.
    destruct (Tx_Bucket tx (byname (ot tx))) as [b|]; [|now left].
    unfold Bucket_Delete.
    destruct (negb (writable (bolttx tx))); [now left|].
    right. right. cbn. eauto.
Qed.

(** Whatever its outcome, a call on a transaction of one object type
    leaves every bucket but the type's primary bucket and its name index
    as it was, and keeps the transaction's type and mode. *)
Theorem calls_touch_own_buckets_only (tx : Tx) (o : op) :
  ot (snd (run_op o tx)) = ot tx
  /\ writable (bolttx (snd (run_op o tx))) = writable (bolttx tx)
  /\ (forall name, name <> ot tx -> name <> byname (ot tx) ->
        Tx_Bucket (snd (run_op o tx)) name = Tx_Bucket tx name).
Proof.
  destruct (run_op_touches tx o) as [->|[[b' ->]|[b' ->]]];
    repeat split; auto; intros name H1 H2; now apply Tx_Bucket_set_ne.
Qed.

(** In a read-only transaction no writing call succeeds, and each leaves
    the transaction as it was. *)
Theorem read_only_refuses_writes (tx : Tx) (o : op) :
  writable (bolttx tx) = false ->
  (forall ids, fst (run_op o tx) <> Ok ids) /\ snd (run_op o tx) = tx.
Proof.
  intros Hw.
  destruct o as [|id v|id|id name|name]; unfold run_op, bind, ret.
  - unfold AllocateId. destruct (Tx_Bucket tx (ot tx)) as [b|];
      [|split; [discriminate|reflexivity]].
    unfold Bucket_NextSequence. rewrite Hw. split; [discriminate|reflexivity].
  - unfold Put. destruct (Tx_Bucket tx (ot tx)) as [b|];
      [|split; [discriminate|reflexivity]].
    cbn zeta. unfold Bucket_Put. rewrite Hw.
    split; [discriminate|reflexivity].
  - unfold Delete. destruct (Tx_Bucket tx (ot tx)) as [b|];
      [|split; [discriminate|reflexivity]].
    cbn zeta. destruct (Bucket_Get b _);
      [|split; [discriminate|reflexivity]].
    unfold Bucket_Delete. rewrite Hw. split; [discriminate|reflexivity].
  - unfold Associate. cbn zeta.
    destruct (Tx_Bucket tx (byname (ot tx))) as [b|];
      [|split; [discriminate|reflexivity]].
    destruct (Bucket_Get b _) as [k|].
    + destruct (btou64 k); split; (discriminate || reflexivity).
    + unfold Bucket_Put. rewrite Hw. split; [discriminate|reflexivity].
  - unfold Unassociate. cbn zeta.
    destruct (Tx_Bucket tx (byname (ot tx))) as [b|];
      [|split; [discriminate|reflexivity]].
    unfold Bucket_Delete. rewrite Hw. split; [discriminate|reflexivity].
Qed.

End IndexInvariant.

Lemma name_index_stays_well_formed_witness :
  exists b',
    Tx_Bucket (snd (Associate (GoStrings := asciiStrings) 2 "Bob"
                      (tx_of true exampleRepo USER))) (byname USER) = Some b'
    /\ index_wf (entries b').
Proof.
  destruct (name_index_stays_well_formed (GoStrings := asciiStrings))
    as (_ & Hassoc & _).
  apply (Hassoc (tx_of true exampleRepo USER) _
           {| entries := [(list_byte_of_string "alice", u64tob 1)];
              sequence := 0 |} 2 "Bob").
  - reflexivity.
  - split; repeat constructor.
  - vm_compute. reflexivity.
Defined.

Lemma read_only_refuses_writes_witness :
  (forall ids,
      fst (run_op (GoStrings := asciiStrings) (OpPut 1 [x01])
             (tx_of false exampleRepo USER)) <> Ok ids)
  /\ snd (run_op (GoStrings := asciiStrings) (OpPut 1 [x01])
            (tx_of false exampleRepo USER))
     = tx_of false exampleRepo USER.
Proof.
  apply (read_only_refuses_writes (GoStrings := asciiStrings)
           (tx_of false exampleRepo USER) (OpPut 1 [x01])).
  reflexivity.
Defined.

Lemma calls_touch_own_buckets_only_witness :
  Tx_Bucket (snd (run_op (GoStrings := asciiStrings) (OpDelete 1)
                    (tx_of true exampleRepo USER))) GROUP
  = Tx_Bucket (tx_of true exampleRepo USER) GROUP.
Proof.
  apply (proj2 (proj2 (calls_touch_own_buckets_only (GoStrings := asciiStrings)
                         (tx_of true exampleRepo USER) (OpDelete 1))));
    discriminate.
Defined.

(** ** Opening the store *)

Lemma CreateBuckets_lookup (l : list string) : forall (m : gmap string Bucket) name,
  fold_left CreateBucketIfNotExists l m !! name
  = match m !! name with
    | Some b => Some b
    | None => if bool_decide (name ∈ l) then Some emptyBucket else None
    end.
Proof.
  induction l as [|x l IH]; intros m name; cbn [fold_left].
  - rewrite bool_decide_eq_false_2 by apply not_elem_of_nil.
    now destruct (m !! name).
  - rewrite IH. unfold CreateBucketIfNotExists.
    destruct (m !! x) as [bx|] eqn:Ex.
    + destruct (m !! name) as [b|] eqn:En; [reflexivity|].
      destruct (decide (x = name)) as [->|Hne]; [congruence|].
      apply f_equal with (f := fun c : bool => if c then Some emptyBucket else None).
      apply bool_decide_ext. rewrite elem_of_cons. intuition congruence.
    + rewrite lookup_insert. destruct (decide (x = name)) as [->|Hne].
      * rewrite Ex. rewrite bool_decide_eq_true_2 by (apply elem_of_cons; now left).
        reflexivity.
      * destruct (m !! name); [reflexivity|].
        apply f_equal with (f := fun c : bool => if c then Some emptyBucket else None).
        apply bool_decide_ext. rewrite elem_of_cons. intuition congruence.
Qed.

Lemma Open_lookup (file : gmap string Bucket) (name : string) :
  db (Open file) !! name
  = match file !! name with
    | Some b => Some b
    | None => if bool_decide (name ∈ requiredBuckets)
              then Some emptyBucket else None
    end.
Proof. unfold Open. cbn [db]. apply CreateBuckets_lookup. Qed.

(** [Open] leaves every bucket found in the file as it is, creates each
    required bucket that is missing as an empty bucket with sequence 0,
    and creates nothing else; opening again what [Close] left changes
    nothing. *)
Theorem Open_creates_required_buckets (file : gmap string Bucket) :
  (forall name b, file !! name = Some b -> db (Open file) !! name = Some b)
  /\ (forall name, In name requiredBuckets -> file !! name = None ->
        db (Open file) !! name = Some emptyBucket)
  /\ (forall name, ~ In name requiredBuckets ->
        db (Open file) !! name = file !! name)
  /\ Open (Close (Open file)) = Open file.
Proof.
  pose proof (Open_lookup file) as HL.
  repeat split.
  - intros name b E. now rewrite HL, E.
  - intros name Hin E. rewrite HL, E, bool_decide_eq_true_2; [reflexivity|].
    now apply list_elem_of_In.
  - intros name Hnin. rewrite HL.
    destruct (file !! name); [reflexivity|].
    rewrite bool_decide_eq_false_2; [reflexivity|].
    now rewrite list_elem_of_In.
  - rewrite <- (Repo_eta (Open (Close (Open file)))).
    rewrite <- (Repo_eta (Open file)) at 2. f_equal.
    unfold Close. unfold Open at 1. cbn [db].
    apply map_eq. intros name. rewrite CreateBuckets_lookup, HL.
    destruct (file !! name); [reflexivity|].
    destruct (bool_decide (name ∈ requiredBuckets)); reflexivity.
Qed.

Lemma Open_creates_required_buckets_witness :
  db (Open (db exampleRepo)) !! "user"
    = Some {| entries := [(u64tob 1, u64tob 1 ++ list_byte_of_string "alice")];
              sequence := 1 |}
  /\ db (Open ∅) !! "group.byname" = Some emptyBucket
  /\ db (Open ∅) !! "blob.byname" = None.
Proof.
  split; [|split].
  - apply (proj1 (Open_creates_required_buckets (db exampleRepo))).
    reflexivity.
  - apply (proj1 (proj2 (Open_creates_required_buckets ∅)));
      [cbn; tauto | reflexivity].
  - rewrite (proj1 (proj2 (proj2 (Open_creates_required_buckets ∅))));
      [reflexivity|].
    cbn. intros H. repeat destruct H as [H|H]; try discriminate H. exact H.
Defined.

Section BlobType.
Context {GoStrings : Strings}.

(** Blobs have no name index: on a store opened from a file without a
    bucket "blob.byname" (such as a new file), [Lookup], [Associate] and
    [Unassociate] in a blob transaction panic on the nil bucket. *)
Theorem blob_has_no_name_index (file : gmap string Bucket) (w : bool)
  (id : N) (name : string) :
  file !! byname BLOB = None ->
  fst (Lookup name (tx_of w (Open file) BLOB)) = Panic
  /\ fst (Associate id name (tx_of w (Open file) BLOB)) = Panic
  /\ fst (Unassociate name (tx_of w (Open file) BLOB)) = Panic.
Proof.
  intros Hf.
  assert (Hb : Tx_Bucket (tx_of w (Open file) BLOB) (byname BLOB) = None).
  { unfold Tx_Bucket. cbn [tx_of bolttx buckets].
    rewrite Open_lookup, Hf. reflexivity. }
  unfold Lookup, Associate, Unassociate. cbn zeta.
  cbn [ot tx_of] in *. rewrite Hb. auto.
Qed.

End BlobType.

Lemma blob_has_no_name_index_witness :
  fst (Lookup (GoStrings := asciiStrings) "x" (tx_of true (Open ∅) BLOB)) = Panic
  /\ fst (Associate (GoStrings := asciiStrings) 1 "x" (tx_of true (Open ∅) BLOB))
     = Panic
  /\ fst (Unassociate (GoStrings := asciiStrings) "x" (tx_of true (Open ∅) BLOB))
     = Panic.
Proof.
  apply (blob_has_no_name_index (GoStrings := asciiStrings) ∅ true 1 "x").
  reflexivity.
Defined.

(** ** Ids without gaps *)

Lemma sorted_dense (l : list N) : forall s,
  StronglySorted N.lt l ->
  Forall (fun i => s < i <= s + N.of_nat (length l)) l ->
  l = map (fun i => s + 1 + N.of_nat i) (seq 0 (length l)).
Proof.
  induction l as [|x t IH]; intros s Hs Hb; [reflexivity|].
  inversion Hs as [|? ? Hst Hall]; subst.
  inversion Hb as [|? ? Hx Ht]; subst.
  cbn [length] in *. rewrite Nat2N.inj_succ in *.
  assert (Ht' : Forall (fun i => x < i <= x + N.of_nat (length t)) t).
  { rewrite List.Forall_forall in *. intros i Hi.
    specialize (Hall _ Hi). specialize (Ht _ Hi). cbn in Ht. lia. }
  pose proof (IH x Hst Ht') as Et.
  assert (Ex : x = s + 1).
  { remember (length t) as n eqn:En. destruct n as [|k]; [cbn in Hx; lia|].
    assert (Hin : In (x + 1 + N.of_nat k) t).
    { rewrite Et. apply (in_map (fun i => x + 1 + N.of_nat i)).
      apply in_seq. lia. }
    rewrite List.Forall_forall in Ht. specialize (Ht _ Hin). cbn beta in Ht.
    lia. }
  subst x. cbn [seq map]. f_equal; [cbn; lia|].
  rewrite <- seq_shift, List.map_map. rewrite Et at 1.
  apply map_ext. intros i. lia.
Qed.

Section Consecutive.
Context {GoStrings : Strings}.

Lemma run_history_bounds T h : forall r ids r',
  run_history T h r = (ids, r') ->
  sequence_of (db r) T + N.of_nat (length ids) < 2 ^ 64 ->
  Forall (fun id => sequence_of (db r) T < id
                    <= sequence_of (db r) T + N.of_nat (length ids)) ids.
Proof.
  induction h as [|[o os|] h IH]; intros r ids r'; cbn [run_history].
  - intros H _. injection H as <- <-. constructor.
  - unfold Update.
    destruct (run_ops os _) as [[a| |] tx'] eqn:E; try (now apply IH).
    destruct (run_history T h _) as [rest r''] eqn:Eh.
    intros H. injection H as <- <-.
    apply run_ops_sequence in E as (_ & Hoth & Halloc).
    cbn [ot bolttx buckets] in *.
    destruct (String.eqb_spec o T) as [->|Hne].
    + rewrite length_app, Nat2N.inj_add. intros Hbound.
      destruct Halloc as (Hs & _ & Hall); [lia|].
      apply IH in Eh; cbn [db] in *; [|rewrite Hs; lia].
      rewrite Hs in Eh. apply Forall_app. split.
      * eapply List.Forall_impl; [|exact Hall]. cbn. intros; lia.
      * eapply List.Forall_impl; [|exact Eh]. cbn. intros; lia.
    + cbn [app]. intros Hbound.
      apply IH in Eh; cbn [db] in *; rewrite Hoth in * by congruence; auto.
  - intros H Hbound. apply IH in H; unfold Close in *;
      rewrite Open_sequence in *; auto.
Qed.

(** Over any history of [Update] transactions and restarts, the ids of a
    type returned in the transactions that commit are consecutive: they
    are the counter the history started from plus 1, plus 2, and so on
    without a gap, and none of them is 0, as long as the counter does not
    pass the largest [uint64]. *)
Theorem committed_ids_are_consecutive (T : ObjectType) (h : list event)
  (r r' : Repo) (ids : list N) :
  run_history T h r = (ids, r') ->
  sequence_of (db r) T + N.of_nat (length ids) < 2 ^ 64 ->
  ids = map (fun i => sequence_of (db r) T + 1 + N.of_nat i)
            (seq 0 (length ids))
  /\ Forall (fun id => id <> 0) ids.
Proof.
  intros H Hbound.
  pose proof (run_history_bounds T h r ids r' H Hbound) as Hb.
  destruct (run_history_sequence T h r ids r' H Hbound) as (Hs & _ & _).
  split; [now apply sorted_dense|].
  eapply List.Forall_impl; [|exact Hb]. cbn. intros; lia.
Qed.

End Consecutive.

Lemma committed_ids_are_consecutive_witness :
  [2; 3] = map (fun i => sequence_of (db exampleRepo) USER + 1 + N.of_nat i)
               (seq 0 (length [2; 3]))
  /\ Forall (fun id => id <> 0) [2; 3].
Proof.
  apply (committed_ids_are_consecutive (GoStrings := asciiStrings)
           USER exampleHistory exampleRepo
           (snd (run_history (GoStrings := asciiStrings) USER
                   exampleHistory exampleRepo))).
  - vm_compute. reflexivity.
  - vm_compute. reflexivity.
Defined.

(** * Properties of the request handling *)

(** ** Methods *)

Section Methods.
Context {X : Net}.

Lemma AllowMethods_loop_result m methods : forall a,
  fst (AllowMethods_loop m methods a)
  = bool_decide (m ∈ methods) || (str_eqb m HEAD && bool_decide (GET ∈ methods)).
Proof.
  induction methods as [|x l IH]; intros a; cbn [AllowMethods_loop].
  - rewrite !bool_decide_eq_false_2 by apply not_elem_of_nil.
    now rewrite andb_false_r.
  - unfold str_eqb at 1. destruct (String.eqb_spec x m) as [->|Hxm].
    + rewrite (bool_decide_eq_true_2 (m ∈ m :: l)) by (apply elem_of_cons; now left).
      reflexivity.
    + assert (Hm : bool_decide (m ∈ x :: l) = bool_decide (m ∈ l)).
      { apply bool_decide_ext. rewrite elem_of_cons. intuition congruence. }
      rewrite Hm. unfold str_eqb at 1.
      destruct (String.eqb_spec x GET) as [->|HxG].
      * rewrite (bool_decide_eq_true_2 (GET ∈ GET :: l))
          by (apply elem_of_cons; now left).
        rewrite andb_true_r.
        destruct (str_eqb m HEAD) eqn:EH.
        -- now rewrite orb_true_r.
        -- rewrite IH. now rewrite andb_false_l, !orb_false_r.
      * assert (HG : bool_decide (GET ∈ x :: l) = bool_decide (GET ∈ l)).
        { apply bool_decide_ext. rewrite elem_of_cons. intuition congruence. }
        rewrite HG. apply IH.
Qed.

Lemma AllowMethods_loop_addHead m methods : forall a,
  fst (AllowMethods_loop m methods a) = false ->
  snd (AllowMethods_loop m methods a) = a || bool_decide (GET ∈ methods).
Proof.
  induction methods as [|x l IH]; intros a; cbn [AllowMethods_loop].
  - rewrite bool_decide_eq_false_2 by apply not_elem_of_nil.
    now rewrite orb_false_r.
  - destruct (str_eqb x m); [discriminate|].
    destruct (str_eqb x GET) eqn:EG.
    + apply String.eqb_eq in EG. subst x.
      rewrite (bool_decide_eq_true_2 (GET ∈ GET :: l))
        by (apply elem_of_cons; now left).
      destruct (str_eqb m HEAD); [discriminate|].
      intros H. rewrite (IH _ H). now rewrite orb_true_r.
    + apply String.eqb_neq in EG.
      assert (HG : bool_decide (GET ∈ x :: l) = bool_decide (GET ∈ l)).
      { apply bool_decide_ext. rewrite elem_of_cons. intuition congruence. }
      rewrite HG. apply IH.
Qed.

Lemma Allow_of_error w allow msg code :
  Header (http_Error (Header_Set w Allow allow) msg code) !! Allow = Some allow.
Proof.
  unfold http_Error, Write, WriteHeader, Header_Set. cbn [Header].
  rewrite lookup_insert_ne by discriminate. apply lookup_insert_eq.
Qed.

(** [AllowMethods] compares the request's method in upper case. It
    returns true, leaving the response untouched, exactly when that method
    is one of the listed ones, or is HEAD while GET is listed. Otherwise
    it sets the [Allow] header to the listed methods joined by ", ",
    preceded by "HEAD, " when GET is among them, and replies 200 to
    OPTIONS and 405 to any other method. *)
Theorem AllowMethods_accepts_listed_methods (w : ResponseWriter)
  (r : Request.t) (methods : list string) :
  let m := ToUpper (Request.Method r) in
  let allow := ((if bool_decide (GET ∈ methods) then "HEAD, " else "")
                ++ Join methods ", ")%string in
  snd (AllowMethods w r methods) = setMethod r m
  /\ (fst (fst (AllowMethods w r methods)) = true
      <-> m ∈ methods \/ (m = HEAD /\ GET ∈ methods))
  /\ (fst (fst (AllowMethods w r methods)) = true ->
      snd (fst (AllowMethods w r methods)) = w)
  /\ (fst (fst (AllowMethods w r methods)) = false ->
      Header (snd (fst (AllowMethods w r methods))) !! Allow = Some allow
      /\ Status (snd (fst (AllowMethods w r methods)))
         = if str_eqb m OPTIONS then 200 else 405).
Proof.
  intros m allow. unfold AllowMethods. cbn zeta.
  change (Request.Method (setMethod r (ToUpper (Request.Method r)))) with m.
  pose proof (AllowMethods_loop_result m methods false) as Hres.
  pose proof (AllowMethods_loop_addHead m methods false) as Hadd.
  destruct (AllowMethods_loop m methods false) as [[|] addHead];
    cbn [fst snd] in *.
  - symmetry in Hres. repeat split; auto; try discriminate.
    intros _. apply orb_true_iff in Hres as [E|E].
    + left. now apply bool_decide_eq_true in E.
    + right. apply andb_true_iff in E as [E1 E2].
      apply String.eqb_eq in E1. now apply bool_decide_eq_true in E2.
  - symmetry in Hres. apply orb_false_iff in Hres as [E1 E2].
    apply bool_decide_eq_false in E1.
    assert (Hno : ~ (m ∈ methods \/ m = HEAD /\ GET ∈ methods)).
    { intros [H|[H1 H2]]; [contradiction|].
      apply andb_false_iff in E2 as [E2|E2].
      - unfold str_eqb in E2. apply String.eqb_neq in E2. contradiction.
      - apply bool_decide_eq_false in E2. contradiction. }
    rewrite (Hadd eq_refl). cbn [orb].
    assert (Hallow : (if bool_decide (GET ∈ methods)
                      then ("HEAD, " ++ Join methods ", ")%string
                      else Join methods ", ") = allow).
    { subst allow. now destruct (bool_decide (GET ∈ methods)). }
    rewrite Hallow.
    destruct (str_eqb m OPTIONS) eqn:EO; cbn [fst snd];
      (split; [reflexivity|]); (split; [split; [discriminate|tauto]|]);
      (split; [discriminate|]); intros _; split; try reflexivity.
    + unfold WriteHeader, Header_Set. cbn [Header]. apply lookup_insert_eq.
    + apply Allow_of_error.
Qed.

End Methods.

Lemma AllowMethods_accepts_listed_methods_witness :
  fst (fst (AllowMethods (X := exampleNet) newResponse
              (exampleRequest "head" "/user/alice") [GET; PUT; DELETE]))
    = true
  /\ Status (snd (fst (AllowMethods (X := exampleNet) newResponse
                         (exampleRequest "post" "/user/alice")
                         [GET; PUT; DELETE])))
     = 405.
Proof.
  destruct (AllowMethods_accepts_listed_methods (X := exampleNet) newResponse
              (exampleRequest "head" "/user/alice") [GET; PUT; DELETE])
    as (_ & Hacc & _).
  destruct (AllowMethods_accepts_listed_methods (X := exampleNet) newResponse
              (exampleRequest "post" "/user/alice") [GET; PUT; DELETE])
    as (_ & _ & _ & Hrej).
  split.
  - apply Hacc. right. split; [reflexivity|]. apply elem_of_cons. now left.
  - apply Hrej. reflexivity.
Defined.

(** ** Paths and numbers *)

Lemma digits_of_uint d : allChars isDigit (NilEmpty.string_of_uint d) = true.
Proof. induction d; cbn; auto. Qed.

Lemma parseDigits_pos d : forall p,
  parseDigits (NilEmpty.string_of_uint d) (Npos p)
  = Some (Npos (Pos.of_uint_acc d p)).
Proof.
  induction d; intros p; cbn [NilEmpty.string_of_uint parseDigits Pos.of_uint_acc];
    [reflexivity|..];
    match goal with
    | |- (if isDigit ?c then _ else _) = _ =>
        change (isDigit c) with true; cbn iota
    end;
    match goal with
    | |- parseDigits _ ?a = Some (Npos (Pos.of_uint_acc _ ?q)) =>
        replace a with (Npos q) by (cbn; lia)
    end; apply IHd.
Qed.

Lemma parseDigits_zero d :
  parseDigits (NilEmpty.string_of_uint d) 0 = Some (Pos.of_uint d).
Proof.
  induction d; cbn [NilEmpty.string_of_uint parseDigits Pos.of_uint];
    [reflexivity|..];
    match goal with
    | |- (if isDigit ?c then _ else _) = _ =>
        change (isDigit c) with true; cbn iota
    end; [exact IHd|..];
    match goal with
    | |- parseDigits _ ?a = Some (Npos (Pos.of_uint_acc _ ?q)) =>
        change a with (Npos q)
    end; apply parseDigits_pos.
Qed.

Lemma itoa_digits n :
  exists c rest, itoa n = String c rest
                 /\ isDigit c = true /\ allChars isDigit rest = true
                 /\ parseDigits (itoa n) 0 = Some n.
Proof.
  assert (Hne : N.to_uint n <> Decimal.Nil).
  { destruct n; [discriminate|]. apply DecimalPos.Unsigned.to_uint_nonnil. }
  assert (E : itoa n = NilEmpty.string_of_uint (N.to_uint n)).
  { unfold itoa, NilZero.string_of_uint. now destruct (N.to_uint n). }
  pose proof (digits_of_uint (N.to_uint n)) as Hd.
  pose proof (parseDigits_zero (N.to_uint n)) as Hp.
  change (Pos.of_uint (N.to_uint n)) with (N.of_uint (N.to_uint n)) in Hp.
  rewrite DecimalN.Unsigned.of_to in Hp. rewrite <- E in *.
  destruct (itoa n) as [|c rest] eqn:Ei.
  - destruct (N.to_uint n); try contradiction; discriminate.
  - cbn [allChars] in Hd. apply andb_true_iff in Hd as [H1 H2]. eauto 6.
Qed.

Lemma ParseUint_itoa n : n < 2 ^ 64 -> ParseUint (itoa n) = Some n.
Proof.
  intros Hn. destruct (itoa_digits n) as (c & rest & E & _ & _ & Hp).
  unfold ParseUint. rewrite E in *. rewrite Hp.
  apply N.ltb_lt in Hn. now rewrite Hn.
Qed.

Lemma ParseUint_bound s n : ParseUint s = Some n -> n < 2 ^ 64.
Proof.
  unfold ParseUint. destruct s; [discriminate|].
  destruct (parseDigits _ 0) as [v|]; [|discriminate].
  destruct (v <? 2 ^ 64) eqn:E; [|discriminate].
  intros H. injection H as <-. now apply N.ltb_lt.
Qed.

Lemma stripPrefix_app p s : stripPrefix p (p ++ s) = Some s.
Proof.
  induction p as [|a p IH]; [now destruct s|].
  change (stripPrefix (String a p) (String a (p ++ s)) = Some s).
  cbn [stripPrefix]. now rewrite Ascii.eqb_refl.
Qed.

Lemma digit_not_letter c : isDigit c = true -> isLetter c = false.
Proof.
  unfold isDigit, isLetter. cbn zeta. intros H.
  apply andb_true_iff in H as [H1 H2]. apply N.leb_le in H1, H2.
  apply orb_false_iff. split; apply andb_false_iff.
  - left. apply N.leb_gt. lia.
  - left. apply N.leb_gt. lia.
Qed.

Lemma matchIdPath_digits p c rest :
  isDigit c = true -> allChars isDigit rest = true ->
  matchIdPath p (p ++ String c rest) = Some (String c rest)
  /\ matchNamePath p (p ++ String c rest) = None.
Proof.
  intros Hc Hr. unfold matchIdPath, matchNamePath.
  rewrite stripPrefix_app, Hc, Hr, (digit_not_letter c Hc). auto.
Qed.

Lemma matchNamePath_name p c rest :
  isLetter c = true -> allChars (fun x => isDigit x || isLetter x) rest = true ->
  matchIdPath p (p ++ String c rest) = None
  /\ matchNamePath p (p ++ String c rest) = Some (String c rest).
Proof.
  intros Hc Hr. unfold matchIdPath, matchNamePath.
  rewrite stripPrefix_app, Hc, Hr.
  destruct (isDigit c) eqn:Hd; [|auto].
  apply digit_not_letter in Hd. congruence.
Qed.

Lemma item_path_not_collection p c rest :
  str_eqb (p ++ "/" ++ String c rest) p
  || str_eqb (p ++ "/" ++ String c rest) (p ++ "/") = false.
Proof.
  apply orb_false_iff. split; apply String.eqb_neq; intros E;
    apply (f_equal String.length) in E;
    rewrite !string_length_append in E; cbn in E; lia.
Qed.

Section Routing.
Context {GoStrings : Strings} {W : Wire} {X : Net}.

Lemma AllowMethods_true w r ms w' r' :
  AllowMethods w r ms = (true, w', r') ->
  w' = w /\ r' = setMethod r (ToUpper (Request.Method r))
  /\ (ToUpper (Request.Method r) ∈ ms
      \/ (ToUpper (Request.Method r) = HEAD /\ GET ∈ ms)).
Proof.
  unfold AllowMethods. cbn zeta.
  change (Request.Method (setMethod r (ToUpper (Request.Method r))))
    with (ToUpper (Request.Method r)).
  pose proof (AllowMethods_loop_result (ToUpper (Request.Method r)) ms false)
    as Hres.
  destruct (AllowMethods_loop _ ms false) as [[|] addHead]; cbn [fst] in Hres.
  - intros E. injection E as <- <-. repeat split.
    symmetry in Hres. apply orb_true_iff in Hres as [E|E].
    + left. now apply bool_decide_eq_true in E.
    + right. apply andb_true_iff in E as [E1 E2].
      apply String.eqb_eq in E1. now apply bool_decide_eq_true in E2.
  - destruct (str_eqb _ OPTIONS); discriminate.
Qed.

Lemma AllowMethods_accepts w r ms :
  ToUpper (Request.Method r) ∈ ms
  \/ (ToUpper (Request.Method r) = HEAD /\ GET ∈ ms) ->
  AllowMethods w r ms = (true, w, setMethod r (ToUpper (Request.Method r))).
Proof.
  intros H. unfold AllowMethods. cbn zeta.
  change (Request.Method (setMethod r (ToUpper (Request.Method r))))
    with (ToUpper (Request.Method r)).
  pose proof (AllowMethods_loop_result (ToUpper (Request.Method r)) ms false)
    as Hres.
  destruct (AllowMethods_loop _ ms false) as [[|] addHead]; cbn [fst] in Hres;
    [reflexivity|].
  symmetry in Hres. apply orb_false_iff in Hres as [E1 E2].
  apply bool_decide_eq_false in E1. destruct H as [H|[H1 H2]]; [contradiction|].
  apply andb_false_iff in E2 as [E2|E2].
  - unfold str_eqb in E2. apply String.eqb_neq in E2. contradiction.
  - apply bool_decide_eq_false in E2. contradiction.
Qed.

End Routing.

Section Dispatch.
Context {GoStrings : Strings} {W : Wire} {X : Net}.

Lemma AllowMethods_rejects w r ms :
  ~ (ToUpper (Request.Method r) ∈ ms
     \/ (ToUpper (Request.Method r) = HEAD /\ GET ∈ ms)) ->
  fst (fst (AllowMethods w r ms)) = false.
Proof.
  intros Hno. destruct (AllowMethods w r ms) as [[[|] w'] r'] eqn:E;
    [|reflexivity].
  apply AllowMethods_true in E as (_ & _ & H). contradiction.
Qed.

Lemma method_cases (m : string) :
  m = GET \/ m = HEAD \/ m = POST \/ m = PUT \/ m = DELETE
  \/ (m <> GET /\ m <> HEAD /\ m <> POST /\ m <> PUT /\ m <> DELETE).
Proof.
  destruct (String.eqb_spec m GET); [tauto|].
  destruct (String.eqb_spec m HEAD); [tauto|].
  destruct (String.eqb_spec m POST); [tauto|].
  destruct (String.eqb_spec m PUT); [tauto|].
  destruct (String.eqb_spec m DELETE); tauto.
Qed.

(** The dispatch on an item: what [ServeHTTP] does after the path has
    given an id or a name. *)
Lemma dispatch_item h r (fG fP fD : Request.t -> outcome ResponseWriter * Repo) :
  match AllowMethods newResponse r [GET; PUT; DELETE] with
  | (false, w, _) => (Ok w, h)
  | (true, w, r) =>
      let method := ToUpper (Request.Method r) in
      if str_eqb method GET || str_eqb method HEAD then fG r
      else if str_eqb method PUT then fP r
      else if str_eqb method DELETE then fD r
      else (Ok (http_Error w "Internal Server Error" 500), h)
  end
  = let m := ToUpper (Request.Method r) in
    let r' := setMethod r m in
    if str_eqb m GET || str_eqb m HEAD then fG r'
    else if str_eqb m PUT then fP r'
    else if str_eqb m DELETE then fD r'
    else (Ok (snd (fst (AllowMethods newResponse r [GET; PUT; DELETE]))), h).
Proof.
  cbn zeta.
  destruct (method_cases (ToUpper (Request.Method r)))
    as [Hm|[Hm|[Hm|[Hm|[Hm|(H1 & H2 & H3 & H4 & H5)]]]]].
  1,2,4,5:
    rewrite (AllowMethods_accepts newResponse r [GET; PUT; DELETE])
      by (rewrite Hm; first [ solve [left; repeat constructor]
                            | solve [right; split; [reflexivity|repeat constructor]] ]);
    cbn [Request.Method setMethod]; rewrite Hm; reflexivity.
  - pose proof (AllowMethods_rejects newResponse r [GET; PUT; DELETE]) as Hrej.
    destruct (AllowMethods newResponse r [GET; PUT; DELETE]) as [[b w'] r'].
    cbn [fst snd] in *. rewrite Hrej; [now rewrite Hm|].
    rewrite Hm. intros [Hin|[Hh _]]; [|discriminate].
    repeat (apply elem_of_cons in Hin as [Hin|Hin]; [discriminate|]).
    now apply not_elem_of_nil in Hin.
  - pose proof (AllowMethods_rejects newResponse r [GET; PUT; DELETE]) as Hrej.
    destruct (AllowMethods newResponse r [GET; PUT; DELETE]) as [[b w'] r'].
    cbn [fst snd] in *. rewrite Hrej.
    + unfold str_eqb.
      apply String.eqb_neq in H1, H2, H4, H5. now rewrite H1, H2, H4, H5.
    + intros [Hin|[Hh _]]; [|congruence].
      repeat (apply elem_of_cons in Hin as [Hin|Hin]; [congruence|]).
      now apply not_elem_of_nil in Hin.
Qed.

(** The dispatch on a collection. *)
Lemma dispatch_collection h r (fG fP : Request.t -> outcome ResponseWriter * Repo) :
  match AllowMethods newResponse r [GET; POST] with
  | (false, w, _) => (Ok w, h)
  | (true, w, r) =>
      let method := ToUpper (Request.Method r) in
      if str_eqb method GET || str_eqb method HEAD then fG r
      else if str_eqb method POST then fP r
      else (Ok (http_Error w "Internal Server Error" 500), h)
  end
  = let m := ToUpper (Request.Method r) in
    let r' := setMethod r m in
    if str_eqb m GET || str_eqb m HEAD then fG r'
    else if str_eqb m POST then fP r'
    else (Ok (snd (fst (AllowMethods newResponse r [GET; POST]))), h).
Proof.
  cbn zeta.
  destruct (method_cases (ToUpper (Request.Method r)))
    as [Hm|[Hm|[Hm|[Hm|[Hm|(H1 & H2 & H3 & H4 & H5)]]]]].
  1,2,3:
    rewrite (AllowMethods_accepts newResponse r [GET; POST])
      by (rewrite Hm; first [ solve [left; repeat constructor]
                            | solve [right; split; [reflexivity|repeat constructor]] ]);
    cbn [Request.Method setMethod]; rewrite Hm; reflexivity.
  1,2:
    pose proof (AllowMethods_rejects newResponse r [GET; POST]) as Hrej;
    destruct (AllowMethods newResponse r [GET; POST]) as [[b w'] r'];
    cbn [fst snd] in *; (rewrite Hrej; [now rewrite Hm|]);
    rewrite Hm; intros [Hin|[Hh _]]; [|discriminate];
    repeat (apply elem_of_cons in Hin as [Hin|Hin]; [discriminate|]);
    now apply not_elem_of_nil in Hin.
  pose proof (AllowMethods_rejects newResponse r [GET; POST]) as Hrej.
  destruct (AllowMethods newResponse r [GET; POST]) as [[b w'] r'].
  cbn [fst snd] in *. rewrite Hrej.
  - unfold str_eqb.
    apply String.eqb_neq in H1, H2, H3. now rewrite H1, H2, H3.
  - intros [Hin|[Hh _]]; [|congruence].
    repeat (apply elem_of_cons in Hin as [Hin|Hin]; [congruence|]).
    now apply not_elem_of_nil in Hin.
Qed.

End Dispatch.

(** ** Routing *)

Section RoutingTheorems.
Context {GoStrings : Strings} {W : Wire} {X : Net}.

(** How [UserHandler.ServeHTTP] routes. On "/user" and "/user/" it lists
    for GET and HEAD and creates for POST. On "/user/<digits>" it replies
    404 when the digits do not fit 64 bits or denote 0, and otherwise
    serves the user of that id; on "/user/<name>" it serves the user of
    that name. The method is compared in upper case; a method that is not
    allowed gets the reply of [AllowMethods] and leaves the store alone,
    and the "not implemented" reply is never produced. *)
Theorem UserHandler_routes (h : Repo) (r : Request.t) :
  let m := ToUpper (Request.Method r) in
  let r' := setMethod r m in
  let item (userId : N) (userName : string) :=
    if str_eqb m GET || str_eqb m HEAD then UserHandler_GetUser h r' userId userName
    else if str_eqb m PUT then UserHandler_PutUser h r' userId userName
    else if str_eqb m DELETE then UserHandler_DeleteUser h r' userId userName
    else (Ok (snd (fst (AllowMethods newResponse r [GET; PUT; DELETE]))), h) in
  (Request.Path r = "/user"%string \/ Request.Path r = "/user/"%string ->
   UserHandler_ServeHTTP h r
   = if str_eqb m GET || str_eqb m HEAD then UserHandler_ListUsers h r'
     else if str_eqb m POST then UserHandler_CreateUser h r'
     else (Ok (snd (fst (AllowMethods newResponse r [GET; POST]))), h))
  /\ (forall c rest,
        Request.Path r = ("/user/" ++ String c rest)%string ->
        isDigit c = true -> allChars isDigit rest = true ->
        UserHandler_ServeHTTP h r
        = match ParseUint (String c rest) with
          | None => (Ok (http_NotFound newResponse), h)
          | Some userId =>
              if userId =? 0 then (Ok (http_NotFound newResponse), h)
              else item userId ""%string
          end)
  /\ (forall c rest,
        Request.Path r = ("/user/" ++ String c rest)%string ->
        isLetter c = true ->
        allChars (fun x => isDigit x || isLetter x) rest = true ->
        UserHandler_ServeHTTP h r = item 0 (String c rest)).
Proof.
  intros m r' item. split; [|split].
  - intros Hp. unfold UserHandler_ServeHTTP. cbn zeta.
    replace (str_eqb (Request.Path r) "/user" || str_eqb (Request.Path r) "/user/")
      with true by (destruct Hp as [-> | ->]; reflexivity).
    cbn iota.
    exact (dispatch_collection h r (UserHandler_ListUsers h)
             (UserHandler_CreateUser h)).
  - intros c rest Hp Hc Hr. unfold UserHandler_ServeHTTP. cbn zeta.
    rewrite Hp.
    change (str_eqb ("/user/" ++ String c rest) "/user"
            || str_eqb ("/user/" ++ String c rest) "/user/")
      with (str_eqb ("/user" ++ "/" ++ String c rest) "/user"
            || str_eqb ("/user" ++ "/" ++ String c rest) ("/user" ++ "/")).
    rewrite item_path_not_collection. cbn iota.
    unfold reUserIdPath, reUserNamePath.
    destruct (matchIdPath_digits "/user/" c rest Hc Hr) as [-> ->].
    destruct (ParseUint (String c rest)) as [userId|]; [|reflexivity].
    change (str_eqb "" "") with true. rewrite andb_true_r.
    destruct (userId =? 0); [reflexivity|].
    exact (dispatch_item h r (fun r0 => UserHandler_GetUser h r0 userId "")
             (fun r0 => UserHandler_PutUser h r0 userId "")
             (fun r0 => UserHandler_DeleteUser h r0 userId "")).
  - intros c rest Hp Hc Hr. unfold UserHandler_ServeHTTP. cbn zeta.
    rewrite Hp.
    change (str_eqb ("/user/" ++ String c rest) "/user"
            || str_eqb ("/user/" ++ String c rest) "/user/")
      with (str_eqb ("/user" ++ "/" ++ String c rest) "/user"
            || str_eqb ("/user" ++ "/" ++ String c rest) ("/user" ++ "/")).
    rewrite item_path_not_collection. cbn iota.
    unfold reUserIdPath, reUserNamePath.
    destruct (matchNamePath_name "/user/" c rest Hc Hr) as [-> ->].
    change (0 =? 0) with true.
    change (str_eqb (String c rest) "") with false.
    cbn [andb].
    exact (dispatch_item h r (fun r0 => UserHandler_GetUser h r0 0 (String c rest))
             (fun r0 => UserHandler_PutUser h r0 0 (String c rest))
             (fun r0 => UserHandler_DeleteUser h r0 0 (String c rest))).
Qed.

(** [GroupHandler.ServeHTTP] routes in the same way. *)
Theorem GroupHandler_routes (h : Repo) (r : Request.t) :
  let m := ToUpper (Request.Method r) in
  let r' := setMethod r m in
  let item (groupId : N) (groupName : string) :=
    if str_eqb m GET || str_eqb m HEAD
    then GroupHandler_GetGroup h r' groupId groupName
    else if str_eqb m PUT then GroupHandler_PutGroup h r' groupId groupName
    else if str_eqb m DELETE then GroupHandler_DeleteGroup h r' groupId groupName
    else (Ok (snd (fst (AllowMethods newResponse r [GET; PUT; DELETE]))), h) in
  (Request.Path r = "/group"%string \/ Request.Path r = "/group/"%string ->
   GroupHandler_ServeHTTP h r
   = if str_eqb m GET || str_eqb m HEAD then GroupHandler_ListGroups h r'
     else if str_eqb m POST then GroupHandler_CreateGroup h r'
     else (Ok (snd (fst (AllowMethods newResponse r [GET; POST]))), h))
  /\ (forall c rest,
        Request.Path r = ("/group/" ++ String c rest)%string ->
        isDigit c = true -> allChars isDigit rest = true ->
        GroupHandler_ServeHTTP h r
        = match ParseUint (String c rest) with
          | None => (Ok (http_NotFound newResponse), h)
          | Some groupId =>
              if groupId =? 0 then (Ok (http_NotFound newResponse), h)
              else item groupId ""%string
          end)
  /\ (forall c rest,
        Request.Path r = ("/group/" ++ String c rest)%string ->
        isLetter c = true ->
        allChars (fun x => isDigit x || isLetter x) rest = true ->
        GroupHandler_ServeHTTP h r = item 0 (String c rest)).
Proof.
  intros m r' item. split; [|split].
  - intros Hp. unfold GroupHandler_ServeHTTP. cbn zeta.
    replace (str_eqb (Request.Path r) "/group" || str_eqb (Request.Path r) "/group/")
      with true by (destruct Hp as [-> | ->]; reflexivity).
    cbn iota.
    exact (dispatch_collection h r (GroupHandler_ListGroups h)
             (GroupHandler_CreateGroup h)).
  - intros c rest Hp Hc Hr. unfold GroupHandler_ServeHTTP. cbn zeta.
    rewrite Hp.
    change (str_eqb ("/group/" ++ String c rest) "/group"
            || str_eqb ("/group/" ++ String c rest) "/group/")
      with (str_eqb ("/group" ++ "/" ++ String c rest) "/group"
            || str_eqb ("/group" ++ "/" ++ String c rest) ("/group" ++ "/")).
    rewrite item_path_not_collection. cbn iota.
    unfold reGroupIdPath, reGroupNamePath.
    destruct (matchIdPath_digits "/group/" c rest Hc Hr) as [-> ->].
    destruct (ParseUint (String c rest)) as [groupId|]; [|reflexivity].
    change (str_eqb "" "") with true. rewrite andb_true_r.
    destruct (groupId =? 0); [reflexivity|].
    exact (dispatch_item h r (fun r0 => GroupHandler_GetGroup h r0 groupId "")
             (fun r0 => GroupHandler_PutGroup h r0 groupId "")
             (fun r0 => GroupHandler_DeleteGroup h r0 groupId "")).
  - intros c rest Hp Hc Hr. unfold GroupHandler_ServeHTTP. cbn zeta.
    rewrite Hp.
    change (str_eqb ("/group/" ++ String c rest) "/group"
            || str_eqb ("/group/" ++ String c rest) "/group/")
      with (str_eqb ("/group" ++ "/" ++ String c rest) "/group"
            || str_eqb ("/group" ++ "/" ++ String c rest) ("/group" ++ "/")).
    rewrite item_path_not_collection. cbn iota.
    unfold reGroupIdPath, reGroupNamePath.
    destruct (matchNamePath_name "/group/" c rest Hc Hr) as [-> ->].
    change (0 =? 0) with true.
    change (str_eqb (String c rest) "") with false.
    cbn [andb].
    exact (dispatch_item h r (fun r0 => GroupHandler_GetGroup h r0 0 (String c rest))
             (fun r0 => GroupHandler_PutGroup h r0 0 (String c rest))
             (fun r0 => GroupHandler_DeleteGroup h r0 0 (String c rest))).
Qed.

End RoutingTheorems.

Section BlobRouting.
Context {GoStrings : Strings} {W : Wire} {X : Net}.

Lemma dispatch_get h r (f : Request.t -> outcome ResponseWriter * Repo) :
  match AllowMethods newResponse r [GET] with
  | (false, w, _) => (Ok w, h)
  | (true, _, r) => f r
  end
  = let m := ToUpper (Request.Method r) in
    if str_eqb m GET || str_eqb m HEAD then f (setMethod r m)
    else (Ok (snd (fst (AllowMethods newResponse r [GET]))), h).
Proof.
  cbn zeta.
  destruct (str_eqb (ToUpper (Request.Method r)) GET
            || str_eqb (ToUpper (Request.Method r)) HEAD) eqn:E.
  - rewrite (AllowMethods_accepts newResponse r [GET]); [reflexivity|].
    apply orb_true_iff in E as [E|E]; apply String.eqb_eq in E.
    + left. rewrite E. repeat constructor.
    + right. split; [exact E | repeat constructor].
  - pose proof (AllowMethods_rejects newResponse r [GET]) as Hrej.
    destruct (AllowMethods newResponse r [GET]) as [[b w'] r'].
    cbn [fst snd] in *. rewrite Hrej; [reflexivity|].
    apply orb_false_iff in E as [E1 E2]. apply String.eqb_neq in E1, E2.
    intros [Hin|[Hh _]]; [|contradiction].
    apply elem_of_cons in Hin as [Hin|Hin]; [contradiction|].
    now apply not_elem_of_nil in Hin.
Qed.

(** How [BlobHandler.ServeHTTP] routes. On "/blob" and "/blob/" it lists
    for GET and HEAD and creates for POST; on "/blob/<digits>" it replies
    404 when the digits do not fit 64 bits and otherwise, for GET and
    HEAD, serves the blob of that id, 0 included. The path
    "/blob/<id in decimal>", which [CreateBlob] returns as [Location],
    leads back to the blob of that id. *)
Theorem BlobHandler_routes (h : Repo) (r : Request.t) :
  let m := ToUpper (Request.Method r) in
  let r' := setMethod r m in
  let item (blobId : N) :=
    if str_eqb m GET || str_eqb m HEAD then BlobHandler_GetBlob h r' blobId
    else (Ok (snd (fst (AllowMethods newResponse r [GET]))), h) in
  (Request.Path r = "/blob"%string \/ Request.Path r = "/blob/"%string ->
   BlobHandler_ServeHTTP h r
   = if str_eqb m GET || str_eqb m HEAD then BlobHandler_ListBlobs h r'
     else if str_eqb m POST then BlobHandler_CreateBlob h r'
     else (Ok (snd (fst (AllowMethods newResponse r [GET; POST]))), h))
  /\ (forall c rest,
        Request.Path r = ("/blob/" ++ String c rest)%string ->
        isDigit c = true -> allChars isDigit rest = true ->
        BlobHandler_ServeHTTP h r
        = match ParseUint (String c rest) with
          | None => (Ok (http_NotFound newResponse), h)
          | Some blobId => item blobId
          end)
  /\ (forall id,
        id < 2 ^ 64 ->
        Request.Path r = ("/blob/" ++ itoa id)%string ->
        BlobHandler_ServeHTTP h r = item id).
Proof.
  intros m r' item.
  assert (Hdigits : forall c rest,
             Request.Path r = ("/blob/" ++ String c rest)%string ->
             isDigit c = true -> allChars isDigit rest = true ->
             BlobHandler_ServeHTTP h r
             = match ParseUint (String c rest) with
               | None => (Ok (http_NotFound newResponse), h)
               | Some blobId => item blobId
               end).
  { intros c rest Hp Hc Hr. unfold BlobHandler_ServeHTTP. cbn zeta.
    rewrite Hp.
    change (str_eqb ("/blob/" ++ String c rest) "/blob"
            || str_eqb ("/blob/" ++ String c rest) "/blob/")
      with (str_eqb ("/blob" ++ "/" ++ String c rest) "/blob"
            || str_eqb ("/blob" ++ "/" ++ String c rest) ("/blob" ++ "/")).
    rewrite item_path_not_collection. cbn iota.
    unfold reBlobIdPath.
    destruct (matchIdPath_digits "/blob/" c rest Hc Hr) as [-> _].
    destruct (ParseUint (String c rest)) as [blobId|]; [|reflexivity].
    exact (dispatch_get h r (fun r0 => BlobHandler_GetBlob h r0 blobId)). }
  split; [|split].
  - intros Hp. unfold BlobHandler_ServeHTTP. cbn zeta.
    replace (str_eqb (Request.Path r) "/blob" || str_eqb (Request.Path r) "/blob/")
      with true by (destruct Hp as [-> | ->]; reflexivity).
    cbn iota.
    exact (dispatch_collection h r (BlobHandler_ListBlobs h)
             (BlobHandler_CreateBlob h)).
  - exact Hdigits.
  - intros id Hid Hp.
    destruct (itoa_digits id) as (c & rest & E & Hc & Hr & _).
    rewrite E in Hp. rewrite (Hdigits c rest Hp Hc Hr).
    now rewrite <- E, ParseUint_itoa.
Qed.

Lemma ListUsers_store h r : snd (UserHandler_ListUsers h r) = h.
Proof.
  unfold UserHandler_ListUsers. now destruct (View h USER ListUsers_tx).
Qed.

Lemma GetUser_store h r id name : snd (UserHandler_GetUser h r id name) = h.
Proof.
  unfold UserHandler_GetUser.
  destruct (View h USER _) as [u|e|]; try reflexivity. now destruct e.
Qed.

Lemma ListGroups_store h r : snd (GroupHandler_ListGroups h r) = h.
Proof.
  unfold GroupHandler_ListGroups. now destruct (View h GROUP ListGroups_tx).
Qed.

Lemma GetGroup_store h r id name : snd (GroupHandler_GetGroup h r id name) = h.
Proof.
  unfold GroupHandler_GetGroup.
  destruct (View h GROUP _) as [u|e|]; try reflexivity. now destruct e.
Qed.

Lemma ListBlobs_store h r : snd (BlobHandler_ListBlobs h r) = h.
Proof.
  unfold BlobHandler_ListBlobs. now destruct (View h BLOB ListBlobs_tx).
Qed.

Lemma GetBlob_store h r id : snd (BlobHandler_GetBlob h r id) = h.
Proof.
  unfold BlobHandler_GetBlob.
  destruct (View h BLOB _) as [u|e|]; try reflexivity. now destruct e.
Qed.

(** A request whose method, in upper case, is not POST, PUT or DELETE
    never changes the store, whatever its path, headers and body: this
    holds for the user, the group and the blob handler (for which only
    POST writes). *)
Theorem only_writing_methods_change_the_store (h : Repo) (r : Request.t) :
  let m := ToUpper (Request.Method r) in
  (m <> POST -> m <> PUT -> m <> DELETE ->
   snd (UserHandler_ServeHTTP h r) = h /\ snd (GroupHandler_ServeHTTP h r) = h)
  /\ (m <> POST -> snd (BlobHandler_ServeHTTP h r) = h).
Proof.
  intros m. split.
  - intros H1 H2 H3.
    assert (E1 : str_eqb m POST = false) by now apply String.eqb_neq.
    assert (E2 : str_eqb m PUT = false) by now apply String.eqb_neq.
    assert (E3 : str_eqb m DELETE = false) by now apply String.eqb_neq.
    split.
    + unfold UserHandler_ServeHTTP. cbn zeta.
      destruct (str_eqb (Request.Path r) "/user" || _).
      * rewrite (dispatch_collection h r (UserHandler_ListUsers h)
                   (UserHandler_CreateUser h)). cbn zeta. fold m. rewrite E1.
        destruct (str_eqb m GET || str_eqb m HEAD);
          [apply ListUsers_store | reflexivity].
      * destruct (match reUserIdPath (Request.Path r) with
                  | Some m1 => ParseUint m1 | None => Some 0 end) as [userId|];
          [|reflexivity].
        destruct (_ && _); [reflexivity|].
        rewrite (dispatch_item h r (fun r0 => UserHandler_GetUser h r0 userId _)
                   (fun r0 => UserHandler_PutUser h r0 userId _)
                   (fun r0 => UserHandler_DeleteUser h r0 userId _)).
        cbn zeta. fold m. rewrite E2, E3.
        destruct (str_eqb m GET || str_eqb m HEAD);
          [apply GetUser_store | reflexivity].
    + unfold GroupHandler_ServeHTTP. cbn zeta.
      destruct (str_eqb (Request.Path r) "/group" || _).
      * rewrite (dispatch_collection h r (GroupHandler_ListGroups h)
                   (GroupHandler_CreateGroup h)). cbn zeta. fold m. rewrite E1.
        destruct (str_eqb m GET || str_eqb m HEAD);
          [apply ListGroups_store | reflexivity].
      * destruct (match reGroupIdPath (Request.Path r) with
                  | Some m1 => ParseUint m1 | None => Some 0 end) as [groupId|];
          [|reflexivity].
        destruct (_ && _); [reflexivity|].
        rewrite (dispatch_item h r (fun r0 => GroupHandler_GetGroup h r0 groupId _)
                   (fun r0 => GroupHandler_PutGroup h r0 groupId _)
                   (fun r0 => GroupHandler_DeleteGroup h r0 groupId _)).
        cbn zeta. fold m. rewrite E2, E3.
        destruct (str_eqb m GET || str_eqb m HEAD);
          [apply GetGroup_store | reflexivity].
  - intros H1.
    assert (E1 : str_eqb m POST = false) by now apply String.eqb_neq.
    unfold BlobHandler_ServeHTTP. cbn zeta.
    destruct (str_eqb (Request.Path r) "/blob" || _).
    + rewrite (dispatch_collection h r (BlobHandler_ListBlobs h)
                 (BlobHandler_CreateBlob h)). cbn zeta. fold m. rewrite E1.
      destruct (str_eqb m GET || str_eqb m HEAD);
        [apply ListBlobs_store | reflexivity].
    + destruct (reBlobIdPath (Request.Path r)) as [m1|]; [|reflexivity].
      destruct (ParseUint m1) as [blobId|]; [|reflexivity].
      rewrite (dispatch_get h r (fun r0 => BlobHandler_GetBlob h r0 blobId)).
      cbn zeta. fold m.
      destruct (str_eqb m GET || str_eqb m HEAD);
        [apply GetBlob_store | reflexivity].
Qed.

End BlobRouting.

Lemma UserHandler_routes_witness :
  UserHandler_ServeHTTP (GoStrings := asciiStrings) (W := exampleWire)
    (X := exampleNet) exampleRepo (exampleRequest "delete" "/user/0")
  = (Ok (http_NotFound newResponse), exampleRepo).
Proof.
  pose proof (proj1 (proj2 (UserHandler_routes (GoStrings := asciiStrings)
                              (W := exampleWire) (X := exampleNet) exampleRepo
                              (exampleRequest "delete" "/user/0")))) as H.
  specialize (H "0"%char ""%string eq_refl eq_refl eq_refl). exact H.
Defined.

Lemma GroupHandler_routes_witness :
  GroupHandler_ServeHTTP (GoStrings := asciiStrings) (W := exampleWire)
    (X := exampleNet) exampleRepo
    (exampleRequest "GET" "/group/99999999999999999999")
  = (Ok (http_NotFound newResponse), exampleRepo).
Proof.
  pose proof (proj1 (proj2 (GroupHandler_routes (GoStrings := asciiStrings)
                              (W := exampleWire) (X := exampleNet) exampleRepo
                              (exampleRequest "GET" "/group/99999999999999999999"))))
    as H.
  specialize (H "9"%char "9999999999999999999"%string eq_refl eq_refl eq_refl).
  exact H.
Defined.

Lemma BlobHandler_routes_witness :
  BlobHandler_ServeHTTP (W := exampleWire)
    (X := exampleNet) exampleRepo (exampleRequest "get" "/blob/42")
  = BlobHandler_GetBlob (W := exampleWire)
      (X := exampleNet) exampleRepo (exampleRequest "GET" "/blob/42") 42.
Proof.
  pose proof (proj2 (proj2 (BlobHandler_routes 
                              (W := exampleWire) (X := exampleNet) exampleRepo
                              (exampleRequest "get" "/blob/42")))) as H.
  specialize (H 42 eq_refl eq_refl). exact H.
Defined.

Lemma only_writing_methods_change_the_store_witness :
  snd (UserHandler_ServeHTTP (GoStrings := asciiStrings) (W := exampleWire)
         (X := exampleNet) exampleRepo (exampleRequest "patch" "/user/alice"))
  = exampleRepo.
Proof.
  apply (proj1 (only_writing_methods_change_the_store
                  (GoStrings := asciiStrings) (W := exampleWire)
                  (X := exampleNet) exampleRepo
                  (exampleRequest "patch" "/user/alice")));
    discriminate.
Defined.

(** ** The life of a user *)

Lemma AllocateId_succeeds tx b :
  Tx_Bucket tx (ot tx) = Some b ->
  writable (bolttx tx) = true ->
  AllocateId tx
  = (Ok ((sequence b + 1) mod 2 ^ 64),
     set_bucket tx (ot tx)
       {| entries := entries b; sequence := (sequence b + 1) mod 2 ^ 64 |}).
Proof.
  intros Hb Hw. unfold AllocateId. rewrite Hb.
  unfold Bucket_NextSequence. now rewrite Hw.
Qed.

Lemma Delete_succeeds tx b id v :
  Tx_Bucket tx (ot tx) = Some b ->
  Bucket_Get b (u64tob id) = Some v ->
  writable (bolttx tx) = true ->
  Delete id tx
  = (Ok tt, set_bucket tx (ot tx)
              {| entries := entries_delete (u64tob id) (entries b);
                 sequence := sequence b |}).
Proof.
  intros Hb Hg Hw. unfold Delete. rewrite Hb. cbn zeta. rewrite Hg.
  unfold Bucket_Delete. now rewrite Hw.
Qed.

Lemma insert_shadow (m : gmap string Bucket) (k k' : string) (b1 b2 b3 : Bucket) :
  k <> k' ->
  <[k := b3]> (<[k' := b2]> (<[k := b1]> m)) = <[k := b3]> (<[k' := b2]> m).
Proof.
  intros Hne. apply map_eq. intros i. rewrite !lookup_insert.
  destruct (decide (k = i)); [reflexivity|].
  destruct (decide (k' = i)); reflexivity.
Qed.

Section UserLife.
Context {GoStrings : Strings} {W : Wire} {X : Net}.

Lemma CreateUser_tx_commits h b bn (u0 : User.t) :
  db h !! USER = Some b ->
  db h !! byname USER = Some bn ->
  Bucket_Get bn (list_byte_of_string (ToLower (User.UserName u0))) = None ->
  ToLower (User.UserName u0) <> ""%string ->
  N.of_nat (String.length (ToLower (User.UserName u0))) <= MaxKeySize ->
  sequence b + 1 < 2 ^ 64 ->
  let id := sequence b + 1 in
  let u := User.mk id (User.UserName u0) (User.DisplayName u0)
                   (User.EMail u0) (User.URL u0) in
  N.of_nat (length (proto_Marshal_User u)) <= MaxValueSize ->
  Update h USER (CreateUser_tx u0)
  = (Ok u,
     {| db := <[USER := {| entries := entries_put (u64tob id)
                                        (proto_Marshal_User u) (entries b);
                           sequence := id |}]>
              (<[byname USER :=
                   {| entries := entries_put
                                   (list_byte_of_string (ToLower (User.UserName u0)))
                                   (u64tob id) (entries bn);
                      sequence := sequence bn |}]> (db h)) |}).
Proof.
  intros Hb Hbn Hfree Hne Hlen Hseq id u Hsize.
  unfold Update, CreateUser_tx.
  change {| bolttx := {| writable := true; buckets := db h |}; ot := USER |}
    with (tx_of true h USER).
  unfold bind at 1.
  rewrite (AllocateId_succeeds (tx_of true h USER) b Hb eq_refl).
  rewrite N.mod_small by assumption. fold id. cbn [User.Id User.UserName].
  set (tx1 := set_bucket (tx_of true h USER) (ot (tx_of true h USER))
                {| entries := entries b; sequence := id |}).
  unfold bind at 1.
  rewrite (Associate_succeeds tx1 bn id (User.UserName u0)); auto;
    [|subst tx1; cbn [ot tx_of set_bucket];
      rewrite Tx_Bucket_set_ne by apply byname_neq; exact Hbn].
  set (tx2 := set_bucket tx1 (byname (ot tx1)) _).
  unfold bind at 1.
  rewrite (Put_succeeds tx2 {| entries := entries b; sequence := id |} id
             (proto_Marshal_User u)); auto;
    [|subst tx2 tx1; cbn [ot tx_of set_bucket];
      rewrite Tx_Bucket_set_ne by (apply not_eq_sym, byname_neq);
      apply Tx_Bucket_set_eq].
  unfold ret. fold u. f_equal. f_equal.
  subst tx2 tx1. cbn [set_bucket bolttx buckets ot tx_of entries sequence].
  apply insert_shadow, byname_neq.
Qed.

(** A creation with a free name. For a delta that passes validation,
    on a store where the lowercased name has no entry, [CreateUser]
    replies 201 with [Location] "/user/<name>"; the user is stored under
    the id that follows the sequence counter, the name index maps the
    name to that id, and the counter has advanced to it. (The engine
    must accept the writes: the lowercased name is not empty and within
    the key limit, the record within the value limit, the counter below
    the largest [uint64].) *)
Theorem CreateUser_stores_and_indexes (h : Repo) (delta : UserDelta.t)
  (name : string) (b bn : Bucket) :
  UserDelta_Validate delta NewUser = None ->
  UserDelta.UserName delta = Some name ->
  db h !! USER = Some b ->
  db h !! byname USER = Some bn ->
  Bucket_Get bn (list_byte_of_string (ToLower name)) = None ->
  ToLower name <> ""%string ->
  N.of_nat (String.length (ToLower name)) <= MaxKeySize ->
  sequence b + 1 < 2 ^ 64 ->
  let id := sequence b + 1 in
  let u0 := UserDelta_Apply delta User.zero in
  let u := User.mk id name (User.DisplayName u0) (User.EMail u0) (User.URL u0) in
  N.of_nat (length (proto_Marshal_User u)) <= MaxValueSize ->
  exists w h',
    CreateUser h delta = (Ok w, h')
    /\ Status w = 201
    /\ Header w !! Location = Some ("/user/" ++ name)%string
    /\ Body w = MustMarshalJSON_User u
    /\ View h' USER (Get id) = Ok (proto_Marshal_User u)
    /\ View h' USER (Lookup name) = Ok id
    /\ sequence_of (db h') USER = id.
Proof.
  intros Hv Hn Hb Hbn Hfree Hne Hlen Hseq id u0 u Hsize.
  pose proof (UserDelta_Apply_UserName delta User.zero name Hn) as Hname.
  fold u0 in Hname.
  pose proof (CreateUser_tx_commits h b bn u0 Hb Hbn) as HU.
  rewrite Hname in HU. specialize (HU Hfree Hne Hlen Hseq). cbn zeta in HU.
  fold id in HU. fold u in HU. specialize (HU Hsize).
  unfold CreateUser. cbn zeta. rewrite Hv. fold u0. rewrite HU.
  eexists _, _. split; [reflexivity|].
  split; [reflexivity|]. split; [|split; [reflexivity|]].
  - cbn [Header Write WriteHeader Header_Set User.UserName u].
    apply lookup_insert_eq.
  - split; [|split].
    + unfold View, Get, Tx_Bucket. cbn [bolttx buckets ot db fst].
      rewrite lookup_insert_eq. cbn zeta. unfold Bucket_Get. cbn [entries].
      now rewrite entries_get_put_eq.
    + unfold View.
      erewrite Lookup_byname
        by (unfold Tx_Bucket; cbn [bolttx buckets ot db];
            rewrite lookup_insert_ne by apply byname_neq;
            apply lookup_insert_eq).
      cbn [fst entries]. rewrite entries_get_put_eq.
      apply btou64_u64tob. exact Hseq.
    + unfold sequence_of. cbn [db]. now rewrite lookup_insert_eq.
Qed.

End UserLife.

Section UserRemoval.
Context {GoStrings : Strings} {W : Wire} {X : Net}.

Lemma View_Get_inv h o b id value :
  db h !! o = Some b -> View h o (Get id) = Ok value ->
  Bucket_Get b (u64tob id) = Some value.
Proof.
  intros Hb. unfold View, Get, Tx_Bucket. cbn [bolttx buckets ot].
  rewrite Hb. cbn zeta. destruct (Bucket_Get b _); cbn [fst]; congruence.
Qed.

Lemma DeleteUser_tx_commits h userId userName id value u b bn :
  (if userId =? 0 then View h USER (Lookup userName) else Ok userId) = Ok id ->
  View h USER (Get id) = Ok value ->
  proto_Unmarshal_User value = Some u ->
  db h !! USER = Some b ->
  db h !! byname USER = Some bn ->
  Update h USER (DeleteUser_tx userId userName)
  = (Ok tt,
     {| db := <[byname USER :=
                  {| entries := entries_delete
                                  (list_byte_of_string (ToLower (User.UserName u)))
                                  (entries bn);
                     sequence := sequence bn |}]>
              (<[USER := {| entries := entries_delete (u64tob id) (entries b);
                            sequence := sequence b |}]> (db h)) |}).
Proof.
  intros Hid Hget Hu Hb Hbn.
  unfold Update, DeleteUser_tx.
  change {| bolttx := {| writable := true; buckets := db h |}; ot := USER |}
    with (tx_of true h USER).
  unfold bind at 1. rewrite (resolve_id _ _ _ _ _ Hid).
  unfold bind at 1. rewrite Get_tx_of, Hget.
  unfold bind at 1. unfold MustUnmarshalProto_User. rewrite Hu.
  unfold bind at 1.
  rewrite (Delete_succeeds (tx_of true h USER) b id value Hb
             (View_Get_inv h USER b id value Hb Hget) eq_refl).
  set (tx1 := set_bucket (tx_of true h USER) (ot (tx_of true h USER)) _).
  rewrite (Unassociate_succeeds tx1 bn (User.UserName u));
    [reflexivity | | reflexivity].
  subst tx1. cbn [ot tx_of set_bucket].
  rewrite Tx_Bucket_set_ne by apply byname_neq. exact Hbn.
Qed.

(** [DeleteUser] removes the record and its name together. For an
    existing user, addressed by id or by name, the reply is 204;
    afterwards [Get] of the id and [Lookup] of the stored name fail with
    [NotFound], while the sequence counter is as it was, so that the id
    is not handed out again. When there is no record at the id, the
    reply is 404 and the store is unchanged. *)
Theorem DeleteUser_removes_record_and_name (h : Repo) (r : Request.t)
  (userId : N) (userName : string) (id : N) (b bn : Bucket) :
  (if userId =? 0 then View h USER (Lookup userName) else Ok userId) = Ok id ->
  db h !! USER = Some b ->
  db h !! byname USER = Some bn ->
  (forall value u,
      View h USER (Get id) = Ok value ->
      proto_Unmarshal_User value = Some u ->
      exists w h',
        UserHandler_DeleteUser h r userId userName = (Ok w, h')
        /\ Status w = 204
        /\ View h' USER (Get id) = Err (NotFoundError USER id "")
        /\ (forall m, ToLower m = ToLower (User.UserName u) ->
              View h' USER (Lookup m) = Err (NotFoundError USER 0 m))
        /\ sequence_of (db h') USER = sequence_of (db h) USER)
  /\ (View h USER (Get id) = Err (NotFoundError USER id "") ->
      UserHandler_DeleteUser h r userId userName
      = (Ok (http_NotFound newResponse), h)).
Proof.
  intros Hid Hb Hbn. split.
  - intros value u Hget Hu.
    unfold UserHandler_DeleteUser.
    rewrite (DeleteUser_tx_commits h userId userName id value u b bn
               Hid Hget Hu Hb Hbn).
    eexists _, _. split; [reflexivity|]. split; [reflexivity|].
    split; [|split].
    + unfold View, Get, Tx_Bucket. cbn [bolttx buckets ot db].
      rewrite lookup_insert_ne by (apply not_eq_sym, byname_neq).
      rewrite lookup_insert_eq. cbn zeta. unfold Bucket_Get. cbn [entries].
      now rewrite entries_get_delete_eq.
    + intros m Hm. unfold View.
      erewrite Lookup_byname
        by (unfold Tx_Bucket; cbn [bolttx buckets ot db];
            apply lookup_insert_eq).
      cbn [fst entries ot]. now rewrite Hm, entries_get_delete_eq.
    + unfold sequence_of. cbn [db].
      rewrite lookup_insert_ne by (apply not_eq_sym, byname_neq).
      now rewrite lookup_insert_eq, Hb.
  - intros Hget. unfold UserHandler_DeleteUser, Update, DeleteUser_tx.
    change {| bolttx := {| writable := true; buckets := db h |}; ot := USER |}
      with (tx_of true h USER).
    unfold bind at 1. rewrite (resolve_id _ _ _ _ _ Hid).
    unfold bind at 1. now rewrite Get_tx_of, Hget.
Qed.

(** A deleted name can be created again, under a new id. After a
    creation, the deletion of the created user by name, and a second
    creation with the same delta, the name maps to the id after the first
    one, and the first id has no record: ids are not reused. *)
Theorem deleted_name_is_created_again_with_next_id (h : Repo) (r : Request.t)
  (delta : UserDelta.t) (name : string) (b bn : Bucket) (stored : User.t) :
  UserDelta_Validate delta NewUser = None ->
  UserDelta.UserName delta = Some name ->
  db h !! USER = Some b ->
  db h !! byname USER = Some bn ->
  Bucket_Get bn (list_byte_of_string (ToLower name)) = None ->
  ToLower name <> ""%string ->
  N.of_nat (String.length (ToLower name)) <= MaxKeySize ->
  sequence b + 2 < 2 ^ 64 ->
  let u0 := UserDelta_Apply delta User.zero in
  let user id :=
    User.mk id name (User.DisplayName u0) (User.EMail u0) (User.URL u0) in
  N.of_nat (length (proto_Marshal_User (user (sequence b + 1)))) <= MaxValueSize ->
  N.of_nat (length (proto_Marshal_User (user (sequence b + 2)))) <= MaxValueSize ->
  proto_Unmarshal_User (proto_Marshal_User (user (sequence b + 1))) = Some stored ->
  User.UserName stored = name ->
  exists w1 h1 w2 h2 w3 h3,
    CreateUser h delta = (Ok w1, h1) /\ Status w1 = 201
    /\ UserHandler_DeleteUser h1 r 0 name = (Ok w2, h2) /\ Status w2 = 204
    /\ CreateUser h2 delta = (Ok w3, h3) /\ Status w3 = 201
    /\ View h3 USER (Lookup name) = Ok (sequence b + 2)
    /\ View h3 USER (Get (sequence b + 1))
       = Err (NotFoundError USER (sequence b + 1) "").
Proof.
  intros Hv Hn Hb Hbn Hfree Hne Hlen Hseq u0 user Hs1 Hs2 Hrt Hstored.
  pose proof (UserDelta_Apply_UserName delta User.zero name Hn) as Hname.
  fold u0 in Hname.
  (* the first creation *)
  pose proof (CreateUser_tx_commits h b bn u0 Hb Hbn) as HU1.
  rewrite Hname in HU1. specialize (HU1 Hfree Hne Hlen). cbn zeta in HU1.
  specialize (HU1 ltac:(lia) Hs1).
  set (id1 := sequence b + 1) in *.
  set (h1 := {| db := <[USER := _]> (<[byname USER := _]> (db h)) |}) in HU1.
  assert (HC1 : exists w1, CreateUser h delta = (Ok w1, h1) /\ Status w1 = 201).
  { unfold CreateUser. cbn zeta. rewrite Hv. fold u0. rewrite HU1.
    eexists. split; reflexivity. }
  destruct HC1 as (w1 & HC1 & HS1).
  (* the deletion, by name *)
  assert (Hb1 : db h1 !! USER
                = Some {| entries := entries_put (u64tob id1)
                                       (proto_Marshal_User (user id1)) (entries b);
                          sequence := id1 |})
    by (subst h1; cbn [db]; apply lookup_insert_eq).
  assert (Hbn1 : db h1 !! byname USER
                 = Some {| entries := entries_put
                                        (list_byte_of_string (ToLower name))
                                        (u64tob id1) (entries bn);
                           sequence := sequence bn |}).
  { subst h1. cbn [db]. rewrite lookup_insert_ne by apply byname_neq.
    apply lookup_insert_eq. }
  assert (HL1 : View h1 USER (Lookup name) = Ok id1).
  { unfold View.
    erewrite Lookup_byname by (unfold Tx_Bucket; cbn [bolttx buckets ot]; exact Hbn1).
    cbn [fst entries]. rewrite entries_get_put_eq.
    apply btou64_u64tob. subst id1. lia. }
  assert (HG1 : View h1 USER (Get id1) = Ok (proto_Marshal_User (user id1))).
  { unfold View, Get, Tx_Bucket. cbn [bolttx buckets ot]. rewrite Hb1.
    cbn zeta. unfold Bucket_Get. cbn [entries]. now rewrite entries_get_put_eq. }
  pose proof (DeleteUser_tx_commits h1 0 name id1 _ stored _ _ HL1 HG1 Hrt Hb1 Hbn1)
    as HD.
  rewrite Hstored in HD. cbn [entries sequence] in HD.
  set (h2 := {| db := <[byname USER := _]> (<[USER := _]> (db h1)) |}) in HD.
  assert (HD2 : exists w2, UserHandler_DeleteUser h1 r 0 name = (Ok w2, h2)
                           /\ Status w2 = 204).
  { unfold UserHandler_DeleteUser. rewrite HD. eexists. split; reflexivity. }
  destruct HD2 as (w2 & HD2 & HS2).
  (* the second creation *)
  assert (Hb2 : db h2 !! USER
                = Some {| entries := entries_delete (u64tob id1)
                                       (entries_put (u64tob id1)
                                          (proto_Marshal_User (user id1)) (entries b));
                          sequence := id1 |}).
  { subst h2. cbn [db]. rewrite lookup_insert_ne by (apply not_eq_sym, byname_neq).
    apply lookup_insert_eq. }
  assert (Hbn2 : db h2 !! byname USER
                 = Some {| entries := entries_delete
                                        (list_byte_of_string (ToLower name))
                                        (entries_put
                                           (list_byte_of_string (ToLower name))
                                           (u64tob id1) (entries bn));
                           sequence := sequence bn |})
    by (subst h2; cbn [db]; apply lookup_insert_eq).
  pose proof (CreateUser_tx_commits h2 _ _ u0 Hb2 Hbn2) as HU3.
  rewrite Hname in HU3. cbn [entries sequence] in HU3.
  specialize (HU3 (entries_get_delete_eq _ _) Hne Hlen). cbn zeta in HU3.
  replace (id1 + 1) with (sequence b + 2) in HU3 by (subst id1; lia).
  specialize (HU3 Hseq Hs2).
  set (h3 := {| db := <[USER := _]> (<[byname USER := _]> (db h2)) |}) in HU3.
  assert (HC3 : exists w3, CreateUser h2 delta = (Ok w3, h3) /\ Status w3 = 201).
  { unfold CreateUser. cbn zeta. rewrite Hv. fold u0. rewrite HU3.
    eexists. split; reflexivity. }
  destruct HC3 as (w3 & HC3 & HS3).
  exists w1, h1, w2, h2, w3, h3. repeat split; auto.
  - unfold View.
    erewrite Lookup_byname
      by (unfold Tx_Bucket; subst h3; cbn [bolttx buckets ot db];
          rewrite lookup_insert_ne by apply byname_neq;
          apply lookup_insert_eq).
    cbn [fst entries]. rewrite entries_get_put_eq.
    apply btou64_u64tob. exact Hseq.
  - unfold View, Get, Tx_Bucket. subst h3. cbn [bolttx buckets ot db].
    rewrite lookup_insert_eq. cbn zeta. unfold Bucket_Get. cbn [entries].
    rewrite entries_get_put_ne.
    + now rewrite entries_get_delete_eq.
    + intros E. apply u64tob_inj in E; subst id1; lia.
Qed.

End UserRemoval.

Lemma CreateUser_stores_and_indexes_witness :
  exists w h',
    CreateUser (GoStrings := asciiStrings) (W := exampleWire)
      exampleRepo (aliceDelta "Bob") = (Ok w, h')
    /\ Status w = 201
    /\ Header w !! Location = Some "/user/Bob"%string
    /\ View h' USER (Lookup (GoStrings := asciiStrings) "Bob") = Ok 2.
Proof.
  destruct (CreateUser_stores_and_indexes (GoStrings := asciiStrings)
              (W := exampleWire) exampleRepo (aliceDelta "Bob") "Bob"
              {| entries := [(u64tob 1, u64tob 1 ++ list_byte_of_string "alice")];
                 sequence := 1 |}
              {| entries := [(list_byte_of_string "alice", u64tob 1)];
                 sequence := 0 |})
    as (w & h' & HC & HS & HL & _ & _ & Hlook & _).
  - reflexivity.
  - reflexivity.
  - reflexivity.
  - reflexivity.
  - reflexivity.
  - discriminate.
  - vm_compute. discriminate.
  - reflexivity.
  - vm_compute. discriminate.
  - exists w, h'. repeat split; auto.
Defined.

Lemma DeleteUser_removes_record_and_name_witness :
  exists w h',
    UserHandler_DeleteUser (GoStrings := asciiStrings) (W := exampleWire)
      exampleRepo (exampleRequest "DELETE" "/user/Alice") 0 "Alice" = (Ok w, h')
    /\ Status w = 204
    /\ View h' USER (Get 1) = Err (NotFoundError USER 1 "")
    /\ sequence_of (db h') USER = sequence_of (db exampleRepo) USER.
Proof.
  destruct (DeleteUser_removes_record_and_name (GoStrings := asciiStrings)
              (W := exampleWire) exampleRepo
              (exampleRequest "DELETE" "/user/Alice") 0 "Alice" 1
              {| entries := [(u64tob 1, u64tob 1 ++ list_byte_of_string "alice")];
                 sequence := 1 |}
              {| entries := [(list_byte_of_string "alice", u64tob 1)];
                 sequence := 0 |}) as [Hdel _].
  - vm_compute. reflexivity.
  - reflexivity.
  - reflexivity.
  - destruct (Hdel (u64tob 1 ++ list_byte_of_string "alice") alice)
      as (w & h' & HD & HS & HG & _ & Hseq).
    + vm_compute. reflexivity.
    + vm_compute. reflexivity.
    + exists w, h'. repeat split; auto.
Defined.

Lemma deleted_name_is_created_again_with_next_id_witness :
  exists w1 h1 w2 h2 w3 h3,
    CreateUser (GoStrings := asciiStrings) (W := exampleWire)
      exampleRepo (aliceDelta "Bob") = (Ok w1, h1) /\ Status w1 = 201
    /\ UserHandler_DeleteUser (GoStrings := asciiStrings) (W := exampleWire)
         h1 (exampleRequest "DELETE" "/user/Bob") 0 "Bob" = (Ok w2, h2)
    /\ Status w2 = 204
    /\ CreateUser (GoStrings := asciiStrings) (W := exampleWire)
         h2 (aliceDelta "Bob") = (Ok w3, h3) /\ Status w3 = 201
    /\ View h3 USER (Lookup (GoStrings := asciiStrings) "Bob") = Ok 3
    /\ View h3 USER (Get 2) = Err (NotFoundError USER 2 "").
Proof.
  apply (deleted_name_is_created_again_with_next_id (GoStrings := asciiStrings)
           (W := exampleWire) exampleRepo
           (exampleRequest "DELETE" "/user/Bob") (aliceDelta "Bob") "Bob"
           {| entries := [(u64tob 1, u64tob 1 ++ list_byte_of_string "alice")];
              sequence := 1 |}
           {| entries := [(list_byte_of_string "alice", u64tob 1)];
              sequence := 0 |}
           (User.mk 2 "Bob" "" "" "")).
  - reflexivity.
  - reflexivity.
  - reflexivity.
  - reflexivity.
  - reflexivity.
  - discriminate.
  - vm_compute. discriminate.
  - reflexivity.
  - vm_compute. discriminate.
  - vm_compute. discriminate.
  - vm_compute. reflexivity.
  - reflexivity.
Defined.

(** ** Validation *)

Section Validation.
Context {GoStrings : Strings} {W : Wire}.

Lemma str_eqb_true_iff (a b : string) : str_eqb a b = true <-> a = b.
Proof. unfold str_eqb. apply String.eqb_eq. Qed.

(** What a delta that [Validate] accepts looks like. For a new user the
    name and the e-mail are present, not empty, and match their
    patterns; for a new group the name is. Whatever the lifetime, a
    display name, URL or description that is present is empty or matches
    its pattern, and a list of users that is present contains no id 0. *)
Theorem Validate_accepts_well_formed_deltas :
  (forall d : UserDelta.t,
      UserDelta_Validate d NewUser = None ->
      exists n e,
        UserDelta.UserName d = Some n /\ n <> ""%string
        /\ reUserName_MatchString n = true
        /\ UserDelta.EMail d = Some e /\ e <> ""%string
        /\ reEMail_MatchString e = true)
  /\ (forall (d : UserDelta.t) (lifetime : bool),
      UserDelta_Validate d lifetime = None ->
      (forall s, UserDelta.DisplayName d = Some s ->
                 s = ""%string \/ reUserDisplayName_MatchString s = true)
      /\ (forall s, UserDelta.EMail d = Some s ->
                    s <> ""%string /\ reEMail_MatchString s = true)
      /\ (forall s, UserDelta.URL d = Some s ->
                    s = ""%string \/ reURL_MatchString s = true))
  /\ (forall d : GroupDelta.t,
      GroupDelta_Validate d NewGroup = None ->
      exists n,
        GroupDelta.GroupName d = Some n /\ n <> ""%string
        /\ reGroupName_MatchString n = true)
  /\ (forall (d : GroupDelta.t) (lifetime : bool),
      GroupDelta_Validate d lifetime = None ->
      (forall s, GroupDelta.Description d = Some s ->
                 s = ""%string \/ reGroupDescription_MatchString s = true)
      /\ (forall ids, GroupDelta.Users d = Some ids -> Forall (fun id => id <> 0) ids)).
Proof.
  repeat split.
  - intros [dn dd de du]. unfold UserDelta_Validate, NewUser.
    cbn [UserDelta.UserName UserDelta.DisplayName UserDelta.EMail UserDelta.URL
         negb andb].
    destruct dn as [n|]; [|discriminate]. destruct de as [e|]; [|discriminate].
    rewrite !bool_decide_eq_true_2 by eauto. cbn [negb].
    destruct (str_eqb n "") eqn:En; [discriminate|].
    destruct (reUserName_MatchString n) eqn:Rn; [|discriminate]. cbn [negb].
    destruct dd as [s|];
      [destruct (str_eqb s ""); [|destruct (reUserDisplayName_MatchString s);
                                  [|discriminate]]|];
      cbn [negb];
      (destruct (str_eqb e "") eqn:Ee; [discriminate|]);
      (destruct (reEMail_MatchString e) eqn:Re; [|discriminate]);
      intros _; exists n, e; repeat split; auto;
      intros ->; discriminate.
  - intros s Hs. destruct d as [dn dd de du]. cbn in Hs. subst dd.
    revert H. unfold UserDelta_Validate.
    cbn [UserDelta.UserName UserDelta.DisplayName UserDelta.EMail UserDelta.URL].
    destruct (negb lifetime && _); [discriminate|].
    destruct (negb lifetime && _); [discriminate|].
    destruct (match dn with Some _ => _ | None => _ end); [discriminate|].
    destruct (str_eqb s "") eqn:E; [left; now apply str_eqb_true_iff|].
    destruct (reUserDisplayName_MatchString s); [now right|discriminate].
  - destruct d as [dn dd de du]. cbn in H0. subst de.
    revert H. unfold UserDelta_Validate.
    cbn [UserDelta.UserName UserDelta.DisplayName UserDelta.EMail UserDelta.URL].
    destruct (negb lifetime && _); [discriminate|].
    destruct (negb lifetime && _); [discriminate|].
    destruct (match dn with Some _ => _ | None => _ end); [discriminate|].
    destruct (match dd with Some _ => _ | None => _ end); [discriminate|].
    destruct (str_eqb s "") eqn:E; [discriminate|].
    intros _ ->. discriminate.
  - destruct d as [dn dd de du]. cbn in H0. subst de.
    revert H. unfold UserDelta_Validate.
    cbn [UserDelta.UserName UserDelta.DisplayName UserDelta.EMail UserDelta.URL].
    destruct (negb lifetime && _); [discriminate|].
    destruct (negb lifetime && _); [discriminate|].
    destruct (match dn with Some _ => _ | None => _ end); [discriminate|].
    destruct (match dd with Some _ => _ | None => _ end); [discriminate|].
    destruct (str_eqb s ""); [discriminate|].
    destruct (reEMail_MatchString s); [reflexivity|discriminate].
  - intros s Hs. destruct d as [dn dd de du]. cbn in Hs. subst du.
    revert H. unfold UserDelta_Validate.
    cbn [UserDelta.UserName UserDelta.DisplayName UserDelta.EMail UserDelta.URL].
    destruct (negb lifetime && _); [discriminate|].
    destruct (negb lifetime && _); [discriminate|].
    destruct (match dn with Some _ => _ | None => _ end); [discriminate|].
    destruct (match dd with Some _ => _ | None => _ end); [discriminate|].
    destruct (match de with Some _ => _ | None => _ end); [discriminate|].
    destruct (str_eqb s "") eqn:E; [left; now apply str_eqb_true_iff|].
    destruct (reURL_MatchString s); [now right|discriminate].
  - intros [dn dd du]. unfold GroupDelta_Validate, NewGroup.
    cbn [GroupDelta.GroupName GroupDelta.Description GroupDelta.Users negb andb].
    destruct dn as [n|]; [|discriminate].
    rewrite !bool_decide_eq_true_2 by eauto. cbn [negb].
    destruct (str_eqb n "") eqn:En; [discriminate|].
    destruct (reGroupName_MatchString n) eqn:Rn; [|discriminate].
    intros _. exists n. repeat split; auto. intros ->. discriminate.
  - intros s Hs. destruct d as [dn dd du]. cbn in Hs. subst dd.
    revert H. unfold GroupDelta_Validate.
    cbn [GroupDelta.GroupName GroupDelta.Description GroupDelta.Users].
    destruct (negb lifetime && _); [discriminate|].
    destruct (match dn with Some _ => _ | None => _ end); [discriminate|].
    destruct (str_eqb s "") eqn:E; [left; now apply str_eqb_true_iff|].
    destruct (reGroupDescription_MatchString s); [now right|discriminate].
  - intros ids Hids. destruct d as [dn dd du]. cbn in Hids. subst du.
    revert H. unfold GroupDelta_Validate.
    cbn [GroupDelta.GroupName GroupDelta.Description GroupDelta.Users].
    destruct (negb lifetime && _); [discriminate|].
    destruct (match dn with Some _ => _ | None => _ end); [discriminate|].
    destruct (match dd with Some _ => _ | None => _ end); [discriminate|].
    destruct (existsb _ ids) eqn:E; [discriminate|]. intros _.
    apply List.Forall_forall. intros id Hin ->.
    assert (Ht : existsb (fun id => id =? 0) ids = true)
      by (apply existsb_exists; exists 0; auto).
    congruence.
Qed.

(** Names and ids are immutable. [Validate] rejects, for an existing
    user or group, every delta that provides a name, and [PutUser] and
    [PutGroup] then reply 400 with that message and leave the store
    alone; a delta that is accepted for an existing record leaves the
    name and the id of the record it is applied to as they are. *)
Theorem names_cannot_be_changed :
  (forall (h : Repo) (d : UserDelta.t) (expect : string) (id : N)
          (name n : string),
      UserDelta.UserName d = Some n ->
      PutUser h d expect id name
      = (Ok (http_Error newResponse "Field 'user_name' cannot be changed" 400), h))
  /\ (forall (d : UserDelta.t) (u : User.t),
      UserDelta_Validate d ExistingUser = None ->
      User.UserName (UserDelta_Apply d u) = User.UserName u
      /\ User.Id (UserDelta_Apply d u) = User.Id u)
  /\ (forall (h : Repo) (d : GroupDelta.t) (expect : string) (id : N)
             (name n : string),
      GroupDelta.GroupName d = Some n ->
      PutGroup h d expect id name
      = (Ok (http_Error newResponse "Field 'group_name' cannot be changed" 400), h))
  /\ (forall (d : GroupDelta.t) (g : Group.t),
      GroupDelta_Validate d ExistingGroup = None ->
      Group.GroupName (GroupDelta_Apply d g) = Group.GroupName g
      /\ Group.Id (GroupDelta_Apply d g) = Group.Id g).
Proof.
  split; [|split; [|split]].
  - intros h d expect id name n Hn. unfold PutUser. cbn zeta.
    destruct d as [dn dd de du]. cbn in Hn. subst dn. reflexivity.
  - intros d u Hv.
    assert (Hn : UserDelta.UserName d = None).
    { destruct d as [[n|] dd de du]; [discriminate Hv | reflexivity]. }
    destruct (UserDelta_Apply_frame d u) as (Hid & Hname & _). auto.
  - intros h d expect id name n Hn. unfold PutGroup. cbn zeta.
    destruct d as [dn dd du]. cbn in Hn. subst dn. reflexivity.
  - intros d g Hv.
    assert (Hn : GroupDelta.GroupName d = None).
    { destruct d as [[n|] dd du]; [discriminate Hv | reflexivity]. }
    destruct (GroupDelta_Apply_frame d g) as (Hid & Hname & _). auto.
Qed.

End Validation.

Lemma Validate_accepts_well_formed_deltas_witness :
  exists n e,
    UserDelta.UserName (aliceDelta "Bob") = Some n /\ n <> ""%string
    /\ reUserName_MatchString (Wire := exampleWire) n = true
    /\ UserDelta.EMail (aliceDelta "Bob") = Some e /\ e <> ""%string
    /\ reEMail_MatchString (Wire := exampleWire) e = true.
Proof.
  apply (proj1 (Validate_accepts_well_formed_deltas (W := exampleWire))
           (aliceDelta "Bob")).
  reflexivity.
Defined.

Lemma names_cannot_be_changed_witness :
  PutUser (GoStrings := asciiStrings) (W := exampleWire) exampleRepo
    (aliceDelta "Bob") aliceETag 1 ""
  = (Ok (http_Error newResponse "Field 'user_name' cannot be changed" 400),
     exampleRepo).
Proof.
  apply (proj1 (names_cannot_be_changed (GoStrings := asciiStrings)
                  (W := exampleWire))
           exampleRepo (aliceDelta "Bob") aliceETag 1 ""%string "Bob"%string).
  reflexivity.
Defined.

(** ** Addressing by name or by id *)

Section Addressing.
Context {GoStrings : Strings} {W : Wire} {X : Net}.

Lemma resolved_first {A : Type} h (name other : string) (id : N) (k : N -> M A) :
  View h USER (Lookup name) = Ok id -> id <> 0 ->
  bind (if 0 =? 0 then Lookup name else ret 0) k (tx_of true h USER)
  = bind (if id =? 0 then Lookup other else ret id) k (tx_of true h USER)
  /\ bind (if 0 =? 0 then Lookup name else ret 0) k (tx_of false h USER)
     = bind (if id =? 0 then Lookup other else ret id) k (tx_of false h USER).
Proof.
  intros Hl Hid. apply N.eqb_neq in Hid. rewrite Hid.
  change (0 =? 0) with true. cbn iota. unfold bind, ret.
  rewrite !Lookup_tx_of, Hl. auto.
Qed.

(** A user can be addressed by name or by id with the same effect: when
    the name index maps the name to an id other than 0, [GetUser],
    [PutUser] and [DeleteUser] with id 0 and that name do what they do
    with that id (and any name). *)
Theorem name_and_id_address_the_same_user (h : Repo) (r : Request.t)
  (delta : UserDelta.t) (expect name other : string) (id : N) :
  View h USER (Lookup name) = Ok id ->
  id <> 0 ->
  UserHandler_GetUser h r 0 name = UserHandler_GetUser h r id other
  /\ PutUser h delta expect 0 name = PutUser h delta expect id other
  /\ UserHandler_DeleteUser h r 0 name = UserHandler_DeleteUser h r id other.
Proof.
  intros Hl Hid. split; [|split].
  - unfold UserHandler_GetUser, View, GetUser_tx.
    change {| bolttx := {| writable := false; buckets := db h |}; ot := USER |}
      with (tx_of false h USER).
    now rewrite (proj2 (resolved_first h name other id _ Hl Hid)).
  - unfold PutUser, Update, PutUser_tx. cbn zeta.
    change {| bolttx := {| writable := true; buckets := db h |}; ot := USER |}
      with (tx_of true h USER).
    now rewrite (proj1 (resolved_first h name other id _ Hl Hid)).
  - unfold UserHandler_DeleteUser, Update, DeleteUser_tx.
    change {| bolttx := {| writable := true; buckets := db h |}; ot := USER |}
      with (tx_of true h USER).
    now rewrite (proj1 (resolved_first h name other id _ Hl Hid)).
Qed.

End Addressing.

Lemma name_and_id_address_the_same_user_witness :
  UserHandler_GetUser (GoStrings := asciiStrings) (W := exampleWire)
    (X := exampleNet) exampleRepo (exampleRequest "GET" "/user/ALICE") 0 "ALICE"
  = UserHandler_GetUser (GoStrings := asciiStrings) (W := exampleWire)
      (X := exampleNet) exampleRepo (exampleRequest "GET" "/user/ALICE") 1 "".
Proof.
  apply (proj1 (name_and_id_address_the_same_user (GoStrings := asciiStrings)
                  (W := exampleWire) (X := exampleNet) exampleRepo
                  (exampleRequest "GET" "/user/ALICE") displayDelta ""
                  "ALICE" "" 1 ltac:(vm_compute; reflexivity)
                  ltac:(discriminate))).
Defined.

(** ** Listings *)

Section Listings.
Context {GoStrings : Strings} {W : Wire} {X : Net}.

Lemma Bucket_ForEach_ids es : forall (l : list N),
  Forall encoded_key es ->
  Bucket_ForEach es
    (fun k v (s : list N) =>
       match btou64 k with
       | Ok id => (Ok tt, s ++ [id])
       | Err e => (Err e, s)
       | Panic => (Panic, s)
       end) l
  = (Ok tt, l ++ map (fun e => be_value (fst e)) es).
Proof.
  induction es as [|[k v] es IH]; intros l Hall; cbn [Bucket_ForEach map].
  - now rewrite app_nil_r.
  - inversion Hall as [|? ? Hk Hes]; subst.
    destruct Hk as (id & Hid & E). cbn [fst] in E. subst k.
    rewrite btou64_u64tob by assumption.
    rewrite IH by assumption. cbn [fst].
    rewrite be_value_u64tob, N.mod_small by assumption.
    now rewrite <- app_assoc.
Qed.

Lemma Bucket_ForEach_users es : forall (l users : list User.t),
  Forall encoded_key es ->
  map (fun e => proto_Unmarshal_User (snd e)) es = map Some users ->
  Bucket_ForEach es
    (fun k v (s : list User.t) =>
       match btou64 k with
       | Ok _ =>
           match proto_Unmarshal_User v with
           | Some u => (Ok tt, s ++ [u])
           | None => (Panic, s)
           end
       | Err e => (Err e, s)
       | Panic => (Panic, s)
       end) l
  = (Ok tt, l ++ users).
Proof.
  induction es as [|[k v] es IH]; intros l users Hall Hu;
    destruct users as [|u users]; try discriminate Hu;
    cbn [Bucket_ForEach map].
  - now rewrite app_nil_r.
  - inversion Hall as [|? ? Hk Hes]; subst.
    destruct Hk as (id & Hid & E). cbn [fst] in E. subst k.
    cbn [map snd] in Hu. injection Hu as Hv Hrest.
    rewrite btou64_u64tob by assumption. rewrite Hv.
    rewrite (IH _ users) by assumption.
    now rewrite <- app_assoc.
Qed.

(** Listings follow the order of ids. On a primary bucket filled through
    [Tx.Put] and [Tx.Delete], [ListBlobs] lists exactly the ids that have
    a record, each once, in strictly ascending order; [ListUsers] lists
    the stored users in ascending order of the id they are stored
    under, when every stored record can be unmarshalled. *)
Theorem listings_follow_id_order (h : Repo) (r : Request.t) :
  (forall b,
      db h !! BLOB = Some b -> primary_entries (entries b) ->
      exists ids,
        View h BLOB ListBlobs_tx = Ok ids
        /\ StronglySorted N.lt ids
        /\ (forall id, id < 2 ^ 64 ->
              In id ids <-> exists v, View h BLOB (Get id) = Ok v)
        /\ BlobHandler_ListBlobs h r
           = (Ok (serveJSON r MediaTypeJSON (MustMarshalJSON_BlobList ids)
                    (MustMarshalJSON_BlobList ids)), h))
  /\ (forall b,
      db h !! USER = Some b -> primary_entries (entries b) ->
      exists records : list (N * bytes),
        StronglySorted N.lt (map fst records)
        /\ (forall id v, id < 2 ^ 64 ->
              In (id, v) records <-> View h USER (Get id) = Ok v)
        /\ (forall users,
              map (fun p => proto_Unmarshal_User (snd p)) records
              = map Some users ->
              View h USER ListUsers_tx = Ok users
              /\ UserHandler_ListUsers h r
                 = (Ok (serveJSON r MediaTypeJSON (MustMarshalJSON_UserList users)
                          (MustMarshalJSON_UserList users)), h))).
Proof.
  split.
  - intros b Hb Hprim.
    destruct (primary_entries_inv _ Hprim) as [Hs Henc].
    assert (HV : View h BLOB ListBlobs_tx
                 = Ok (map (fun e => be_value (fst e)) (entries b))).
    { unfold View, ListBlobs_tx, ForEach, Tx_Bucket.
      cbn [bolttx buckets ot]. rewrite Hb.
      now rewrite Bucket_ForEach_ids. }
    exists (map (fun e => be_value (fst e)) (entries b)).
    split; [exact HV|]. split; [now apply decoded_sorted|]. split.
    + intros id Hid. unfold View, Get, Tx_Bucket. cbn [bolttx buckets ot].
      rewrite Hb. cbn zeta. unfold Bucket_Get. split.
      * intros Hin. apply in_map_iff in Hin as ([k v] & Ek & Hin).
        cbn [fst] in Ek. exists v.
        assert (Hd : In (id, v) (map (fun e => (be_value (fst e), snd e)) (entries b))).
        { apply in_map_iff. exists (k, v). cbn [fst snd]. split; congruence. }
        apply decoded_In in Hd; auto. now rewrite Hd.
      * intros [v Hv].
        destruct (entries_get (u64tob id) (entries b)) as [v'|] eqn:E;
          [|discriminate Hv].
        apply entries_get_In in E. apply in_map_iff.
        exists (u64tob id, v'). split; [|exact E].
        cbn [fst]. now rewrite be_value_u64tob, N.mod_small.
    + unfold BlobHandler_ListBlobs. now rewrite HV.
  - intros b Hb Hprim.
    destruct (primary_entries_inv _ Hprim) as [Hs Henc].
    exists (map (fun e => (be_value (fst e), snd e)) (entries b)).
    split; [rewrite List.map_map; now apply decoded_sorted|]. split.
    + intros id v Hid. unfold View, Get, Tx_Bucket. cbn [bolttx buckets ot].
      rewrite Hb. cbn zeta. unfold Bucket_Get.
      rewrite decoded_In by assumption.
      destruct (entries_get (u64tob id) (entries b)); cbn [fst];
        split; congruence.
    + intros users Hu. rewrite List.map_map in Hu. cbn [snd] in Hu.
      assert (HV : View h USER ListUsers_tx = Ok users).
      { unfold View, ListUsers_tx, ForEach, Tx_Bucket.
        cbn [bolttx buckets ot]. rewrite Hb.
        now rewrite (Bucket_ForEach_users (entries b) [] users). }
      split; [exact HV|]. unfold UserHandler_ListUsers. now rewrite HV.
Qed.

End Listings.

Lemma listings_follow_id_order_witness :
  exists ids,
    View {| db := buckets (bolttx example312) |} BLOB ListBlobs_tx = Ok ids
    /\ StronglySorted N.lt ids.
Proof.
  destruct (proj1 (listings_follow_id_order (W := exampleWire) (X := exampleNet)
                     {| db := buckets (bolttx example312) |}
                     (exampleRequest "GET" "/blob"))
              {| entries :=
                   entries_put (u64tob 2) [x02]
                     (entries_put (u64tob 1) [x01]
                        (entries_put (u64tob 3) [x03] []));
                 sequence := 3 |})
    as (ids & HV & Hs & _).
  - reflexivity.
  - cbn [entries].
    apply primary_put; [|reflexivity].
    apply primary_put; [|reflexivity].
    apply primary_put; [|reflexivity].
    apply primary_empty.
  - exists ids. split; assumption.
Defined.

(** ** Blobs *)

Section Blobs.
Context {W : Wire} {X : Net}.

Lemma CreateBlob_tx_commits h b blob :
  db h !! BLOB = Some b ->
  sequence b + 1 < 2 ^ 64 ->
  N.of_nat (length blob) <= MaxValueSize ->
  Update h BLOB (CreateBlob_tx blob)
  = (Ok (sequence b + 1),
     {| db := <[BLOB := {| entries := entries_put (u64tob (sequence b + 1)) blob
                                        (entries b);
                           sequence := sequence b + 1 |}]> (db h) |}).
Proof.
  intros Hb Hseq Hsize. unfold Update, CreateBlob_tx.
  change {| bolttx := {| writable := true; buckets := db h |}; ot := BLOB |}
    with (tx_of true h BLOB).
  unfold bind at 1.
  rewrite (AllocateId_succeeds (tx_of true h BLOB) b Hb eq_refl).
  rewrite N.mod_small by assumption.
  set (tx1 := set_bucket (tx_of true h BLOB) (ot (tx_of true h BLOB)) _).
  unfold bind at 1.
  rewrite (Put_succeeds tx1 {| entries := entries b; sequence := sequence b + 1 |}
             (sequence b + 1) blob); auto;
    [|subst tx1; apply Tx_Bucket_set_eq].
  unfold ret. f_equal. f_equal. subst tx1.
  cbn [set_bucket bolttx buckets ot tx_of entries sequence].
  apply insert_insert_eq.
Qed.

(** A blob that was created is served back as it was sent. [CreateBlob],
    on a request with exactly one content type that is not multipart,
    stores the body under the id after the sequence counter and replies
    201 with [Location] "/blob/<id>" and the entity tag of the body;
    [GetBlob] of that id then passes exactly these bytes to
    [ServeContent], with the same entity tag set. A request without
    exactly one content type, or with a multipart one, gets 415 and
    leaves the store alone. *)
Theorem CreateBlob_then_GetBlob (h : Repo) (r r2 : Request.t) :
  (forall (ct : string) (blob : bytes) (b : Bucket),
      Request.Header r !! ContentType = Some [ct] ->
      reMultipartMediaType_MatchString ct = false ->
      Request.Body r = Some blob ->
      db h !! BLOB = Some b ->
      sequence b + 1 < 2 ^ 64 ->
      N.of_nat (length blob) <= MaxValueSize ->
      exists w h' w2,
        BlobHandler_CreateBlob h r = (Ok w, h')
        /\ Status w = 201
        /\ Header w !! Location = Some ("/blob/" ++ itoa (sequence b + 1))%string
        /\ Header w !! ETag = Some (ETagFor blob)
        /\ Body w = MustMarshalJSON_BlobReference (sequence b + 1)
        /\ BlobHandler_GetBlob h' r2 (sequence b + 1)
           = (Ok (http_ServeContent w2 r2 blob), h')
        /\ Header w2 !! ETag = Some (ETagFor blob)
        /\ Header w2 !! ContentType = Some MediaTypeBinary)
  /\ ((forall ct, Request.Header r !! ContentType = Some [ct] ->
                  reMultipartMediaType_MatchString ct = true) ->
      BlobHandler_CreateBlob h r
      = (Ok (http_Error newResponse "Unsupported Media Type" 415), h)).
Proof.
  split.
  - intros ct blob b Hct Hm Hbody Hb Hseq Hsize.
    unfold BlobHandler_CreateBlob. cbn zeta. rewrite Hct, Hm, Hbody.
    rewrite (CreateBlob_tx_commits h b blob Hb Hseq Hsize).
    eexists _, _, _. split; [reflexivity|]. split; [reflexivity|].
    split; [|split; [|split; [reflexivity|]]].
    + cbn [Header Write WriteHeader Header_Set]. apply lookup_insert_eq.
    + cbn [Header Write WriteHeader Header_Set].
      rewrite lookup_insert_ne by discriminate. apply lookup_insert_eq.
    + split; [|split].
      * unfold BlobHandler_GetBlob, View, Get, Tx_Bucket.
        cbn [bolttx buckets ot db fst]. rewrite lookup_insert_eq. cbn zeta.
        unfold Bucket_Get. cbn [entries]. rewrite entries_get_put_eq.
        cbn [fst]. unfold serveJSON. reflexivity.
      * cbn [Header Header_Set]. apply lookup_insert_eq.
      * cbn [Header Header_Set].
        rewrite !lookup_insert_ne by discriminate. apply lookup_insert_eq.
  - intros Hall. unfold BlobHandler_CreateBlob. cbn zeta.
    destruct (Request.Header r !! ContentType) as [[|ct [|ct2 l]]|] eqn:E;
      try reflexivity.
    now rewrite (Hall ct eq_refl).
Qed.

End Blobs.

Lemma CreateBlob_then_GetBlob_witness :
  exists w h' w2,
    BlobHandler_CreateBlob (W := exampleWire) (X := exampleNet) exampleRepo
      (Request.mk "POST" "/blob" {[ ContentType := ["text/plain"%string] ]}
         (Some [x68; x69]) "192.0.2.1:4000") = (Ok w, h')
    /\ Status w = 201
    /\ Header w !! Location = Some "/blob/1"%string
    /\ BlobHandler_GetBlob (W := exampleWire) (X := exampleNet) h'
         (exampleRequest "GET" "/blob/1") 1
       = (Ok (http_ServeContent (Net := exampleNet) w2
                (exampleRequest "GET" "/blob/1") [x68; x69]), h').
Proof.
  destruct (proj1 (CreateBlob_then_GetBlob (W := exampleWire) (X := exampleNet)
                     exampleRepo
                     (Request.mk "POST" "/blob"
                        {[ ContentType := ["text/plain"%string] ]}
                        (Some [x68; x69]) "192.0.2.1:4000")
                     (exampleRequest "GET" "/blob/1"))
              "text/plain"%string [x68; x69] emptyBucket)
    as (w & h' & w2 & HC & HS & HL & _ & _ & HG & _).
  - reflexivity.
  - reflexivity.
  - reflexivity.
  - reflexivity.
  - reflexivity.
  - vm_compute. discriminate.
  - exists w, h', w2. repeat split; auto.
Defined.

(** ** Forwarded addresses *)

Lemma Split_nonempty s sep : Split s sep <> [].
Proof.
  destruct s as [|c s]; cbn; [discriminate|].
  destruct (Ascii.eqb c sep); [discriminate|].
  destruct (Split s sep); discriminate.
Qed.

Lemma Split_without_separator s sep :
  allChars (fun c => negb (Ascii.eqb c sep)) s = true -> Split s sep = [s].
Proof.
  induction s as [|c s IH]; cbn; [reflexivity|].
  intros H. apply andb_prop in H as [Hc Hs].
  destruct (Ascii.eqb c sep); [discriminate|]. now rewrite (IH Hs).
Qed.

Lemma Split_app a b sep :
  Split (a ++ String sep b) sep = Split a sep ++ Split b sep.
Proof.
  induction a as [|c a IH].
  - change ("" ++ String sep b)%string with (String sep b).
    cbn [Split]. now rewrite Ascii.eqb_refl.
  - change (String c a ++ String sep b)%string
      with (String c (a ++ String sep b)).
    cbn [Split]. rewrite IH. destruct (Ascii.eqb c sep); [reflexivity|].
    destruct (Split a sep) eqn:E; [now apply Split_nonempty in E|reflexivity].
Qed.

Lemma string_append_assoc (a b c : string) :
  ((a ++ b) ++ c = a ++ b ++ c)%string.
Proof.
  induction a as [|x a IH]; [reflexivity|].
  change (String x ((a ++ b) ++ c) = String x (a ++ b ++ c))%string.
  now rewrite IH.
Qed.

Lemma Join_snoc front x sep :
  Join (front ++ [x]) sep = x
  \/ exists p, Join (front ++ [x]) sep = (p ++ sep ++ x)%string.
Proof.
  induction front as [|y front IH]; [now left|]. right.
  cbn [app Join]. destruct (front ++ [x]) as [|z l] eqn:E;
    [now destruct front|].
  destruct IH as [IH|[p IH]]; rewrite IH.
  - now exists y.
  - exists (y ++ sep ++ p)%string.
    now rewrite !string_append_assoc.
Qed.

Lemma nth_error_last {A : Type} (l : list A) (x : A) :
  nth_error (l ++ [x]) (length (l ++ [x]) - 1) = Some x.
Proof.
  rewrite length_app. cbn [length].
  replace (length l + 1 - 1)%nat with (length l) by lia.
  rewrite nth_error_app2 by lia. now rewrite Nat.sub_diag.
Qed.

Section Forwarded.
Context {X : Net} {A : Type}.

(** [UnproxyHandler.ServeHTTP] never indexes out of range, whatever the
    request. Without an [X-Forwarded-For] header the request reaches the
    inner handler unchanged. With the header, only the remote address is
    replaced: its host is the text after the last comma of the last header
    line (the whole line if it has no comma) without the spaces and tabs
    around it, and its port is the one of the old remote address, or "0"
    where that does not split. *)
Theorem Unproxy_takes_last_forwarded_entry (H : Request.t -> A)
  (r : Request.t) :
  UnproxyHandler_ServeHTTP H r <> Panic
  /\ (Request.Header r !! XForwardedFor = None ->
      UnproxyHandler_ServeHTTP H r = Ok (H r))
  /\ (forall (front : list string) (line entry : string),
        Request.Header r !! XForwardedFor = Some (front ++ [line]) ->
        (line = entry \/ exists before, line = (before ++ "," ++ entry)%string) ->
        allChars (fun c => negb (Ascii.eqb c ","%char)) entry = true ->
        UnproxyHandler_ServeHTTP H r
        = Ok (H (setRemoteAddr r
                   (net_JoinHostPort
                      (Trim entry (String " "%char (String "009"%char "")))
                      match net_SplitHostPort (Request.RemoteAddr r) with
                      | Some (_, port) => port
                      | None => "0"%string
                      end)))).
Proof.
  split; [|split].
  - unfold UnproxyHandler_ServeHTTP.
    destruct (Request.Header r !! XForwardedFor) as [forwarded|];
      [|discriminate].
    cbn zeta.
    destruct (Split (Join forwarded ",") ",") as [|x l] eqn:E;
      [now apply Split_nonempty in E|].
    destruct (nth_error (x :: l) (length (x :: l) - 1)) eqn:En;
      [discriminate|].
    apply nth_error_None in En. cbn [length] in En. lia.
  - intros Hnone. unfold UnproxyHandler_ServeHTTP. now rewrite Hnone.
  - intros front line entry Hsome Hline Hentry.
    unfold UnproxyHandler_ServeHTTP. rewrite Hsome. cbn zeta.
    assert (Hsplit : exists l, Split (Join (front ++ [line]) ",") ","
                               = l ++ [entry]).
    { destruct (Join_snoc front line ",") as [HJ|[p HJ]]; rewrite HJ;
        destruct Hline as [->|[before ->]].
      - exists []. now apply Split_without_separator.
      - exists (Split before ","). change ("," ++ entry)%string
          with (String ","%char entry).
        rewrite Split_app. now rewrite (Split_without_separator entry).
      - exists (Split p ","). change ("," ++ entry)%string
          with (String ","%char entry).
        rewrite Split_app. now rewrite (Split_without_separator entry).
      - exists (Split p "," ++ Split before ",").
        change ("," ++ before ++ "," ++ entry)%string
          with (String ","%char (before ++ String ","%char entry)).
        rewrite !Split_app, (Split_without_separator entry) by assumption.
        now rewrite app_assoc. }
    destruct Hsplit as [l ->]. now rewrite nth_error_last.
Qed.

End Forwarded.

Lemma Unproxy_takes_last_forwarded_entry_witness :
  UnproxyHandler_ServeHTTP (X := exampleNet) Request.RemoteAddr
    (Request.mk "GET" "/user"
       {[ XForwardedFor := ["203.0.113.7"%string;
                            "198.51.100.2, 192.0.2.44 "%string] ]}
       None "10.0.0.1:5000")
  = Ok "192.0.2.44:0"%string.
Proof.
  apply (proj2 (proj2 (Unproxy_takes_last_forwarded_entry (X := exampleNet)
                         Request.RemoteAddr
                         (Request.mk "GET" "/user"
                            {[ XForwardedFor := ["203.0.113.7"%string;
                                                 "198.51.100.2, 192.0.2.44 "%string] ]}
                            None "10.0.0.1:5000")))
           ["203.0.113.7"%string] "198.51.100.2, 192.0.2.44 "%string
           " 192.0.2.44 "%string).
  - reflexivity.
  - right. now exists "198.51.100.2"%string.
  - reflexivity.
Defined.

(** ** Request bodies *)

Section Bodies.
Context {GoStrings : Strings} {W : Wire} {X : Net}.

Lemma IsContentType_false r t :
  (forall s, Request.Header r !! ContentType = Some [s] ->
             strings_EqualFold s t = false) ->
  IsContentType r t = false.
Proof.
  intros Hs. unfold IsContentType.
  destruct (Request.Header r !! ContentType) as [[|s [|s2 l]]|];
    try reflexivity.
  now apply Hs.
Qed.

Lemma GetJSONBody_refused {A : Type} (unmarshal : bytes -> option A) r :
  (forall s, Request.Header r !! ContentType = Some [s] ->
             strings_EqualFold s MediaTypeJSON = false) ->
  GetJSONBody unmarshal newResponse r
  = (http_Error newResponse "Unsupported Media Type" 415, None).
Proof.
  intros Hs. unfold GetJSONBody. now rewrite (IsContentType_false r _ Hs).
Qed.

Lemma GetJSONBody_unparsed {A : Type} (unmarshal : bytes -> option A) r s raw :
  Request.Header r !! ContentType = Some [s] ->
  strings_EqualFold s MediaTypeJSON = true ->
  Request.Body r = Some raw ->
  GetJSONBody unmarshal newResponse r
  = match unmarshal raw with
    | None => (http_Error newResponse "Failed to parse JSON" 400, None)
    | Some v => (newResponse, Some v)
    end.
Proof.
  intros Hh Hs Hb. unfold GetJSONBody, IsContentType. now rewrite Hh, Hs, Hb.
Qed.

(** The creating and updating handlers look at the body before they look
    at the store. A request that does not carry exactly one
    [Content-Type] line equal to "application/json" up to case is
    answered 415; one with that content type whose body does not parse
    is answered 400; one whose body parses to a delta that [Validate]
    rejects is answered 400 with the message of [Validate]. In all these
    cases the store is left as it was. *)
Theorem unacceptable_bodies_are_refused (h : Repo) (r : Request.t)
  (id : N) (name : string) :
  ((forall s, Request.Header r !! ContentType = Some [s] ->
              strings_EqualFold s MediaTypeJSON = false) ->
   let refused := (Ok (http_Error newResponse "Unsupported Media Type" 415), h) in
   UserHandler_CreateUser h r = refused
   /\ UserHandler_PutUser h r id name = refused
   /\ GroupHandler_CreateGroup h r = refused
   /\ GroupHandler_PutGroup h r id name = refused)
  /\ (forall s raw,
        Request.Header r !! ContentType = Some [s] ->
        strings_EqualFold s MediaTypeJSON = true ->
        Request.Body r = Some raw ->
        let refused := (Ok (http_Error newResponse "Failed to parse JSON" 400), h) in
        (json_Unmarshal_UserDelta raw = None ->
         UserHandler_CreateUser h r = refused
         /\ UserHandler_PutUser h r id name = refused)
        /\ (json_Unmarshal_GroupDelta raw = None ->
            GroupHandler_CreateGroup h r = refused
            /\ GroupHandler_PutGroup h r id name = refused)
        /\ (forall d msg,
              json_Unmarshal_UserDelta raw = Some d ->
              (UserDelta_Validate d NewUser = Some msg ->
               UserHandler_CreateUser h r
               = (Ok (http_Error newResponse msg 400), h))
              /\ (UserDelta_Validate d ExistingUser = Some msg ->
                  UserHandler_PutUser h r id name
                  = (Ok (http_Error newResponse msg 400), h)))
        /\ (forall d msg,
              json_Unmarshal_GroupDelta raw = Some d ->
              (GroupDelta_Validate d NewGroup = Some msg ->
               GroupHandler_CreateGroup h r
               = (Ok (http_Error newResponse msg 400), h))
              /\ (GroupDelta_Validate d ExistingGroup = Some msg ->
                  GroupHandler_PutGroup h r id name
                  = (Ok (http_Error newResponse msg 400), h)))).
Proof.
  split.
  - intros Hs refused.
    unfold UserHandler_CreateUser, UserHandler_PutUser,
      GroupHandler_CreateGroup, GroupHandler_PutGroup.
    rewrite !(GetJSONBody_refused _ r Hs). auto.
  - intros s raw Hh Hs Hb refused.
    unfold UserHandler_CreateUser, UserHandler_PutUser,
      GroupHandler_CreateGroup, GroupHandler_PutGroup.
    rewrite !(GetJSONBody_unparsed _ r s raw Hh Hs Hb).
    split; [|split; [|split]].
    + intros ->. auto.
    + intros ->. auto.
    + intros d msg ->. split; intros Hv.
      * unfold CreateUser. cbn zeta. now rewrite Hv.
      * unfold PutUser. cbn zeta. now rewrite Hv.
    + intros d msg ->. split; intros Hv.
      * unfold CreateGroup. cbn zeta. now rewrite Hv.
      * unfold PutGroup. cbn zeta. now rewrite Hv.
Qed.

End Bodies.

Lemma unacceptable_bodies_are_refused_witness :
  UserHandler_CreateUser (GoStrings := asciiStrings) (W := exampleWire)
    (X := exampleNet) exampleRepo
    (Request.mk "POST" "/user"
       {[ ContentType := ["application/json"%string; "application/json"%string] ]}
       (Some []) "192.0.2.1:4000")
  = (Ok (http_Error newResponse "Unsupported Media Type" 415), exampleRepo).
Proof.
  apply (proj1 (unacceptable_bodies_are_refused (GoStrings := asciiStrings)
                  (W := exampleWire) (X := exampleNet) exampleRepo
                  (Request.mk "POST" "/user"
                     {[ ContentType := ["application/json"%string;
                                        "application/json"%string] ]}
                     (Some []) "192.0.2.1:4000") 0 "")).
  intros s Hs. vm_compute in Hs. discriminate Hs.
Defined.
